(** * Customer emotion panel: orchestration core

    A shallow embedding of the two variants of the Lightning web component
    [CustomerEmotionPanel]:

    - [PersistPanel]: lwc/customerEmotionPanel/customerEmotionPanel.js
      (analysis with persistence, panel configuration, full-history fetch);
    - [PlainPanel]: the persistence-free variant (unnamed/part_000).

    JavaScript's [async] methods are split at their [await] points: the part
    of a method that runs synchronously up to the first external call is one
    function, the part that runs when the external promise settles is another.
    A handler therefore runs atomically up to its next suspension point, and
    the panel is a labelled transition system whose labels are the deliveries
    of the host (events, wire results, settled promises, timers).

    One step is one turn of the host: the delivery and every resumption that
    follows from it without a further external completion.  When an awaited
    method of the panel returns, the callers that await it resume in later
    microtasks of the same turn; the step takes them together.  This is the
    order of the code whenever no second external call settles in the same
    turn; the interleavings of two calls settled in one turn are not
    covered. *)

From Stdlib Require Import String Ascii List Bool Arith ZArith Lia.
From Stdlib Require Import DecimalString.
Import ListNotations.
Open Scope string_scope.
Set Warnings "-register-all".

(** ** JavaScript values *)

Module JS.

(** The loosely-typed payloads that reach the panel (analysis responses,
    message payloads, wire results, rejection reasons).  Numbers are kept to
    the integers, strings to byte strings; objects are association lists read
    at their first binding. *)
Inductive value : Type :=
| VUndefined
| VNull
| VBool (b : bool)
| VNum (n : Z)
| VStr (s : string)
| VArr (items : list value)
| VObj (fields : list (string * value)).

(** A small error monad for code that may throw. *)
Inductive completion (A : Type) : Type :=
| Normal (a : A)
| Throw (e : value).
Arguments Normal {A} a.
Arguments Throw {A} e.

Definition bind {A B : Type} (c : completion A) (k : A -> completion B) : completion B :=
  match c with
  | Normal a => k a
  | Throw e => Throw e
  end.

Notation "x <- c ;; k" := (bind c (fun x => k))
  (at level 61, c at next level, right associativity).

(** ToBoolean. *)
Definition truthy (v : value) : bool :=
  match v with
  | VUndefined | VNull => false
  | VBool b => b
  | VNum n => negb (Z.eqb n 0)
  | VStr s => negb (String.eqb s "")
  | VArr _ | VObj _ => true
  end.

Definition nullish (v : value) : bool :=
  match v with
  | VUndefined | VNull => true
  | _ => false
  end.

(** [a || b] on values. *)
Definition or_else (a b : value) : value := if truthy a then a else b.

Fixpoint lookup (k : string) (fields : list (string * value)) : value :=
  match fields with
  | [] => VUndefined
  | (k', v) :: rest => if String.eqb k k' then v else lookup k rest
  end.

(** The value of [v.k] for a [v] that is neither null nor undefined.  Only
    the data properties the panel reads are covered: the own fields of an
    object and [length] of a string or an array. *)
Definition own (v : value) (k : string) : value :=
  match v with
  | VObj fields => lookup k fields
  | VStr s => if String.eqb k "length" then VNum (Z.of_nat (String.length s)) else VUndefined
  | VArr items => if String.eqb k "length" then VNum (Z.of_nat (List.length items)) else VUndefined
  | _ => VUndefined
  end.

(** The TypeError objects raised by the engine; the message text is the
    engine's and nothing below depends on it. *)
Definition TypeError (msg : string) : value :=
  VObj [("name", VStr "TypeError"); ("message", VStr msg)].

(** [v.k]: throws on null and undefined. *)
Definition get (v : value) (k : string) : completion value :=
  if nullish v
  then Throw (TypeError ("Cannot read properties of null or undefined, reading " ++ k))
  else Normal (own v k).

(** [v?.k]. *)
Definition opt_get (v : value) (k : string) : value :=
  if nullish v then VUndefined else own v k.

(** *** Strings *)

Definition is_upper (a : ascii) : bool :=
  let n := nat_of_ascii a in ((65 <=? n) && (n <=? 90))%nat.

Definition lower_ascii (a : ascii) : ascii :=
  if is_upper a then ascii_of_nat (nat_of_ascii a + 32) else a.

(** [String.prototype.toLowerCase], on the ASCII letters. *)
Fixpoint toLowerCase (s : string) : string :=
  match s with
  | EmptyString => EmptyString
  | String a rest => String (lower_ascii a) (toLowerCase rest)
  end.

Definition is_lower (a : ascii) : bool :=
  let n := nat_of_ascii a in ((97 <=? n) && (n <=? 122))%nat.

(** Strings are held as bytes (UTF-8): a byte below 128 is a whole
    character, any other byte is part of a longer one. *)
Definition is_ascii7 (a : ascii) : bool := (nat_of_ascii a <? 128)%nat.

(** [toUpperCase] of a one-character string whose character is below 128:
    the letters a-z change, nothing else does. *)
Definition upper_ascii (a : ascii) : ascii :=
  if is_lower a then ascii_of_nat (nat_of_ascii a - 32) else a.

(** White space recognised by [trim]: TAB, LF, VT, FF, CR and SPACE. *)
Definition is_space (a : ascii) : bool :=
  let n := nat_of_ascii a in (((9 <=? n) && (n <=? 13)) || (n =? 32))%nat.

Fixpoint trimStart (s : string) : string :=
  match s with
  | EmptyString => EmptyString
  | String a rest => if is_space a then trimStart rest else s
  end.

Fixpoint trimEnd (s : string) : string :=
  match s with
  | EmptyString => EmptyString
  | String a rest =>
      match trimEnd rest with
      | EmptyString => if is_space a then EmptyString else String a EmptyString
      | kept => String a kept
      end
  end.

(** [String.prototype.trim]. *)
Definition trim (s : string) : string := trimEnd (trimStart s).

Definition string_of_Z (n : Z) : string := NilZero.string_of_int (Z.to_int n).

Fixpoint join (sep : string) (parts : list string) : string :=
  match parts with
  | [] => ""
  | [p] => p
  | p :: rest => p ++ sep ++ join sep rest
  end.

(** The text that [String(v)] returns, when it returns (see [ToString]). *)
Fixpoint String_ (v : value) : string :=
  match v with
  | VUndefined => "undefined"
  | VNull => "null"
  | VBool b => if b then "true" else "false"
  | VNum n => string_of_Z n
  | VStr s => s
  | VArr items =>
      join "," (map (fun x => if nullish x then "" else String_ x) items)
  | VObj _ => "[object Object]"
  end.

(** Whether an object has an own property of that name, whatever its
    value. *)
Definition has_own (k : string) (fields : list (string * value)) : bool :=
  existsb (fun kv => String.eqb k (fst kv)) fields.

(** Whether [String(v)] returns.  An object is converted by calling its
    [toString]; an own property of that name hides the inherited method, and
    since no value of this type is callable the conversion then falls back on
    the inherited [valueOf], which gives the object itself, and throws.  An
    array is joined, which converts each element that is neither null nor
    undefined. *)
Fixpoint convertible (v : value) : bool :=
  match v with
  | VArr items => forallb (fun x => convertible x) items
  | VObj fields => negb (has_own "toString" fields)
  | _ => true
  end.

(** The [String(v)] conversion with the TypeError it may throw. *)
Definition ToString (v : value) : completion string :=
  if convertible v then Normal (String_ v)
  else Throw (TypeError "Cannot convert object to primitive value").

(** *** JSON.stringify *)

Definition hex_digit (n : nat) : ascii :=
  if (n <? 10)%nat then ascii_of_nat (48 + n) else ascii_of_nat (87 + n).

Definition escape_ascii (a : ascii) : string :=
  let n := nat_of_ascii a in
  if (n =? 34)%nat then "\" ++ String a ""
  else if (n =? 92)%nat then "\\"
  else if (n =? 8)%nat then "\b"
  else if (n =? 9)%nat then "\t"
  else if (n =? 10)%nat then "\n"
  else if (n =? 12)%nat then "\f"
  else if (n =? 13)%nat then "\r"
  else if (n <? 32)%nat then "\u00" ++ String (hex_digit (n / 16)) (String (hex_digit (n mod 16)) "")
  else String a "".

Fixpoint escape (s : string) : string :=
  match s with
  | EmptyString => EmptyString
  | String a rest => escape_ascii a ++ escape rest
  end.

Definition quote (s : string) : string :=
  String (ascii_of_nat 34) (escape s ++ String (ascii_of_nat 34) "").

(** [JSON.stringify(v)]: [None] is the result [undefined].  A member whose
    value is undefined is dropped from an object and printed as [null] in an
    array. *)
Fixpoint JSON_stringify (v : value) : option string :=
  match v with
  | VUndefined => None
  | VNull => Some "null"
  | VBool b => Some (if b then "true" else "false")
  | VNum n => Some (string_of_Z n)
  | VStr s => Some (quote s)
  | VArr items =>
      Some ("[" ++ join "," (map (fun x => match JSON_stringify x with
                                            | Some t => t
                                            | None => "null"
                                            end) items) ++ "]")
  | VObj fields =>
      Some ("{" ++ join "," (flat_map (fun kv => match JSON_stringify (snd kv) with
                                                 | Some t => [quote (fst kv) ++ ":" ++ t]
                                                 | None => []
                                                 end) fields) ++ "}")
  end.

End JS.


(** ** What the two variants have in common *)

Module Common.
Import JS.

(** A subscription object returned by [subscribe]; it is truthy. *)
Definition handle : Type := nat.

Inductive channel : Type :=
| ConversationEndUserChannel
| ConversationEndedChannel.

(** A list of suspended calls without its [i]-th entry. *)
Fixpoint remove_nth {A : Type} (i : nat) (l : list A) : list A :=
  match l, i with
  | [], _ => []
  | _ :: rest, O => rest
  | x :: rest, S j => x :: remove_nth j rest
  end.

(** Truthiness of a field that holds [undefined] or a string. *)
Definition present (s : option string) : bool :=
  match s with
  | Some t => negb (String.eqb t "")
  | None => false
  end.

(** How the promise of the external call settles. *)
Inductive settled : Type :=
| Fulfilled (resp : value)
| Rejected (e : value).

Record result : Type := {
  result_emotion : string;
  result_reason : value;
  result_raw : value
}.

(** [(x || '').toLowerCase()]: a truthy [x] that is not a string has no such
    method. *)
Definition lowered (x : value) : completion string :=
  match or_else x (VStr "") with
  | VStr s => Normal (toLowerCase s)
  | _ => Throw (TypeError "toLowerCase is not a function")
  end.

(** [e?.body?.message || e.message]: reading [e.message] throws when [e] is
    null or undefined. *)
Definition failure_message (e : value) : completion value :=
  let specific := opt_get (opt_get e "body") "message" in
  if truthy specific then Normal specific else get e "message".

End Common.

(** ** The panel with persistence and configuration
    (lwc/customerEmotionPanel/customerEmotionPanel.js) *)

Module PersistPanel.
Import JS Common.

Record Config : Type := {
  calculateEveryMessage : bool;
  calculateOnSessionEnd : bool;
  showCalculateButton : bool
}.

(** The instance fields of the component.  [emotion] and [messages] are
    either [undefined] ([None]) or a string.  [toolkit] records whether the
    template reference [this.refs?.lwcToolKitApi] is present; it and
    [recordId] are set by the host.  The fields [_subscribeAttempts] and
    [_subscribedLogged] are never read or written and are left out. *)
Record panel : Type := {
  recordId : value;
  toolkit : bool;
  emotion : option string;
  reason : value;
  error : value;
  loaded : bool;
  receivingSubscription : option handle;
  endedSubscription : option handle;
  messages : option string;
  conversationEnded : bool;
  _analyzing : bool;
  _configLoaded : bool;
  config : Config;
  _toolkitReady : bool;
  _initialConversationFetched : bool;
  _fetchAttempts : nat
}.

Definition MAX_FETCH_ATTEMPTS : nat := 5.

(** The field initialisers of the class (lines 14-36). *)
Definition initial : panel := {|
  recordId := VUndefined;
  toolkit := false;
  emotion := None;
  reason := VUndefined;
  error := VUndefined;
  loaded := false;
  receivingSubscription := None;
  endedSubscription := None;
  messages := None;
  conversationEnded := false;
  _analyzing := false;
  _configLoaded := false;
  config := {| calculateEveryMessage := false;
               calculateOnSessionEnd := false;
               showCalculateButton := false |};
  _toolkitReady := false;
  _initialConversationFetched := false;
  _fetchAttempts := 0
|}.

(** Field assignments. *)
Definition set_recordId (x : value) (p : panel) : panel :=
  {| recordId := x; toolkit := toolkit p; emotion := emotion p; reason := reason p;
     error := error p; loaded := loaded p;
     receivingSubscription := receivingSubscription p;
     endedSubscription := endedSubscription p; messages := messages p;
     conversationEnded := conversationEnded p; _analyzing := _analyzing p;
     _configLoaded := _configLoaded p; config := config p;
     _toolkitReady := _toolkitReady p;
     _initialConversationFetched := _initialConversationFetched p;
     _fetchAttempts := _fetchAttempts p |}.

Definition set_toolkit (x : bool) (p : panel) : panel :=
  {| recordId := recordId p; toolkit := x; emotion := emotion p; reason := reason p;
     error := error p; loaded := loaded p;
     receivingSubscription := receivingSubscription p;
     endedSubscription := endedSubscription p; messages := messages p;
     conversationEnded := conversationEnded p; _analyzing := _analyzing p;
     _configLoaded := _configLoaded p; config := config p;
     _toolkitReady := _toolkitReady p;
     _initialConversationFetched := _initialConversationFetched p;
     _fetchAttempts := _fetchAttempts p |}.

Definition set_emotion (x : option string) (p : panel) : panel :=
  {| recordId := recordId p; toolkit := toolkit p; emotion := x; reason := reason p;
     error := error p; loaded := loaded p;
     receivingSubscription := receivingSubscription p;
     endedSubscription := endedSubscription p; messages := messages p;
     conversationEnded := conversationEnded p; _analyzing := _analyzing p;
     _configLoaded := _configLoaded p; config := config p;
     _toolkitReady := _toolkitReady p;
     _initialConversationFetched := _initialConversationFetched p;
     _fetchAttempts := _fetchAttempts p |}.

Definition set_reason (x : value) (p : panel) : panel :=
  {| recordId := recordId p; toolkit := toolkit p; emotion := emotion p; reason := x;
     error := error p; loaded := loaded p;
     receivingSubscription := receivingSubscription p;
     endedSubscription := endedSubscription p; messages := messages p;
     conversationEnded := conversationEnded p; _analyzing := _analyzing p;
     _configLoaded := _configLoaded p; config := config p;
     _toolkitReady := _toolkitReady p;
     _initialConversationFetched := _initialConversationFetched p;
     _fetchAttempts := _fetchAttempts p |}.

Definition set_error (x : value) (p : panel) : panel :=
  {| recordId := recordId p; toolkit := toolkit p; emotion := emotion p; reason := reason p;
     error := x; loaded := loaded p;
     receivingSubscription := receivingSubscription p;
     endedSubscription := endedSubscription p; messages := messages p;
     conversationEnded := conversationEnded p; _analyzing := _analyzing p;
     _configLoaded := _configLoaded p; config := config p;
     _toolkitReady := _toolkitReady p;
     _initialConversationFetched := _initialConversationFetched p;
     _fetchAttempts := _fetchAttempts p |}.

Definition set_loaded (x : bool) (p : panel) : panel :=
  {| recordId := recordId p; toolkit := toolkit p; emotion := emotion p; reason := reason p;
     error := error p; loaded := x;
     receivingSubscription := receivingSubscription p;
     endedSubscription := endedSubscription p; messages := messages p;
     conversationEnded := conversationEnded p; _analyzing := _analyzing p;
     _configLoaded := _configLoaded p; config := config p;
     _toolkitReady := _toolkitReady p;
     _initialConversationFetched := _initialConversationFetched p;
     _fetchAttempts := _fetchAttempts p |}.

Definition set_receivingSubscription (x : option handle) (p : panel) : panel :=
  {| recordId := recordId p; toolkit := toolkit p; emotion := emotion p; reason := reason p;
     error := error p; loaded := loaded p;
     receivingSubscription := x;
     endedSubscription := endedSubscription p; messages := messages p;
     conversationEnded := conversationEnded p; _analyzing := _analyzing p;
     _configLoaded := _configLoaded p; config := config p;
     _toolkitReady := _toolkitReady p;
     _initialConversationFetched := _initialConversationFetched p;
     _fetchAttempts := _fetchAttempts p |}.

Definition set_endedSubscription (x : option handle) (p : panel) : panel :=
  {| recordId := recordId p; toolkit := toolkit p; emotion := emotion p; reason := reason p;
     error := error p; loaded := loaded p;
     receivingSubscription := receivingSubscription p;
     endedSubscription := x; messages := messages p;
     conversationEnded := conversationEnded p; _analyzing := _analyzing p;
     _configLoaded := _configLoaded p; config := config p;
     _toolkitReady := _toolkitReady p;
     _initialConversationFetched := _initialConversationFetched p;
     _fetchAttempts := _fetchAttempts p |}.

Definition set_messages (x : option string) (p : panel) : panel :=
  {| recordId := recordId p; toolkit := toolkit p; emotion := emotion p; reason := reason p;
     error := error p; loaded := loaded p;
     receivingSubscription := receivingSubscription p;
     endedSubscription := endedSubscription p; messages := x;
     conversationEnded := conversationEnded p; _analyzing := _analyzing p;
     _configLoaded := _configLoaded p; config := config p;
     _toolkitReady := _toolkitReady p;
     _initialConversationFetched := _initialConversationFetched p;
     _fetchAttempts := _fetchAttempts p |}.

Definition set_conversationEnded (x : bool) (p : panel) : panel :=
  {| recordId := recordId p; toolkit := toolkit p; emotion := emotion p; reason := reason p;
     error := error p; loaded := loaded p;
     receivingSubscription := receivingSubscription p;
     endedSubscription := endedSubscription p; messages := messages p;
     conversationEnded := x; _analyzing := _analyzing p;
     _configLoaded := _configLoaded p; config := config p;
     _toolkitReady := _toolkitReady p;
     _initialConversationFetched := _initialConversationFetched p;
     _fetchAttempts := _fetchAttempts p |}.

Definition set__analyzing (x : bool) (p : panel) : panel :=
  {| recordId := recordId p; toolkit := toolkit p; emotion := emotion p; reason := reason p;
     error := error p; loaded := loaded p;
     receivingSubscription := receivingSubscription p;
     endedSubscription := endedSubscription p; messages := messages p;
     conversationEnded := conversationEnded p; _analyzing := x;
     _configLoaded := _configLoaded p; config := config p;
     _toolkitReady := _toolkitReady p;
     _initialConversationFetched := _initialConversationFetched p;
     _fetchAttempts := _fetchAttempts p |}.

Definition set__configLoaded (x : bool) (p : panel) : panel :=
  {| recordId := recordId p; toolkit := toolkit p; emotion := emotion p; reason := reason p;
     error := error p; loaded := loaded p;
     receivingSubscription := receivingSubscription p;
     endedSubscription := endedSubscription p; messages := messages p;
     conversationEnded := conversationEnded p; _analyzing := _analyzing p;
     _configLoaded := x; config := config p;
     _toolkitReady := _toolkitReady p;
     _initialConversationFetched := _initialConversationFetched p;
     _fetchAttempts := _fetchAttempts p |}.

Definition set_config (x : Config) (p : panel) : panel :=
  {| recordId := recordId p; toolkit := toolkit p; emotion := emotion p; reason := reason p;
     error := error p; loaded := loaded p;
     receivingSubscription := receivingSubscription p;
     endedSubscription := endedSubscription p; messages := messages p;
     conversationEnded := conversationEnded p; _analyzing := _analyzing p;
     _configLoaded := _configLoaded p; config := x;
     _toolkitReady := _toolkitReady p;
     _initialConversationFetched := _initialConversationFetched p;
     _fetchAttempts := _fetchAttempts p |}.

Definition set__toolkitReady (x : bool) (p : panel) : panel :=
  {| recordId := recordId p; toolkit := toolkit p; emotion := emotion p; reason := reason p;
     error := error p; loaded := loaded p;
     receivingSubscription := receivingSubscription p;
     endedSubscription := endedSubscription p; messages := messages p;
     conversationEnded := conversationEnded p; _analyzing := _analyzing p;
     _configLoaded := _configLoaded p; config := config p;
     _toolkitReady := x;
     _initialConversationFetched := _initialConversationFetched p;
     _fetchAttempts := _fetchAttempts p |}.

Definition set__initialConversationFetched (x : bool) (p : panel) : panel :=
  {| recordId := recordId p; toolkit := toolkit p; emotion := emotion p; reason := reason p;
     error := error p; loaded := loaded p;
     receivingSubscription := receivingSubscription p;
     endedSubscription := endedSubscription p; messages := messages p;
     conversationEnded := conversationEnded p; _analyzing := _analyzing p;
     _configLoaded := _configLoaded p; config := config p;
     _toolkitReady := _toolkitReady p;
     _initialConversationFetched := x;
     _fetchAttempts := _fetchAttempts p |}.

Definition set__fetchAttempts (x : nat) (p : panel) : panel :=
  {| recordId := recordId p; toolkit := toolkit p; emotion := emotion p; reason := reason p;
     error := error p; loaded := loaded p;
     receivingSubscription := receivingSubscription p;
     endedSubscription := endedSubscription p; messages := messages p;
     conversationEnded := conversationEnded p; _analyzing := _analyzing p;
     _configLoaded := _configLoaded p; config := config p;
     _toolkitReady := _toolkitReady p;
     _initialConversationFetched := _initialConversationFetched p;
     _fetchAttempts := x |}.

(** [get hasResult()] (line 203): [!!this.emotion]. *)
Definition hasResult (p : panel) : bool := present (emotion p).

(** *** trySubscribe and connectedCallback (lines 75-79, 104-128) *)

Section Subscription.

(** What the message service answers to a [subscribe] call on a channel:
    a subscription object, or an exception. *)
Variable subscribe : channel -> completion handle.

(** The [try] block: the panel, the [subscribe] calls made, and whether the
    block completed or threw. *)
Definition trySubscribe_try (p : panel) : panel * list channel * completion unit :=
  let '(p1, calls1, c1) :=
    match receivingSubscription p with
    | None =>
        match subscribe ConversationEndUserChannel with
        | Normal h => (set_receivingSubscription (Some h) p,
                       [ConversationEndUserChannel], Normal tt)
        | Throw e => (p, [ConversationEndUserChannel], Throw e)
        end
    | Some _ => (p, [], Normal tt)
    end in
  match c1 with
  | Throw e => (p1, calls1, Throw e)
  | Normal _ =>
      match endedSubscription p1 with
      | None =>
          match subscribe ConversationEndedChannel with
          | Normal h => (set_endedSubscription (Some h) p1,
                         (calls1 ++ [ConversationEndedChannel])%list, Normal tt)
          | Throw e => (p1, (calls1 ++ [ConversationEndedChannel])%list, Throw e)
          end
      | Some _ => (p1, calls1, Normal tt)
      end
  end.

(** The [catch] clause only logs. *)
Definition trySubscribe (p : panel) : panel * list channel :=
  let '(p1, calls, _) := trySubscribe_try p in (p1, calls).

Definition connectedCallback (p : panel) : panel * list channel :=
  let '(p1, calls) := trySubscribe p in (set_loaded true p1, calls).

End Subscription.

(** *** runAnalysis (lines 150-191) *)

(** The parameter of [runAnalysis]; [overrideText] is undefined ([None]) or
    a string. *)
Record options : Type := {
  force : bool;
  context : string;
  overrideText : option string
}.

(** The defaults of the destructured parameter. *)
Definition default_options : options :=
  {| force := false; context := "manual"; overrideText := None |}.

Record request : Type := {
  sessionId : value;
  text : string
}.

(** How the synchronous part of [runAnalysis] ends: it returns [null], or it
    is suspended on the call [analyzeAndPersist(request)]. *)
Inductive started : Type :=
| ReturnedNull
| Awaiting (req : request).

(** [(overrideText || this.messages || '').trim()]. *)
Definition resolved_text (o : options) (p : panel) : string :=
  trim (if present (overrideText o) then match overrideText o with Some t => t | None => "" end
        else if present (messages p) then match messages p with Some t => t | None => "" end
        else "").

(** The trigger policy, inlined at lines 156-163: [true] when one of the two
    early returns is taken. *)
Definition policy_denies (o : options) (c : Config) : bool :=
  if negb (force o) then
    if String.eqb (context o) "message" && negb (calculateEveryMessage c) then true
    else if String.eqb (context o) "end" && negb (calculateOnSessionEnd c) then true
    else false
  else false.

(** Lines 150-174, up to the [await]. *)
Definition runAnalysis (o : options) (p : panel) : panel * started :=
  let text := resolved_text o p in
  if String.eqb text "" then (set_loaded true p, ReturnedNull)
  else if policy_denies o (config p) then (p, ReturnedNull)
  else if _analyzing p then (p, ReturnedNull)
  else
    let p1 := set_error VNull (set_loaded false (set__analyzing true p)) in
    (p1, Awaiting {| sessionId := recordId p; text := text |}).

Section Analysis.

(** [JSON.parse]: the parsed value, or the SyntaxError it throws. *)
Variable JSON_parse : string -> completion value.

(** The [try] block after the [await] (lines 174-181). *)
Definition runAnalysis_try (o : settled) (p : panel) : panel * completion result :=
  match o with
  | Rejected e => (p, Throw e)
  | Fulfilled resp0 =>
      match (match resp0 with VStr s => JSON_parse s | _ => Normal resp0 end) with
      | Throw e => (p, Throw e)
      | Normal resp =>
          match lowered (opt_get resp "emotion") with
          | Throw e => (p, Throw e)
          | Normal em =>
              let p1 := set_emotion (Some em) p in
              let p2 := set_reason (opt_get resp "reason") p1 in
              (p2, Normal {| result_emotion := em;
                             result_reason := reason p2;
                             result_raw := or_else (opt_get resp "raw") resp |})
          end
      end
  end.

(** The rest of [runAnalysis] once the call has settled: [try], [catch]
    (line 184), [finally] (lines 187-188) and the return value; [Throw] is a
    rejection of the promise of [runAnalysis], raised inside the [catch]. *)
Definition runAnalysis_resume (o : settled) (p : panel) : panel * completion (option result) :=
  let '(p1, body) := runAnalysis_try o p in
  let '(p2, out) :=
    match body with
    | Normal r => (p1, Normal (Some r))
    | Throw e =>
        match (m <- failure_message e ;; Normal (or_else m (VStr "Error analyzing sentiment"))) with
        | Normal m => (set_error m p1, Normal None)
        | Throw e' => (p1, Throw e')
        end
    end in
  (set__analyzing false (set_loaded true p2), out).

(** *** The suspended calls

    A suspended [async] frame waits for one external completion.  What runs
    after [runAnalysis] or [fetchFullConversation] returns depends on who
    awaits it. *)

Inductive fetch_caller : Type :=
| FromInitialFetch        (* tryInitialFetch, line 93 *)
| FromConversationEnded.  (* handleConversationEnded, line 144 *)

Inductive analysis_caller : Type :=
| Detached                        (* lines 48, 136, 146, 198: nothing follows *)
| FromFetch (k : fetch_caller).   (* fetchFullConversation, line 246 *)

Inductive task : Type :=
| AwaitAnalysis (req : request) (k : analysis_caller)  (* analyzeAndPersist in flight *)
| AwaitLog (session : value) (k : fetch_caller)        (* getConversationLog in flight *)
| Timeout (delay : nat).                               (* setTimeout(tryInitialFetch) *)

Definition spawn (st : started) (k : analysis_caller) : list task :=
  match st with
  | ReturnedNull => []
  | Awaiting req => [AwaitAnalysis req k]
  end.

Definition end_options : options :=
  {| force := false; context := "end"; overrideText := None |}.

(** The callback passed to [then] in [tryInitialFetch] (lines 93-101). *)
Definition tryInitialFetch_then (got : bool) (p : panel) : panel * list task :=
  if got then (set__initialConversationFetched true p, [])
  else if (_fetchAttempts p <? MAX_FETCH_ATTEMPTS)%nat then
    let p1 := set__fetchAttempts (_fetchAttempts p + 1) p in
    (p1, [Timeout (300 * _fetchAttempts p1)])
  else (p, []).

(** [handleConversationEnded] after its first [await] (lines 145-147). *)
Definition handleConversationEnded_rest (p : panel) : panel * list task :=
  if negb (hasResult p) && present (messages p) then
    let '(p1, st) := runAnalysis end_options p in (p1, spawn st Detached)
  else (p, []).

(** What follows the completion of [fetchFullConversation]; a rejected
    promise reaches neither the [then] callback nor the rest of
    [handleConversationEnded]. *)
Definition after_fetch (k : fetch_caller) (got : completion bool) (p : panel)
  : panel * list task :=
  match got with
  | Throw _ => (p, [])
  | Normal g =>
      match k with
      | FromInitialFetch => tryInitialFetch_then g p
      | FromConversationEnded => handleConversationEnded_rest p
      end
  end.

(** *** fetchFullConversation (lines 226-252) *)

(** The [catch] clause (lines 248-251). *)
Definition fetch_catch (e : value) : completion bool :=
  _ <- failure_message e ;; Normal false.

Fixpoint each {A B : Type} (f : A -> completion B) (l : list A) : completion (list B) :=
  match l with
  | [] => Normal []
  | x :: rest => y <- f x ;; ys <- each f rest ;; Normal (y :: ys)
  end.

(** [raw.forEach(m => messageLog.push(...))] (lines 236-242). *)
Definition messageLog (raw : value) : completion value :=
  match raw with
  | VArr items =>
      entries <- each (fun m =>
                         content <- get m "content" ;;
                         name <- get m "name" ;;
                         Normal (VObj [("content", content);
                                       ("author", or_else name (VStr "Unknown"))]))
                      items ;;
      Normal (VArr entries)
  | _ => Throw (TypeError "raw.forEach is not a function")
  end.

(** Line 227 and the call of line 230. *)
Definition fetchFullConversation (k : fetch_caller) (p : panel) : panel * list task :=
  if negb (toolkit p) || negb (truthy (recordId p)) then after_fetch k (Normal false) p
  else (p, [AwaitLog (recordId p) k]).

(** How the body of [fetchFullConversation] goes on once the log call has
    settled: it completes, or it is suspended on [runAnalysis] (line 246). *)
Inductive fetch_progress : Type :=
| FetchCompleted (got : completion bool)
| FetchAwaits (req : request).

Definition fetchFullConversation_body (o : settled) (p : panel) : panel * fetch_progress :=
  match o with
  | Rejected e => (p, FetchCompleted (fetch_catch e))
  | Fulfilled log =>
      let raw := or_else (opt_get log "messages") (VArr []) in
      if negb (truthy (own raw "length")) then (p, FetchCompleted (Normal false))
      else
        match messageLog raw with
        | Throw e => (p, FetchCompleted (fetch_catch e))
        | Normal entries =>
            let p1 := set_messages (JSON_stringify entries) p in
            match runAnalysis end_options p1 with
            | (p2, ReturnedNull) => (p2, FetchCompleted (Normal true))
            | (p2, Awaiting req) => (p2, FetchAwaits req)
            end
        end
  end.

Definition fetchFullConversation_resume (k : fetch_caller) (o : settled) (p : panel)
  : panel * list task :=
  match fetchFullConversation_body o p with
  | (p1, FetchCompleted got) => after_fetch k got p1
  | (p1, FetchAwaits req) => (p1, [AwaitAnalysis req (FromFetch k)])
  end.

(** [runAnalysis] settles and control returns to its caller; inside
    [fetchFullConversation] a rejection lands in the [catch] clause.  The
    callers resume in later microtasks of the turn in which the call settled;
    they are run here in the same step, which is their order when no other
    call settles in that turn. *)
Definition analysis_settled (k : analysis_caller) (o : settled) (p : panel)
  : panel * list task :=
  let '(p1, r) := runAnalysis_resume o p in
  match k with
  | Detached => (p1, [])
  | FromFetch fk =>
      after_fetch fk (match r with
                      | Normal _ => Normal true
                      | Throw e => fetch_catch e
                      end) p1
  end.

(** *** The handlers *)

Definition tryInitialFetch (p : panel) : panel * list task :=
  fetchFullConversation FromInitialFetch p.

(** Lines 85-90. *)
Definition renderedCallback (p : panel) : panel * list task :=
  if negb (_toolkitReady p) && toolkit p && truthy (recordId p)
  then tryInitialFetch (set__toolkitReady true p)
  else (p, []).

(** Lines 130-138. *)
Definition handleMessageReceived (message : value) (p : panel) : panel * list task :=
  let p1 := set_messages (JSON_stringify (opt_get message "content")) p in
  if present (messages p1) then
    let '(p2, st) := runAnalysis {| force := false; context := "message";
                                    overrideText := None |} p1 in
    (p2, spawn st Detached)
  else (p1, []).

(** Lines 140-144. *)
Definition handleConversationEnded (payload : value) (p : panel) : panel * list task :=
  fetchFullConversation FromConversationEnded (set_conversationEnded true p).

(** Lines 193-199. *)
Definition handleManualCalculate (p : panel) : panel * list task :=
  if negb (present (messages p))
  then (set_error (VStr "No message text to analyze yet.") p, [])
  else
    let '(p1, st) := runAnalysis {| force := true; context := "manual";
                                    overrideText := None |} p in
    (p1, spawn st Detached).

(** Lines 38-54. *)
Definition wiredConfig (data error : value) (p : panel) : panel * list task :=
  if truthy data then
    let p1 := set_config {| calculateEveryMessage := truthy (own data "calculateEveryMessage");
                            calculateOnSessionEnd := truthy (own data "calculateOnSessionEnd");
                            showCalculateButton := truthy (own data "showCalculateButton") |} p in
    let p2 := set__configLoaded true p1 in
    if present (messages p2) && calculateEveryMessage (config p2)
       && negb (_analyzing p2) && negb (hasResult p2)
    then let '(p3, st) := runAnalysis default_options p2 in (p3, spawn st Detached)
    else (p2, [])
  else if truthy error then (set__configLoaded true p, [])
  else (p, []).

(** The record delivered by the [getRecord] wire, as the values
    [getFieldValue] reads from it. *)
Record session_record : Type := {
  LastEmotion__c : value;
  LastEmotionReason__c : value
}.

Inductive field : Type :=
| LAST_EMOTION_FIELD
| LAST_EMOTION_REASON_FIELD.

Definition getFieldValue (data : session_record) (f : field) : value :=
  match f with
  | LAST_EMOTION_FIELD => LastEmotion__c data
  | LAST_EMOTION_REASON_FIELD => LastEmotionReason__c data
  end.

(** Lines 56-73; [data] is [None] when the wire delivers no record. *)
Definition wiredSession (data : option session_record) (error : value) (p : panel) : panel :=
  match data with
  | Some d =>
      if negb (present (emotion p)) then
        let persistedEmotion := getFieldValue d LAST_EMOTION_FIELD in
        let persistedReason := getFieldValue d LAST_EMOTION_REASON_FIELD in
        if truthy persistedEmotion then
          set_loaded true
            (set_reason persistedReason
               (set_emotion (Some (toLowerCase (String_ persistedEmotion))) p))
        else p
      else p
  | None => p
  end.

(** *** The panel as a transition system

    [pending] holds the suspended calls and the scheduled timers, [issued]
    every external call and timer ever started, in order, and [subscribed]
    every [subscribe] call made. *)

Record system : Type := {
  view : panel;
  pending : list task;
  issued : list task;
  subscribed : list channel
}.

Definition boot : system :=
  {| view := initial; pending := []; issued := []; subscribed := [] |}.

(** The deliveries of the host.  [Settles i o] settles the [i]-th pending
    call with outcome [o], in a turn of its own; [Fires i] runs the [i]-th
    pending entry when it is a timer. *)
Inductive event : Type :=
| HostSetsRecordId (v : value)
| ToolkitRef (there : bool)
| Connected (subscribe : channel -> completion handle)
| Rendered
| ConfigDelivered (data error : value)
| SessionDelivered (data : option session_record) (error : value)
| MessageReceived (message : value)
| ConversationEnded (payload : value)
| ManualCalculate
| Settles (i : nat) (o : settled)
| Fires (i : nat).

Definition commit (s : system) (r : panel * list task) : system :=
  {| view := fst r;
     pending := (pending s ++ snd r)%list;
     issued := (issued s ++ snd r)%list;
     subscribed := subscribed s |}.

Definition take (i : nat) (s : system) : system :=
  {| view := view s;
     pending := remove_nth i (pending s);
     issued := issued s;
     subscribed := subscribed s |}.

Definition step (ev : event) (s : system) : system :=
  match ev with
  | HostSetsRecordId v => commit s (set_recordId v (view s), [])
  | ToolkitRef there => commit s (set_toolkit there (view s), [])
  | Connected subscribe =>
      let '(p1, calls) := connectedCallback subscribe (view s) in
      {| view := p1; pending := pending s; issued := issued s;
         subscribed := (subscribed s ++ calls)%list |}
  | Rendered => commit s (renderedCallback (view s))
  | ConfigDelivered data error => commit s (wiredConfig data error (view s))
  | SessionDelivered data error => commit s (wiredSession data error (view s), [])
  | MessageReceived message => commit s (handleMessageReceived message (view s))
  | ConversationEnded payload => commit s (handleConversationEnded payload (view s))
  | ManualCalculate => commit s (handleManualCalculate (view s))
  | Settles i o =>
      match nth_error (pending s) i with
      | Some (AwaitAnalysis _ k) => commit (take i s) (analysis_settled k o (view s))
      | Some (AwaitLog _ k) => commit (take i s) (fetchFullConversation_resume k o (view s))
      | _ => s
      end
  | Fires i =>
      match nth_error (pending s) i with
      | Some (Timeout _) => commit (take i s) (tryInitialFetch (view s))
      | _ => s
      end
  end.

Definition run (evs : list event) (s : system) : system :=
  fold_left (fun acc ev => step ev acc) evs s.

Definition is_analysis (t : task) : bool :=
  match t with
  | AwaitAnalysis _ _ => true
  | _ => false
  end.

(** The analysis calls among a list of tasks. *)
Definition analyses (ts : list task) : nat := List.length (filter is_analysis ts).

Definition is_initial_log (t : task) : bool :=
  match t with
  | AwaitLog _ FromInitialFetch => true
  | _ => false
  end.

Definition is_log (t : task) : bool :=
  match t with
  | AwaitLog _ _ => true
  | _ => false
  end.

Definition is_timeout (t : task) : bool :=
  match t with
  | Timeout _ => true
  | _ => false
  end.

Definition delays (ts : list task) : list nat :=
  flat_map (fun t => match t with Timeout d => [d] | _ => [] end) ts.

(** The initial-fetch machine driven against a log source: the [n]-th
    [getConversationLog] call settles with [source n], every timer fires, and
    the machine stops when nothing of it is pending. *)
Fixpoint drive (fuel : nat) (source : nat -> settled) (n : nat) (s : system) : system :=
  match fuel with
  | O => s
  | S fuel' =>
      match pending s with
      | AwaitLog _ _ :: _ => drive fuel' source (S n) (step (Settles 0 (source n)) s)
      | Timeout _ :: _ => drive fuel' source n (step (Fires 0) s)
      | _ => s
      end
  end.

End Analysis.

(** *** The getters of the template (lines 201-225) *)

Definition get_showCalculateButton (p : panel) : bool :=
  showCalculateButton (config p).

(** [charAt(0).toUpperCase() + slice(1)], or the empty string when there is
    no emotion.  The label is given for the emotions that start with a
    character below 128, where [toUpperCase] is [upper_ascii] and [slice(1)]
    the remaining bytes.  For any other first character the result is [None]:
    the label is outside this model, since [toUpperCase] follows the Unicode
    tables there and may even lengthen the string (the label of 'ßad' is
    'SSad'). *)
Definition displayEmotion (p : panel) : option string :=
  match emotion p with
  | Some (String a rest) =>
      if is_ascii7 a then Some (String (upper_ascii a) rest) else None
  | _ => Some ""
  end.

(** The [switch] statements compare with [===]; [undefined] takes the
    default. *)
Definition iconName (p : panel) : string :=
  match emotion p with
  | Some e =>
      if String.eqb e "positive" then "utility:emoji_good"
      else if String.eqb e "negative" then "utility:emoji_worst"
      else if String.eqb e "neutral" then "utility:emoji_above_average"
      else "utility:help"
  | None => "utility:help"
  end.

Definition badgeClass (p : panel) : string :=
  let base := "slds-badge" in
  match emotion p with
  | Some e =>
      if String.eqb e "positive" then base ++ " slds-theme_success"
      else if String.eqb e "negative" then base ++ " slds-theme_error"
      else if String.eqb e "neutral" then base ++ " slds-theme_info"
      else base
  | None => base
  end.

End PersistPanel.

(** ** The persistence-free panel (unnamed/part_000) *)

Module PlainPanel.
Import JS Common.

(** The instance fields; [_subscribeAttempts] and [_subscribedLogged] are
    never read or written and are left out. *)
Record panel : Type := {
  recordId : value;
  emotion : option string;
  reason : value;
  error : value;
  loaded : bool;
  receivingSubscription : option handle;
  endedSubscription : option handle;
  messages : option string;
  conversationEnded : bool;
  _analyzing : bool
}.

(** The field initialisers (lines 9-24). *)
Definition initial : panel := {|
  recordId := VUndefined;
  emotion := None;
  reason := VUndefined;
  error := VUndefined;
  loaded := false;
  receivingSubscription := None;
  endedSubscription := None;
  messages := None;
  conversationEnded := false;
  _analyzing := false
|}.

Definition set_emotion (x : option string) (p : panel) : panel :=
  {| recordId := recordId p; emotion := x; reason := reason p; error := error p;
     loaded := loaded p; receivingSubscription := receivingSubscription p;
     endedSubscription := endedSubscription p; messages := messages p;
     conversationEnded := conversationEnded p; _analyzing := _analyzing p |}.

Definition set_reason (x : value) (p : panel) : panel :=
  {| recordId := recordId p; emotion := emotion p; reason := x; error := error p;
     loaded := loaded p; receivingSubscription := receivingSubscription p;
     endedSubscription := endedSubscription p; messages := messages p;
     conversationEnded := conversationEnded p; _analyzing := _analyzing p |}.

Definition set_error (x : value) (p : panel) : panel :=
  {| recordId := recordId p; emotion := emotion p; reason := reason p; error := x;
     loaded := loaded p; receivingSubscription := receivingSubscription p;
     endedSubscription := endedSubscription p; messages := messages p;
     conversationEnded := conversationEnded p; _analyzing := _analyzing p |}.

Definition set_loaded (x : bool) (p : panel) : panel :=
  {| recordId := recordId p; emotion := emotion p; reason := reason p; error := error p;
     loaded := x; receivingSubscription := receivingSubscription p;
     endedSubscription := endedSubscription p; messages := messages p;
     conversationEnded := conversationEnded p; _analyzing := _analyzing p |}.

Definition set_receivingSubscription (x : option handle) (p : panel) : panel :=
  {| recordId := recordId p; emotion := emotion p; reason := reason p; error := error p;
     loaded := loaded p; receivingSubscription := x;
     endedSubscription := endedSubscription p; messages := messages p;
     conversationEnded := conversationEnded p; _analyzing := _analyzing p |}.

Definition set_endedSubscription (x : option handle) (p : panel) : panel :=
  {| recordId := recordId p; emotion := emotion p; reason := reason p; error := error p;
     loaded := loaded p; receivingSubscription := receivingSubscription p;
     endedSubscription := x; messages := messages p;
     conversationEnded := conversationEnded p; _analyzing := _analyzing p |}.

Definition set_messages (x : option string) (p : panel) : panel :=
  {| recordId := recordId p; emotion := emotion p; reason := reason p; error := error p;
     loaded := loaded p; receivingSubscription := receivingSubscription p;
     endedSubscription := endedSubscription p; messages := x;
     conversationEnded := conversationEnded p; _analyzing := _analyzing p |}.

Definition set_conversationEnded (x : bool) (p : panel) : panel :=
  {| recordId := recordId p; emotion := emotion p; reason := reason p; error := error p;
     loaded := loaded p; receivingSubscription := receivingSubscription p;
     endedSubscription := endedSubscription p; messages := messages p;
     conversationEnded := x; _analyzing := _analyzing p |}.

Definition set__analyzing (x : bool) (p : panel) : panel :=
  {| recordId := recordId p; emotion := emotion p; reason := reason p; error := error p;
     loaded := loaded p; receivingSubscription := receivingSubscription p;
     endedSubscription := endedSubscription p; messages := messages p;
     conversationEnded := conversationEnded p; _analyzing := x |}.

(** [get hasResult()] (line 143). *)
Definition hasResult (p : panel) : bool := present (emotion p).

(** *** Subscription (lines 26-63) *)

Section Subscription.

Variable subscribe : channel -> completion handle.

(** The [try] block of [trySubscribe]. *)
Definition trySubscribe_try (p : panel) : panel * list channel * completion unit :=
  let '(p1, calls1, c1) :=
    match receivingSubscription p with
    | None =>
        match subscribe ConversationEndUserChannel with
        | Normal h => (set_receivingSubscription (Some h) p,
                       [ConversationEndUserChannel], Normal tt)
        | Throw e => (p, [ConversationEndUserChannel], Throw e)
        end
    | Some _ => (p, [], Normal tt)
    end in
  match c1 with
  | Throw e => (p1, calls1, Throw e)
  | Normal _ =>
      match endedSubscription p1 with
      | None =>
          match subscribe ConversationEndedChannel with
          | Normal h => (set_endedSubscription (Some h) p1,
                         (calls1 ++ [ConversationEndedChannel])%list, Normal tt)
          | Throw e => (p1, (calls1 ++ [ConversationEndedChannel])%list, Throw e)
          end
      | Some _ => (p1, calls1, Normal tt)
      end
  end.

Definition trySubscribe (p : panel) : panel * list channel :=
  let '(p1, calls, _) := trySubscribe_try p in (p1, calls).

Definition connectedCallback (p : panel) : panel * list channel :=
  let '(p1, calls) := trySubscribe p in (set_loaded true p1, calls).

(** Lines 32-37: the retry is taken only while the inbound-message
    subscription is missing. *)
Definition renderedCallback (p : panel) : panel * list channel :=
  match receivingSubscription p with
  | None => trySubscribe p
  | Some _ => (p, [])
  end.

End Subscription.

(** *** runAnalysis (lines 98-129) *)

(** The synchronous part ends by returning [null] or suspended on
    [analyze({ text })]. *)
Inductive started : Type :=
| ReturnedNull
| Awaiting (text : string).

(** [(this.messages || '').trim()]. *)
Definition resolved_text (p : panel) : string :=
  trim (if present (messages p) then match messages p with Some t => t | None => "" end
        else "").

(** Lines 98-114, up to the [await]. *)
Definition runAnalysis (p : panel) : panel * started :=
  let text := resolved_text p in
  if String.eqb text "" then (set_loaded true p, ReturnedNull)
  else if _analyzing p then (p, ReturnedNull)
  else
    let p1 := set_error VNull (set_loaded false (set__analyzing true p)) in
    (p1, Awaiting text).

Section Analysis.

Variable JSON_parse : string -> completion value.

(** The [try] block after the [await] (lines 114-121); a string that does
    not parse is kept as it is (line 116). *)
Definition runAnalysis_try (o : settled) (p : panel) : panel * completion result :=
  match o with
  | Rejected e => (p, Throw e)
  | Fulfilled resp0 =>
      let resp :=
        match resp0 with
        | VStr s => match JSON_parse s with
                    | Normal parsed => parsed
                    | Throw _ => resp0
                    end
        | _ => resp0
        end in
      match lowered (opt_get resp "emotion") with
      | Throw e => (p, Throw e)
      | Normal em =>
          let p1 := set_emotion (Some em) p in
          let p2 := set_reason (opt_get resp "reason") p1 in
          (p2, Normal {| result_emotion := em;
                         result_reason := reason p2;
                         result_raw := or_else (opt_get resp "raw") resp |})
      end
  end.

(** [try], [catch] (line 123), [finally] (lines 125-126) and the return. *)
Definition runAnalysis_resume (o : settled) (p : panel) : panel * completion (option result) :=
  let '(p1, body) := runAnalysis_try o p in
  let '(p2, out) :=
    match body with
    | Normal r => (p1, Normal (Some r))
    | Throw e =>
        match (m <- failure_message e ;; Normal (or_else m (VStr "Error analyzing sentiment"))) with
        | Normal m => (set_error m p1, Normal None)
        | Throw e' => (p1, Throw e')
        end
    end in
  (set__analyzing false (set_loaded true p2), out).

(** *** The handlers *)

Definition spawn (st : started) : list string :=
  match st with
  | ReturnedNull => []
  | Awaiting text => [text]
  end.

Definition of_string (s : option string) : value :=
  match s with
  | Some t => VStr t
  | None => VUndefined
  end.

(** Lines 65-81.  When [String(extracted)] throws (line 79), the promise of
    the handler is rejected before the buffer is assigned. *)
Definition handleMessageReceived (message : value) (p : panel) : panel * list string :=
  let extracted := VUndefined in
  let extracted := or_else extracted (opt_get (opt_get message "content") "messageText") in
  let extracted := or_else extracted (opt_get (opt_get message "content") "text") in
  let extracted := or_else extracted (opt_get message "content") in
  let extracted := or_else extracted (opt_get message "messageText") in
  let extracted :=
    if negb (truthy extracted) && truthy (opt_get message "content")
    then of_string (JSON_stringify (opt_get message "content"))
    else extracted in
  if negb (truthy extracted) then (p, [])
  else
    match ToString extracted with
    | Throw _ => (p, [])
    | Normal str =>
        let p1 := set_messages (Some (trim str)) p in
        let '(p2, st) := runAnalysis p1 in (p2, spawn st)
    end.

(** Lines 83-87. *)
Definition handleConversationEnded (payload : value) (p : panel) : panel * list string :=
  let '(p1, st) := runAnalysis (set_conversationEnded true p) in (p1, spawn st).

(** Lines 90-92. *)
Definition simulateMessage (text : value) (p : panel) : panel * list string :=
  handleMessageReceived (VObj [("content", text)]) p.

(** Lines 131-138. *)
Definition handleManualCalculate (p : panel) : panel * list string :=
  if negb (present (messages p))
  then (set_error (VStr "No message text to analyze yet.") p, [])
  else let '(p1, st) := runAnalysis p in (p1, spawn st).

(** *** The panel as a transition system

    [pending] holds the texts of the [analyze] calls in flight, [issued] the
    texts of all the calls ever made. *)

Record system : Type := {
  view : panel;
  pending : list string;
  issued : list string;
  subscribed : list channel
}.

Definition boot : system :=
  {| view := initial; pending := []; issued := []; subscribed := [] |}.

Inductive event : Type :=
| Connected (subscribe : channel -> completion handle)
| Rendered (subscribe : channel -> completion handle)
| MessageReceived (message : value)
| SimulateMessage (text : value)
| ConversationEnded (payload : value)
| ManualCalculate
| Settles (i : nat) (o : settled).

Definition commit (s : system) (r : panel * list string) : system :=
  {| view := fst r;
     pending := (pending s ++ snd r)%list;
     issued := (issued s ++ snd r)%list;
     subscribed := subscribed s |}.

Definition resubscribed (s : system) (r : panel * list channel) : system :=
  {| view := fst r; pending := pending s; issued := issued s;
     subscribed := (subscribed s ++ snd r)%list |}.

Definition step (ev : event) (s : system) : system :=
  match ev with
  | Connected subscribe => resubscribed s (connectedCallback subscribe (view s))
  | Rendered subscribe => resubscribed s (renderedCallback subscribe (view s))
  | MessageReceived message => commit s (handleMessageReceived message (view s))
  | SimulateMessage text => commit s (simulateMessage text (view s))
  | ConversationEnded payload => commit s (handleConversationEnded payload (view s))
  | ManualCalculate => commit s (handleManualCalculate (view s))
  | Settles i o =>
      match nth_error (pending s) i with
      | Some _ =>
          {| view := fst (runAnalysis_resume o (view s));
             pending := remove_nth i (pending s);
             issued := issued s;
             subscribed := subscribed s |}
      | None => s
      end
  end.

Definition run (evs : list event) (s : system) : system :=
  fold_left (fun acc ev => step ev acc) evs s.

End Analysis.

(** *** The getters of the template (lines 141-160) *)

Definition get_showCalculateButton (p : panel) : bool := true.

Definition iconName (p : panel) : string :=
  match emotion p with
  | Some e =>
      if String.eqb e "positive" then "utility:smiley_and_people"
      else if String.eqb e "negative" then "utility:dislike"
      else if String.eqb e "neutral" then "utility:minus"
      else "utility:question"
  | None => "utility:question"
  end.

Definition badgeClass (p : panel) : string :=
  let base := "slds-badge" in
  match emotion p with
  | Some e =>
      if String.eqb e "positive" then base ++ " slds-theme_success"
      else if String.eqb e "negative" then base ++ " slds-theme_error"
      else if String.eqb e "neutral" then base ++ " slds-theme_info"
      else base
  | None => base
  end.

End PlainPanel.

(** * Properties *)

(** ** Strings *)

Module StringFacts.
Import JS.

Lemma lower_ascii_fixed (a : ascii) : lower_ascii (lower_ascii a) = lower_ascii a.
Proof.
  destruct a as [[] [] [] [] [] [] [] []]; reflexivity.
Qed.

Lemma toLowerCase_fixed (s : string) : toLowerCase (toLowerCase s) = toLowerCase s.
Proof.
  induction s as [|a rest IH]; simpl.
  - reflexivity.
  - now rewrite lower_ascii_fixed, IH.
Qed.

Lemma present_true_iff (s : option string) :
  Common.present s = true <-> exists t, s = Some t /\ t <> "".
Proof.
  destruct s as [t|]; simpl.
  - rewrite negb_true_iff. split.
    + intros H. exists t. split; [reflexivity|]. now apply String.eqb_neq.
    + intros (u & [= <-] & Hu). now apply String.eqb_neq.
  - split; [discriminate|]. now intros (t & [=] & _).
Qed.

End StringFacts.

(** ** The panel with persistence: accounting of the calls in flight *)

Module PersistFacts.
Import JS Common PersistPanel StringFacts.

(** The number of analysis calls the in-flight flag stands for. *)
Definition flag (p : panel) : nat := if _analyzing p then 1 else 0.

(** A handler keeps the books when the analysis calls it starts are exactly
    those its change of the flag accounts for. *)
Definition balanced (p : panel) (r : panel * list task) : Prop :=
  analyses (snd r) + flag p = flag (fst r).

Lemma analyses_app (l1 l2 : list task) :
  analyses (l1 ++ l2) = analyses l1 + analyses l2.
Proof.
  unfold analyses. now rewrite filter_app, length_app.
Qed.

Lemma runAnalysis_balanced (o : options) (k : analysis_caller) (p : panel) :
  analyses (spawn (snd (runAnalysis o p)) k) + flag p = flag (fst (runAnalysis o p)).
Proof.
  unfold runAnalysis, flag.
  destruct (String.eqb (resolved_text o p) ""); [reflexivity|].
  destruct (policy_denies o (config p)); [reflexivity|].
  destruct (_analyzing p) eqn:E; simpl; now rewrite ?E.
Qed.

Lemma runAnalysis_spawned (o : options) (k : analysis_caller) (p : panel) :
  balanced p (let '(p1, st) := runAnalysis o p in (p1, spawn st k)).
Proof.
  unfold balanced. pose proof (runAnalysis_balanced o k p) as H.
  destruct (runAnalysis o p) as [p1 st]. exact H.
Qed.

Lemma balanced_same (p q : panel) :
  _analyzing q = _analyzing p -> balanced p (q, []).
Proof.
  unfold balanced, flag. simpl. now intros ->.
Qed.

Lemma tryInitialFetch_then_balanced (got : bool) (p : panel) :
  balanced p (tryInitialFetch_then got p).
Proof.
  unfold tryInitialFetch_then.
  destruct got; [now apply balanced_same|].
  destruct (_ <? _)%nat; [|now apply balanced_same].
  unfold balanced, flag. reflexivity.
Qed.

Lemma handleConversationEnded_rest_balanced (p : panel) :
  balanced p (handleConversationEnded_rest p).
Proof.
  unfold handleConversationEnded_rest.
  destruct (_ && _); [apply runAnalysis_spawned | now apply balanced_same].
Qed.

Lemma after_fetch_balanced (k : fetch_caller) (got : completion bool) (p : panel) :
  balanced p (after_fetch k got p).
Proof.
  unfold after_fetch. destruct got as [g|e]; [|now apply balanced_same].
  destruct k; [apply tryInitialFetch_then_balanced | apply handleConversationEnded_rest_balanced].
Qed.

Lemma balanced_step (p q : panel) (r : panel * list task) :
  _analyzing q = _analyzing p -> balanced q r -> balanced p r.
Proof.
  unfold balanced, flag. now intros ->.
Qed.

Lemma fetchFullConversation_balanced (k : fetch_caller) (p : panel) :
  balanced p (fetchFullConversation k p).
Proof.
  unfold fetchFullConversation.
  destruct (_ || _); [apply after_fetch_balanced|].
  unfold balanced, flag. reflexivity.
Qed.

Lemma fetchFullConversation_resume_balanced (k : fetch_caller) (o : settled) (p : panel) :
  balanced p (fetchFullConversation_resume k o p).
Proof.
  unfold fetchFullConversation_resume, fetchFullConversation_body.
  destruct o as [log|e]; [|apply after_fetch_balanced].
  destruct (negb _); [apply after_fetch_balanced|].
  destruct (messageLog _) as [entries|e]; [|apply after_fetch_balanced].
  set (p1 := set_messages _ p).
  pose proof (runAnalysis_balanced end_options (FromFetch k) p1) as H.
  destruct (runAnalysis end_options p1) as [p2 [|req]]; simpl in H.
  - pose proof (after_fetch_balanced k (Normal true) p2) as H2.
    unfold balanced in *. change (flag p1) with (flag p) in H. lia.
  - unfold balanced. simpl. exact H.
Qed.

Section Run.

Variable JSON_parse : string -> completion value.

(** The [finally] clause runs on every path of the resumed call. *)
Lemma runAnalysis_resume_cleanup (o : settled) (p : panel) :
  _analyzing (fst (runAnalysis_resume JSON_parse o p)) = false /\
  loaded (fst (runAnalysis_resume JSON_parse o p)) = true.
Proof.
  unfold runAnalysis_resume.
  destruct (runAnalysis_try JSON_parse o p) as [p1 [r|e]].
  - split; reflexivity.
  - destruct (bind _ _); split; reflexivity.
Qed.

Lemma analysis_settled_flight (k : analysis_caller) (o : settled) (p : panel) :
  analyses (snd (analysis_settled JSON_parse k o p)) =
  flag (fst (analysis_settled JSON_parse k o p)).
Proof.
  unfold analysis_settled.
  pose proof (runAnalysis_resume_cleanup o p) as [Hflag _].
  destruct (runAnalysis_resume JSON_parse o p) as [p1 r]. simpl in Hflag.
  destruct k as [|fk].
  - unfold flag. simpl. now rewrite Hflag.
  - match goal with |- context [after_fetch fk ?g p1] =>
      pose proof (after_fetch_balanced fk g p1) as H end.
    unfold balanced in H. unfold flag at 1 in H. rewrite Hflag in H. lia.
Qed.

Lemma handleMessageReceived_balanced (message : value) (p : panel) :
  balanced p (handleMessageReceived message p).
Proof.
  unfold handleMessageReceived.
  set (p1 := set_messages _ p).
  destruct (present (messages p1)).
  - apply balanced_step with (q := p1); [reflexivity | apply runAnalysis_spawned].
  - now apply balanced_same.
Qed.

Lemma handleConversationEnded_balanced (payload : value) (p : panel) :
  balanced p (handleConversationEnded payload p).
Proof.
  unfold handleConversationEnded.
  apply balanced_step with (q := set_conversationEnded true p);
    [reflexivity | apply fetchFullConversation_balanced].
Qed.

Lemma handleManualCalculate_balanced (p : panel) :
  balanced p (handleManualCalculate p).
Proof.
  unfold handleManualCalculate.
  destruct (negb _); [now apply balanced_same | apply runAnalysis_spawned].
Qed.

Lemma wiredConfig_balanced (data error : value) (p : panel) :
  balanced p (wiredConfig data error p).
Proof.
  unfold wiredConfig.
  destruct (truthy data).
  - set (p2 := set__configLoaded true _).
    destruct (_ && _).
    + apply balanced_step with (q := p2); [reflexivity | apply runAnalysis_spawned].
    + now apply balanced_same.
  - destruct (truthy error); now apply balanced_same.
Qed.

Lemma wiredSession_flag (data : option session_record) (error : value) (p : panel) :
  _analyzing (wiredSession data error p) = _analyzing p.
Proof.
  unfold wiredSession.
  destruct data as [d|]; [|reflexivity].
  destruct (negb _); [|reflexivity].
  destruct (truthy _); reflexivity.
Qed.

Lemma renderedCallback_balanced (p : panel) :
  balanced p (renderedCallback p).
Proof.
  unfold renderedCallback, tryInitialFetch.
  destruct (_ && _); [|now apply balanced_same].
  apply balanced_step with (q := set__toolkitReady true p);
    [reflexivity | apply fetchFullConversation_balanced].
Qed.

Lemma connectedCallback_flag (subscribe : channel -> completion handle) (p : panel) :
  _analyzing (fst (connectedCallback subscribe p)) = _analyzing p.
Proof.
  unfold connectedCallback, trySubscribe, trySubscribe_try.
  destruct (receivingSubscription p); [|destruct (subscribe ConversationEndUserChannel)];
    simpl; try reflexivity;
    match goal with |- context [match ?x with Some _ => _ | None => _ end] =>
      destruct x; [|destruct (subscribe ConversationEndedChannel)] end; reflexivity.
Qed.

Lemma analyses_remove_other (i : nat) (ts : list task) (t : task) :
  nth_error ts i = Some t -> is_analysis t = false ->
  analyses (remove_nth i ts) = analyses ts.
Proof.
  revert i. induction ts as [|x rest IH]; intros [|j] Hnth Hna; simpl in *; try discriminate.
  - injection Hnth as ->. unfold analyses. simpl. now rewrite Hna.
  - unfold analyses in *. simpl. destruct (is_analysis x); simpl; now rewrite (IH j).
Qed.

Lemma analyses_remove_analysis (i : nat) (ts : list task) (t : task) :
  nth_error ts i = Some t -> is_analysis t = true ->
  S (analyses (remove_nth i ts)) = analyses ts.
Proof.
  revert i. induction ts as [|x rest IH]; intros [|j] Hnth Hna; simpl in *; try discriminate.
  - injection Hnth as ->. unfold analyses. simpl. now rewrite Hna.
  - unfold analyses in *. simpl. destruct (is_analysis x); simpl; now rewrite <- (IH j).
Qed.

(** The books are kept by every transition. *)
Definition in_flight_matches_flag (s : system) : Prop :=
  analyses (pending s) = flag (view s).

Lemma commit_balanced (s : system) (r : panel * list task) :
  in_flight_matches_flag s -> balanced (view s) r ->
  in_flight_matches_flag (commit s r).
Proof.
  unfold in_flight_matches_flag, balanced, commit. simpl.
  rewrite analyses_app. lia.
Qed.

Lemma step_in_flight (ev : event) (s : system) :
  in_flight_matches_flag s -> in_flight_matches_flag (step JSON_parse ev s).
Proof.
  intros Inv. destruct ev as [v|there|subscribe| |data err|data err|message|payload| |i o|i]; simpl.
  - apply commit_balanced; [exact Inv | now apply balanced_same].
  - apply commit_balanced; [exact Inv | now apply balanced_same].
  - pose proof (connectedCallback_flag subscribe (view s)) as H.
    destruct (connectedCallback subscribe (view s)) as [p1 calls]. simpl in H.
    unfold in_flight_matches_flag, flag in *. simpl. now rewrite H.
  - apply commit_balanced; [exact Inv | apply renderedCallback_balanced].
  - apply commit_balanced; [exact Inv | apply wiredConfig_balanced].
  - apply commit_balanced; [exact Inv | apply balanced_same, wiredSession_flag].
  - apply commit_balanced; [exact Inv | apply handleMessageReceived_balanced].
  - apply commit_balanced; [exact Inv | apply handleConversationEnded_balanced].
  - apply commit_balanced; [exact Inv | apply handleManualCalculate_balanced].
  - destruct (nth_error (pending s) i) as [[req k|session k|delay]|] eqn:Hnth; try exact Inv.
    + pose proof (analyses_remove_analysis i _ _ Hnth eq_refl) as Hrm.
      pose proof (analysis_settled_flight k o (view s)) as Hset.
      unfold in_flight_matches_flag in *. unfold commit, take. simpl.
      rewrite analyses_app, Hset.
      assert (flag (view s) <= 1) by (unfold flag; destruct (_analyzing (view s)); lia).
      lia.
    + apply commit_balanced.
      * unfold in_flight_matches_flag, take in *. simpl.
        now rewrite (analyses_remove_other i _ _ Hnth eq_refl).
      * apply fetchFullConversation_resume_balanced.
  - destruct (nth_error (pending s) i) as [[req k|session k|delay]|] eqn:Hnth; try exact Inv.
    apply commit_balanced.
    + unfold in_flight_matches_flag, take in *. simpl.
      now rewrite (analyses_remove_other i _ _ Hnth eq_refl).
    + apply fetchFullConversation_balanced.
Qed.

Lemma run_in_flight (evs : list event) (s : system) :
  in_flight_matches_flag s -> in_flight_matches_flag (run JSON_parse evs s).
Proof.
  revert s. induction evs as [|ev evs IH]; intros s Inv; simpl.
  - exact Inv.
  - apply IH, step_in_flight, Inv.
Qed.

(** An event that settles an analysis call in flight. *)
Definition settles_analysis (ev : event) (s : system) : bool :=
  match ev with
  | Settles i _ =>
      match nth_error (pending s) i with
      | Some (AwaitAnalysis _ _) => true
      | _ => false
      end
  | _ => false
  end.

(** Every other event is a handler that keeps the books and only adds to
    the calls issued. *)
Lemma step_effect (ev : event) (s : system) :
  settles_analysis ev s = false ->
  exists r, balanced (view s) r /\
            view (step JSON_parse ev s) = fst r /\
            issued (step JSON_parse ev s) = (issued s ++ snd r)%list.
Proof.
  intros Hev. destruct ev as [v|there|subscribe| |data err|data err|message|payload| |i o|i]; simpl in *.
  - eexists (_, []); (split; [|split; reflexivity]); now apply balanced_same.
  - eexists (_, []); (split; [|split; reflexivity]); now apply balanced_same.
  - pose proof (connectedCallback_flag subscribe (view s)) as H.
    destruct (connectedCallback subscribe (view s)) as [p1 calls]. simpl in H.
    exists (p1, []). simpl. rewrite app_nil_r.
    split; [now apply balanced_same | split; reflexivity].
  - eexists; (split; [|split; reflexivity]); apply renderedCallback_balanced.
  - eexists; (split; [|split; reflexivity]); apply wiredConfig_balanced.
  - eexists (_, []); (split; [|split; reflexivity]);
      apply balanced_same; exact (wiredSession_flag data err (view s)).
  - eexists; (split; [|split; reflexivity]); apply handleMessageReceived_balanced.
  - eexists; (split; [|split; reflexivity]); apply handleConversationEnded_balanced.
  - eexists; (split; [|split; reflexivity]); apply handleManualCalculate_balanced.
  - destruct (nth_error (pending s) i) as [[req k|session k|delay]|]; try discriminate.
    + eexists; (split; [|split; reflexivity]); apply fetchFullConversation_resume_balanced.
    + exists (view s, []). rewrite app_nil_r.
      split; [now apply balanced_same | split; reflexivity].
    + exists (view s, []). rewrite app_nil_r.
      split; [now apply balanced_same | split; reflexivity].
  - destruct (nth_error (pending s) i) as [[req k|session k|delay]|];
      try (exists (view s, []); rewrite app_nil_r;
           split; [now apply balanced_same | split; reflexivity]).
    eexists; (split; [|split; reflexivity]); apply fetchFullConversation_balanced.
Qed.

Lemma step_while_in_flight (ev : event) (s : system) :
  _analyzing (view s) = true -> settles_analysis ev s = false ->
  analyses (issued (step JSON_parse ev s)) = analyses (issued s) /\
  _analyzing (view (step JSON_parse ev s)) = true.
Proof.
  intros Hflag Hev.
  destruct (step_effect ev s Hev) as (r & Hbal & Hview & Hissued).
  rewrite Hview, Hissued, analyses_app.
  unfold balanced, flag in Hbal. rewrite Hflag in Hbal.
  destruct (_analyzing (fst r)); [split; [lia | reflexivity] | lia].
Qed.

(** A sequence of events none of which settles an analysis call. *)
Fixpoint undisturbed (evs : list event) (s : system) : Prop :=
  match evs with
  | [] => True
  | ev :: rest => settles_analysis ev s = false /\ undisturbed rest (step JSON_parse ev s)
  end.

Lemma run_while_in_flight (evs : list event) (s : system) :
  _analyzing (view s) = true -> undisturbed evs s ->
  analyses (issued (run JSON_parse evs s)) = analyses (issued s) /\
  _analyzing (view (run JSON_parse evs s)) = true.
Proof.
  revert s. induction evs as [|ev evs IH]; intros s Hflag Hevs; simpl.
  - now split.
  - destruct Hevs as [Hev Hrest].
    destruct (step_while_in_flight ev s Hflag Hev) as [Hissued Hflag'].
    destruct (IH _ Hflag' Hrest) as [H1 H2]. split; [congruence | exact H2].
Qed.

End Run.

End PersistFacts.

(** ** The persistence-free panel: accounting of the calls in flight *)

Module PlainFacts.
Import JS Common PlainPanel StringFacts.

Definition plain_flag (p : panel) : nat := if _analyzing p then 1 else 0.

Definition plain_balanced (p : panel) (r : panel * list string) : Prop :=
  List.length (snd r) + plain_flag p = plain_flag (fst r).

Lemma plain_runAnalysis_balanced (p : panel) :
  plain_balanced p (let '(p1, st) := runAnalysis p in (p1, spawn st)).
Proof.
  unfold plain_balanced, runAnalysis, plain_flag.
  destruct (String.eqb (resolved_text p) ""); [reflexivity|].
  destruct (_analyzing p) eqn:E; simpl; now rewrite ?E.
Qed.

Lemma plain_balanced_same (p q : panel) :
  _analyzing q = _analyzing p -> plain_balanced p (q, []).
Proof.
  unfold plain_balanced, plain_flag. simpl. now intros ->.
Qed.

Lemma plain_balanced_step (p q : panel) (r : panel * list string) :
  _analyzing q = _analyzing p -> plain_balanced q r -> plain_balanced p r.
Proof.
  unfold plain_balanced, plain_flag. now intros ->.
Qed.

Lemma plain_handleMessageReceived_balanced (message : value) (p : panel) :
  plain_balanced p (handleMessageReceived message p).
Proof.
  unfold handleMessageReceived.
  match goal with |- context [if negb (truthy ?x) then (p, []) else _] =>
    destruct (negb (truthy x)); [now apply plain_balanced_same|];
    destruct (ToString x) as [str|e]; [|now apply plain_balanced_same];
    set (p1 := set_messages (Some (trim str)) p) end.
  apply plain_balanced_step with (q := p1); [reflexivity | apply plain_runAnalysis_balanced].
Qed.

Lemma plain_handleConversationEnded_balanced (payload : value) (p : panel) :
  plain_balanced p (handleConversationEnded payload p).
Proof.
  unfold handleConversationEnded.
  apply plain_balanced_step with (q := set_conversationEnded true p);
    [reflexivity | apply plain_runAnalysis_balanced].
Qed.

Lemma plain_handleManualCalculate_balanced (p : panel) :
  plain_balanced p (handleManualCalculate p).
Proof.
  unfold handleManualCalculate.
  destruct (negb _); [now apply plain_balanced_same | apply plain_runAnalysis_balanced].
Qed.

Lemma plain_trySubscribe_flag (subscribe : channel -> completion handle) (p : panel) :
  _analyzing (fst (trySubscribe subscribe p)) = _analyzing p.
Proof.
  unfold trySubscribe, trySubscribe_try.
  destruct (receivingSubscription p); [|destruct (subscribe ConversationEndUserChannel)];
    simpl; try reflexivity;
    match goal with |- context [match ?x with Some _ => _ | None => _ end] =>
      destruct x; [|destruct (subscribe ConversationEndedChannel)] end; reflexivity.
Qed.

Lemma plain_connectedCallback_flag (subscribe : channel -> completion handle) (p : panel) :
  _analyzing (fst (connectedCallback subscribe p)) = _analyzing p.
Proof.
  unfold connectedCallback.
  pose proof (plain_trySubscribe_flag subscribe p) as H.
  destruct (trySubscribe subscribe p) as [p1 calls]. exact H.
Qed.

Lemma plain_renderedCallback_flag (subscribe : channel -> completion handle) (p : panel) :
  _analyzing (fst (renderedCallback subscribe p)) = _analyzing p.
Proof.
  unfold renderedCallback.
  destruct (receivingSubscription p); [reflexivity | apply plain_trySubscribe_flag].
Qed.

Section Run.

Variable JSON_parse : string -> completion value.

Lemma plain_runAnalysis_resume_cleanup (o : settled) (p : panel) :
  _analyzing (fst (runAnalysis_resume JSON_parse o p)) = false /\
  loaded (fst (runAnalysis_resume JSON_parse o p)) = true.
Proof.
  unfold runAnalysis_resume.
  destruct (runAnalysis_try JSON_parse o p) as [p1 [r|e]].
  - split; reflexivity.
  - destruct (bind _ _); split; reflexivity.
Qed.

Definition plain_in_flight_matches_flag (s : system) : Prop :=
  List.length (pending s) = plain_flag (view s).

Lemma plain_commit_balanced (s : system) (r : panel * list string) :
  plain_in_flight_matches_flag s -> plain_balanced (view s) r ->
  plain_in_flight_matches_flag (commit s r).
Proof.
  unfold plain_in_flight_matches_flag, plain_balanced, commit. simpl.
  rewrite length_app. lia.
Qed.

Lemma length_remove_nth {A : Type} (i : nat) (l : list A) (x : A) :
  nth_error l i = Some x -> S (List.length (remove_nth i l)) = List.length l.
Proof.
  revert i. induction l as [|y rest IH]; intros [|j] H; simpl in *; try discriminate.
  - reflexivity.
  - now rewrite (IH j).
Qed.

Lemma plain_step_in_flight (ev : event) (s : system) :
  plain_in_flight_matches_flag s -> plain_in_flight_matches_flag (step JSON_parse ev s).
Proof.
  intros Inv. destruct ev; simpl.
  - unfold plain_in_flight_matches_flag, resubscribed, plain_flag in *. simpl.
    now rewrite plain_connectedCallback_flag.
  - unfold plain_in_flight_matches_flag, resubscribed, plain_flag in *. simpl.
    now rewrite plain_renderedCallback_flag.
  - apply plain_commit_balanced; [exact Inv | apply plain_handleMessageReceived_balanced].
  - apply plain_commit_balanced; [exact Inv | apply plain_handleMessageReceived_balanced].
  - apply plain_commit_balanced; [exact Inv | apply plain_handleConversationEnded_balanced].
  - apply plain_commit_balanced; [exact Inv | apply plain_handleManualCalculate_balanced].
  - destruct (nth_error (pending s) i) as [t|] eqn:Hnth; [|exact Inv].
    pose proof (length_remove_nth i _ _ Hnth) as Hrm.
    destruct (plain_runAnalysis_resume_cleanup o (view s)) as [Hflag _].
    unfold plain_in_flight_matches_flag, plain_flag in *. simpl. rewrite Hflag.
    destruct (_analyzing (view s)); lia.
Qed.

Lemma plain_run_in_flight (evs : list event) (s : system) :
  plain_in_flight_matches_flag s -> plain_in_flight_matches_flag (run JSON_parse evs s).
Proof.
  revert s. induction evs as [|ev evs IH]; intros s Inv; simpl.
  - exact Inv.
  - apply IH, plain_step_in_flight, Inv.
Qed.

Definition is_settlement (ev : event) : bool :=
  match ev with
  | Settles _ _ => true
  | _ => false
  end.

Lemma plain_step_while_in_flight (ev : event) (s : system) :
  _analyzing (view s) = true -> is_settlement ev = false ->
  issued (step JSON_parse ev s) = issued s /\
  _analyzing (view (step JSON_parse ev s)) = true.
Proof.
  intros Hflag Hev.
  assert (Hkey : forall r, plain_balanced (view s) r ->
            issued (commit s r) = issued s /\ _analyzing (view (commit s r)) = true).
  { intros [q ts] Hbal. unfold plain_balanced, plain_flag in Hbal. simpl in *.
    rewrite Hflag in Hbal. destruct (_analyzing q); [|lia].
    destruct ts; [|simpl in Hbal; lia]. now rewrite app_nil_r. }
  destruct ev; simpl in *; try discriminate.
  - split; [reflexivity | now rewrite plain_connectedCallback_flag].
  - split; [reflexivity | now rewrite plain_renderedCallback_flag].
  - apply Hkey, plain_handleMessageReceived_balanced.
  - apply Hkey, plain_handleMessageReceived_balanced.
  - apply Hkey, plain_handleConversationEnded_balanced.
  - apply Hkey, plain_handleManualCalculate_balanced.
Qed.

Lemma plain_run_while_in_flight (evs : list event) (s : system) :
  _analyzing (view s) = true -> Forall (fun ev => is_settlement ev = false) evs ->
  issued (run JSON_parse evs s) = issued s /\
  _analyzing (view (run JSON_parse evs s)) = true.
Proof.
  revert s. induction evs as [|ev evs IH]; intros s Hflag Hevs; simpl.
  - now split.
  - inversion Hevs as [|? ? Hev Hrest]; subst.
    destruct (plain_step_while_in_flight ev s Hflag Hev) as [Hissued Hflag'].
    destruct (IH _ Hflag' Hrest) as [H1 H2]. split; [congruence | exact H2].
Qed.

End Run.

End PlainFacts.

(** ** Concrete scenarios *)

Module Scenario.
Import JS Common.

(** A [JSON.parse] for scenarios in which no response is valid JSON text. *)
Definition no_JSON : string -> completion value :=
  fun _ => Throw (VObj [("name", VStr "SyntaxError"); ("message", VStr "Unexpected token")]).

(** An inbound message event carrying the text [s]. *)
Definition inbound (s : string) : value := VObj [("content", VStr s)].

(** The persistence-free panel with the analysis of "hi" in flight. *)
Definition plain_busy : PlainPanel.system :=
  PlainPanel.run no_JSON [PlainPanel.MessageReceived (inbound "hi")] PlainPanel.boot.

(** The panel with persistence, analysing "hi". *)
Definition persist_busy : PersistPanel.panel :=
  fst (PersistPanel.runAnalysis PersistPanel.default_options
         (PersistPanel.set_messages (Some "hi") PersistPanel.initial)).

End Scenario.

(** ** Single flight and cleanup *)

Import JS Common.

(** C1, as stated, fails in the persistence-free panel: while the analysis of
    "hi" is in flight, a message of blank text makes a later [runAnalysis]
    call that returns null and starts no analysis, but switches [loaded] from
    false to true. *)
Lemma C1_later_call_sets_loaded :
  let s1 := Scenario.plain_busy in
  let s2 := PlainPanel.step Scenario.no_JSON
              (PlainPanel.MessageReceived (Scenario.inbound "  ")) s1 in
  PlainPanel._analyzing (PlainPanel.view s1) = true /\
  PlainPanel.runAnalysis (PlainPanel.set_messages (Some "") (PlainPanel.view s1))
    = (PlainPanel.view s2, PlainPanel.ReturnedNull) /\
  PlainPanel.issued s2 = PlainPanel.issued s1 /\
  PlainPanel.loaded (PlainPanel.view s1) = false /\
  PlainPanel.loaded (PlainPanel.view s2) = true.
Proof.
  repeat split; reflexivity.
Qed.

(** C1 (amended): while an analysis is in flight ([_analyzing] is true), every
    [runAnalysis] call returns null without calling the analysis operation;
    it leaves the panel as it is, except that a call whose resolved, trimmed
    text is empty sets [loaded] to true.  In every run of either panel the
    number of analysis calls in flight is one when [_analyzing] is true and
    zero otherwise; and from a state in which [_analyzing] is true, no
    sequence of events that does not settle the call in flight makes a
    further analysis call or clears the flag. *)
Theorem C1_single_flight :
  (forall (o : PersistPanel.options) (p : PersistPanel.panel),
      PersistPanel._analyzing p = true ->
      PersistPanel.runAnalysis o p =
        (if String.eqb (PersistPanel.resolved_text o p) ""
         then PersistPanel.set_loaded true p else p,
         PersistPanel.ReturnedNull)) /\
  (forall p : PlainPanel.panel,
      PlainPanel._analyzing p = true ->
      PlainPanel.runAnalysis p =
        (if String.eqb (PlainPanel.resolved_text p) ""
         then PlainPanel.set_loaded true p else p,
         PlainPanel.ReturnedNull)) /\
  (forall JSON_parse evs,
      let s := PersistPanel.run JSON_parse evs PersistPanel.boot in
      PersistPanel.analyses (PersistPanel.pending s) =
        if PersistPanel._analyzing (PersistPanel.view s) then 1 else 0) /\
  (forall JSON_parse evs,
      let s := PlainPanel.run JSON_parse evs PlainPanel.boot in
      List.length (PlainPanel.pending s) =
        if PlainPanel._analyzing (PlainPanel.view s) then 1 else 0) /\
  (forall JSON_parse evs s,
      PersistPanel._analyzing (PersistPanel.view s) = true ->
      PersistFacts.undisturbed JSON_parse evs s ->
      PersistPanel.analyses (PersistPanel.issued (PersistPanel.run JSON_parse evs s))
        = PersistPanel.analyses (PersistPanel.issued s) /\
      PersistPanel._analyzing (PersistPanel.view (PersistPanel.run JSON_parse evs s)) = true) /\
  (forall JSON_parse evs s,
      PlainPanel._analyzing (PlainPanel.view s) = true ->
      Forall (fun ev => PlainFacts.is_settlement ev = false) evs ->
      PlainPanel.issued (PlainPanel.run JSON_parse evs s) = PlainPanel.issued s /\
      PlainPanel._analyzing (PlainPanel.view (PlainPanel.run JSON_parse evs s)) = true).
Proof.
  split; [|split; [|split; [|split; [|split]]]].
  - intros o p Hflag. unfold PersistPanel.runAnalysis.
    destruct (String.eqb _ ""); [reflexivity|].
    destruct (PersistPanel.policy_denies _ _); [reflexivity|].
    now rewrite Hflag.
  - intros p Hflag. unfold PlainPanel.runAnalysis.
    destruct (String.eqb _ ""); [reflexivity|].
    now rewrite Hflag.
  - intros JSON_parse evs.
    apply (PersistFacts.run_in_flight JSON_parse evs PersistPanel.boot). reflexivity.
  - intros JSON_parse evs.
    apply (PlainFacts.plain_run_in_flight JSON_parse evs PlainPanel.boot). reflexivity.
  - intros JSON_parse evs s. apply PersistFacts.run_while_in_flight.
  - intros JSON_parse evs s. apply PlainFacts.plain_run_while_in_flight.
Qed.

(** The first part of C1 at the panel analysing "hi", on a manual call. *)
Lemma C1_single_flight_witness :
  PersistPanel._analyzing Scenario.persist_busy = true /\
  PersistPanel.runAnalysis PersistPanel.default_options Scenario.persist_busy
    = (Scenario.persist_busy, PersistPanel.ReturnedNull).
Proof.
  split; [reflexivity|].
  exact (proj1 C1_single_flight PersistPanel.default_options Scenario.persist_busy eq_refl).
Defined.

(** C2, as stated, fails on the early return for empty text: in the
    persistence-free panel, with the analysis of "hi" in flight, the
    [runAnalysis] call made for a blank message returns early and
    [_analyzing] is still true afterward. *)
Lemma C2_empty_text_return_keeps_flag :
  let p := PlainPanel.set_messages (Some "") (PlainPanel.view Scenario.plain_busy) in
  PlainPanel.resolved_text p = "" /\
  snd (PlainPanel.runAnalysis p) = PlainPanel.ReturnedNull /\
  PlainPanel._analyzing (fst (PlainPanel.runAnalysis p)) = true /\
  PlainPanel.view (PlainPanel.step Scenario.no_JSON
                     (PlainPanel.MessageReceived (Scenario.inbound "  "))
                     Scenario.plain_busy)
    = fst (PlainPanel.runAnalysis p).
Proof.
  repeat split; reflexivity.
Qed.

(** C2 (amended): when the analysis call settles, by success or by failure,
    [_analyzing] is false and [loaded] is true afterward; the early return
    for an empty resolved text sets [loaded] to true and changes nothing
    else, so [_analyzing] keeps its value (false unless another analysis is
    in flight); the early returns for a policy denial and for the
    single-flight guard leave the whole panel untouched. *)
Theorem C2_cleanup :
  (forall JSON_parse o p,
      PersistPanel._analyzing (fst (PersistPanel.runAnalysis_resume JSON_parse o p)) = false /\
      PersistPanel.loaded (fst (PersistPanel.runAnalysis_resume JSON_parse o p)) = true) /\
  (forall JSON_parse o p,
      PlainPanel._analyzing (fst (PlainPanel.runAnalysis_resume JSON_parse o p)) = false /\
      PlainPanel.loaded (fst (PlainPanel.runAnalysis_resume JSON_parse o p)) = true) /\
  (forall o p,
      PersistPanel.resolved_text o p = "" ->
      PersistPanel.runAnalysis o p = (PersistPanel.set_loaded true p, PersistPanel.ReturnedNull)) /\
  (forall p,
      PlainPanel.resolved_text p = "" ->
      PlainPanel.runAnalysis p = (PlainPanel.set_loaded true p, PlainPanel.ReturnedNull)) /\
  (forall o p,
      PersistPanel.resolved_text o p <> "" ->
      PersistPanel.policy_denies o (PersistPanel.config p) = true \/
      PersistPanel._analyzing p = true ->
      PersistPanel.runAnalysis o p = (p, PersistPanel.ReturnedNull)) /\
  (forall p,
      PlainPanel.resolved_text p <> "" ->
      PlainPanel._analyzing p = true ->
      PlainPanel.runAnalysis p = (p, PlainPanel.ReturnedNull)).
Proof.
  split; [|split; [|split; [|split; [|split]]]].
  - intros. apply PersistFacts.runAnalysis_resume_cleanup.
  - intros. apply PlainFacts.plain_runAnalysis_resume_cleanup.
  - intros o p Htext. unfold PersistPanel.runAnalysis. now rewrite Htext.
  - intros p Htext. unfold PlainPanel.runAnalysis. now rewrite Htext.
  - intros o p Htext Hwhy. unfold PersistPanel.runAnalysis.
    apply String.eqb_neq in Htext. rewrite Htext.
    destruct (PersistPanel.policy_denies _ _); [reflexivity|].
    destruct Hwhy as [Hwhy|Hwhy]; [discriminate | now rewrite Hwhy].
  - intros p Htext Hflag. unfold PlainPanel.runAnalysis.
    apply String.eqb_neq in Htext. now rewrite Htext, Hflag.
Qed.

(** The policy-denial part of C2 at an idle panel holding "hi": a call for
    context 'message' with [calculateEveryMessage] off. *)
Lemma C2_cleanup_witness :
  let p := PersistPanel.set_messages (Some "hi") PersistPanel.initial in
  let o := {| PersistPanel.force := false; PersistPanel.context := "message";
              PersistPanel.overrideText := None |} in
  PersistPanel.runAnalysis o p = (p, PersistPanel.ReturnedNull).
Proof.
  refine (proj1 (proj2 (proj2 (proj2 (proj2 C2_cleanup)))) _ _ _ _).
  - discriminate.
  - left. reflexivity.
Defined.

(** ** Trigger policy *)

(** C3, as stated, fails: a non-forced call whose context is none of the
    known tags is not denied; with "hi" buffered the analysis call is made. *)
Lemma C3_unknown_context_proceeds :
  let p := PersistPanel.set_messages (Some "hi") PersistPanel.initial in
  let o := {| PersistPanel.force := false; PersistPanel.context := "other";
              PersistPanel.overrideText := None |} in
  PersistPanel.policy_denies o (PersistPanel.config p) = false /\
  snd (PersistPanel.runAnalysis o p)
    = PersistPanel.Awaiting {| PersistPanel.sessionId := VUndefined;
                               PersistPanel.text := "hi" |}.
Proof.
  split; reflexivity.
Qed.

Lemma policy_denies_iff (o : PersistPanel.options) (c : PersistPanel.Config) :
  PersistPanel.policy_denies o c = true <->
  PersistPanel.force o = false /\
  ((PersistPanel.context o = "message" /\ PersistPanel.calculateEveryMessage c = false) \/
   (PersistPanel.context o = "end" /\ PersistPanel.calculateOnSessionEnd c = false)).
Proof.
  unfold PersistPanel.policy_denies.
  destruct (PersistPanel.force o); simpl.
  - split; [discriminate | now intros [? _]].
  - destruct (String.eqb_spec (PersistPanel.context o) "message") as [Hm|Hm]; simpl.
    + destruct (PersistPanel.calculateEveryMessage c); simpl.
      * rewrite Hm. simpl. split; [discriminate|].
        intros (_ & [[_ ?]|[? _]]); discriminate.
      * split; [|reflexivity]. intros _. split; [reflexivity | left; split; [exact Hm | reflexivity]].
    + destruct (String.eqb_spec (PersistPanel.context o) "end") as [He|He]; simpl.
      * destruct (PersistPanel.calculateOnSessionEnd c); simpl.
        -- split; [discriminate|]. intros (_ & [[? _]|[_ ?]]); [contradiction | discriminate].
        -- split; [|reflexivity]. intros _. split; [reflexivity | right; split; [exact He | reflexivity]].
      * split; [discriminate|]. intros (_ & [[? _]|[? _]]); contradiction.
Qed.

Lemma runAnalysis_calls_iff (o : PersistPanel.options) (p : PersistPanel.panel) :
  PersistPanel.resolved_text o p <> "" ->
  PersistPanel._analyzing p = false ->
  (exists req, snd (PersistPanel.runAnalysis o p) = PersistPanel.Awaiting req) <->
  PersistPanel.policy_denies o (PersistPanel.config p) = false.
Proof.
  intros Htext Hflag. unfold PersistPanel.runAnalysis.
  apply String.eqb_neq in Htext. rewrite Htext, Hflag.
  destruct (PersistPanel.policy_denies _ _); simpl.
  - split; [now intros (req & ?) | discriminate].
  - split; [reflexivity | intros _; eexists; reflexivity].
Qed.

(** C3 (amended): the policy denies exactly two cases, both non-forced:
    context 'message' with [calculateEveryMessage] off and context 'end' with
    [calculateOnSessionEnd] off.  With a non-empty resolved text and no
    analysis in flight the analysis call is made exactly when the policy does
    not deny, and it carries the record id and that text.  So a forced call
    is made whatever its context and the configuration; a non-forced call of
    context 'message' is made iff [calculateEveryMessage], one of context
    'end' iff [calculateOnSessionEnd], and one of any other context tag,
    known or unknown, is made (the policy fails open). *)
Theorem C3_policy :
  (forall o c,
      PersistPanel.policy_denies o c = true <->
      PersistPanel.force o = false /\
      ((PersistPanel.context o = "message" /\ PersistPanel.calculateEveryMessage c = false) \/
       (PersistPanel.context o = "end" /\ PersistPanel.calculateOnSessionEnd c = false))) /\
  (forall o p,
      PersistPanel.resolved_text o p <> "" ->
      PersistPanel._analyzing p = false ->
      ((exists req, snd (PersistPanel.runAnalysis o p) = PersistPanel.Awaiting req) <->
       PersistPanel.policy_denies o (PersistPanel.config p) = false) /\
      (forall req,
          snd (PersistPanel.runAnalysis o p) = PersistPanel.Awaiting req ->
          req = {| PersistPanel.sessionId := PersistPanel.recordId p;
                   PersistPanel.text := PersistPanel.resolved_text o p |}) /\
      (PersistPanel.force o = true ->
       snd (PersistPanel.runAnalysis o p)
         = PersistPanel.Awaiting
             {| PersistPanel.sessionId := PersistPanel.recordId p;
                PersistPanel.text := PersistPanel.resolved_text o p |})) /\
  (forall o p,
      PersistPanel.resolved_text o p <> "" ->
      PersistPanel._analyzing p = false ->
      PersistPanel.force o = false ->
      ((PersistPanel.context o = "message" ->
        ((exists req, snd (PersistPanel.runAnalysis o p) = PersistPanel.Awaiting req) <->
         PersistPanel.calculateEveryMessage (PersistPanel.config p) = true)) /\
       (PersistPanel.context o = "end" ->
        ((exists req, snd (PersistPanel.runAnalysis o p) = PersistPanel.Awaiting req) <->
         PersistPanel.calculateOnSessionEnd (PersistPanel.config p) = true)) /\
       (PersistPanel.context o <> "message" -> PersistPanel.context o <> "end" ->
        exists req, snd (PersistPanel.runAnalysis o p) = PersistPanel.Awaiting req))).
Proof.
  split; [exact policy_denies_iff|]. split.
  - intros o p Htext Hflag. split; [exact (runAnalysis_calls_iff o p Htext Hflag)|].
    pose proof Htext as Hne. apply String.eqb_neq in Hne.
    split.
    + intros req. unfold PersistPanel.runAnalysis. rewrite Hne, Hflag.
      destruct (PersistPanel.policy_denies _ _); simpl; [discriminate|].
      intros H. injection H as <-. reflexivity.
    + intros Hforce. unfold PersistPanel.runAnalysis, PersistPanel.policy_denies.
      rewrite Hne, Hflag, Hforce. reflexivity.
  - intros o p Htext Hflag Hforce.
    pose proof (runAnalysis_calls_iff o p Htext Hflag) as Hcalls.
    pose proof (policy_denies_iff o (PersistPanel.config p)) as Hden.
    destruct (PersistPanel.policy_denies o (PersistPanel.config p)) eqn:E.
    + destruct (proj1 Hden eq_refl) as (_ & [[Hc Hv]|[Hc Hv]]).
      * split; [|split].
        -- intros _. rewrite Hv. split; [intros H; apply Hcalls in H; discriminate | discriminate].
        -- intros Hc'. rewrite Hc in Hc'. discriminate.
        -- intros Hc'. contradiction.
      * split; [|split].
        -- intros Hc'. rewrite Hc in Hc'. discriminate.
        -- intros _. rewrite Hv. split; [intros H; apply Hcalls in H; discriminate | discriminate].
        -- intros _ Hc'. contradiction.
    + assert (Hcall : exists req, snd (PersistPanel.runAnalysis o p) = PersistPanel.Awaiting req)
        by now apply Hcalls.
      split; [|split].
      * intros Hc. split; [|intros _; exact Hcall]. intros _.
        destruct (PersistPanel.calculateEveryMessage (PersistPanel.config p)) eqn:Ev; [reflexivity|].
        assert (false = true) as Habs; [|discriminate].
        { apply Hden. split; [exact Hforce | left; now split]. }
      * intros Hc. split; [|intros _; exact Hcall]. intros _.
        destruct (PersistPanel.calculateOnSessionEnd (PersistPanel.config p)) eqn:Ev; [reflexivity|].
        assert (false = true) as Habs; [|discriminate].
        { apply Hden. split; [exact Hforce | right; now split]. }
      * intros _ _. exact Hcall.
Qed.

(** C3 at the idle panel holding "hi" with both switches off: a forced call
    of context 'message' is made, and so is a non-forced call of context
    'manual'. *)
Lemma C3_policy_witness :
  let p := PersistPanel.set_messages (Some "hi") PersistPanel.initial in
  snd (PersistPanel.runAnalysis
         {| PersistPanel.force := true; PersistPanel.context := "message";
            PersistPanel.overrideText := None |} p)
    = PersistPanel.Awaiting {| PersistPanel.sessionId := VUndefined;
                               PersistPanel.text := "hi" |} /\
  exists req, snd (PersistPanel.runAnalysis PersistPanel.default_options p)
              = PersistPanel.Awaiting req.
Proof.
  intros p. split.
  - refine (proj2 (proj2 (proj1 (proj2 C3_policy)
                            {| PersistPanel.force := true; PersistPanel.context := "message";
                               PersistPanel.overrideText := None |} p _ _)) _);
      discriminate || reflexivity.
  - refine (proj2 (proj2 (proj2 (proj2 C3_policy) PersistPanel.default_options p _ _ _)) _ _);
      discriminate || reflexivity.
Defined.

(** ** The initial-fetch machine *)

Module FetchFacts.
Import JS Common PersistPanel.

Ltac break_match :=
  match goal with
  | |- context [match ?x with _ => _ end] => destruct x eqn:?
  end.

(** Outcomes of [getConversationLog] that make [fetchFullConversation]
    return false at once: a rejection with an error value, or a log without
    messages. *)
Definition no_data (o : settled) : bool :=
  match o with
  | Rejected e => negb (nullish e)
  | Fulfilled log => negb (truthy (own (or_else (opt_get log "messages") (VArr [])) "length"))
  end.

Lemma fetch_catch_value (e : value) :
  nullish e = false -> fetch_catch e = Normal false.
Proof.
  intros He. unfold fetch_catch, failure_message, get. rewrite He.
  destruct (truthy _); reflexivity.
Qed.

Lemma body_no_data (o : settled) (p : panel) :
  no_data o = true ->
  fetchFullConversation_body o p = (p, FetchCompleted (Normal false)).
Proof.
  destruct o as [log|e]; simpl; intros H.
  - now rewrite H.
  - apply negb_true_iff in H. now rewrite fetch_catch_value.
Qed.

(** The machine waiting for its log call. *)
Definition fetching (p : panel) (hist : list task) (subs : list channel) : system :=
  {| view := p;
     pending := [AwaitLog (recordId p) FromInitialFetch];
     issued := hist;
     subscribed := subs |}.

Section Drive.

Variable JSON_parse : string -> completion value.
Variable source : nat -> settled.
Hypothesis source_empty : forall n, no_data (source n) = true.

(** The call yields nothing and a timer is set. *)
Lemma settle_no_data (n : nat) (p : panel) (hist : list task) (subs : list channel) :
  _fetchAttempts p < MAX_FETCH_ATTEMPTS ->
  step JSON_parse (Settles 0 (source n)) (fetching p hist subs) =
  {| view := set__fetchAttempts (_fetchAttempts p + 1) p;
     pending := [Timeout (300 * (_fetchAttempts p + 1))];
     issued := (hist ++ [Timeout (300 * (_fetchAttempts p + 1))])%list;
     subscribed := subs |}.
Proof.
  intros Hlt. apply Nat.ltb_lt in Hlt.
  unfold step, fetching. simpl nth_error.
  unfold fetchFullConversation_resume. simpl view.
  rewrite (body_no_data _ _ (source_empty n)).
  unfold after_fetch, tryInitialFetch_then. rewrite Hlt.
  reflexivity.
Qed.

(** The timer fires and the log is asked for again. *)
Lemma fire_timer (d : nat) (p : panel) (hist : list task) (subs : list channel) :
  toolkit p = true -> truthy (recordId p) = true ->
  step JSON_parse (Fires 0)
    {| view := p; pending := [Timeout d]; issued := hist; subscribed := subs |} =
  fetching p (hist ++ [AwaitLog (recordId p) FromInitialFetch]) subs.
Proof.
  intros Htk Hrid.
  unfold step, fetching. simpl nth_error.
  unfold tryInitialFetch, fetchFullConversation. simpl view.
  rewrite Htk, Hrid. reflexivity.
Qed.

(** The last call: the counter has reached the maximum and nothing more is
    scheduled. *)
Lemma settle_last (n : nat) (p : panel) (hist : list task) (subs : list channel) :
  _fetchAttempts p = MAX_FETCH_ATTEMPTS ->
  step JSON_parse (Settles 0 (source n)) (fetching p hist subs) =
  {| view := p; pending := []; issued := hist; subscribed := subs |}.
Proof.
  intros Hmax.
  unfold step, fetching. simpl nth_error.
  unfold fetchFullConversation_resume. simpl view.
  rewrite (body_no_data _ _ (source_empty n)).
  unfold after_fetch, tryInitialFetch_then. rewrite Hmax, Nat.ltb_irrefl.
  unfold commit, take. simpl. now rewrite app_nil_r.
Qed.

(** One round of the machine. *)
Lemma drive_round (fuel n : nat) (p : panel) (hist : list task) (subs : list channel) :
  toolkit p = true -> truthy (recordId p) = true ->
  _fetchAttempts p < MAX_FETCH_ATTEMPTS ->
  drive JSON_parse (S (S fuel)) source n (fetching p hist subs) =
  drive JSON_parse fuel source (S n)
    (fetching (set__fetchAttempts (_fetchAttempts p + 1) p)
       (hist ++ [Timeout (300 * (_fetchAttempts p + 1));
                 AwaitLog (recordId p) FromInitialFetch])
       subs).
Proof.
  intros Htk Hrid Hlt.
  change (drive JSON_parse (S (S fuel)) source n (fetching p hist subs))
    with (drive JSON_parse (S fuel) source (S n)
            (step JSON_parse (Settles 0 (source n)) (fetching p hist subs))).
  rewrite (settle_no_data n p hist subs Hlt).
  match goal with |- drive _ (S fuel) _ _ ?s = _ =>
    change (drive JSON_parse (S fuel) source (S n) s)
      with (drive JSON_parse fuel source (S n) (step JSON_parse (Fires 0) s)) end.
  rewrite fire_timer by assumption.
  simpl recordId. now rewrite <- app_assoc.
Qed.

Lemma drive_last (fuel n : nat) (p : panel) (hist : list task) (subs : list channel) :
  _fetchAttempts p = MAX_FETCH_ATTEMPTS ->
  drive JSON_parse (S fuel) source n (fetching p hist subs) =
  {| view := p; pending := []; issued := hist; subscribed := subs |}.
Proof.
  intros Hmax.
  change (drive JSON_parse (S fuel) source n (fetching p hist subs))
    with (drive JSON_parse fuel source (S n)
            (step JSON_parse (Settles 0 (source n)) (fetching p hist subs))).
  rewrite (settle_last n p hist subs Hmax).
  destruct fuel; reflexivity.
Qed.

End Drive.

(** The counter is touched by the [then] callback only. *)
Lemma runAnalysis_attempts (o : options) (p : panel) :
  _fetchAttempts (fst (runAnalysis o p)) = _fetchAttempts p.
Proof.
  unfold runAnalysis. repeat break_match; reflexivity.
Qed.

Lemma spawned_attempts (o : options) (k : analysis_caller) (p : panel) :
  _fetchAttempts (fst (let '(p1, st) := runAnalysis o p in (p1, spawn st k))) = _fetchAttempts p.
Proof.
  pose proof (runAnalysis_attempts o p) as H.
  destruct (runAnalysis o p). exact H.
Qed.

Lemma after_fetch_attempts (k : fetch_caller) (got : completion bool) (p : panel) :
  _fetchAttempts p <= MAX_FETCH_ATTEMPTS ->
  _fetchAttempts (fst (after_fetch k got p)) <= MAX_FETCH_ATTEMPTS.
Proof.
  intros Hle. unfold after_fetch, tryInitialFetch_then, handleConversationEnded_rest.
  destruct got as [g|e]; [|exact Hle].
  destruct k.
  - destruct g; [exact Hle|].
    destruct (Nat.ltb_spec (_fetchAttempts p) MAX_FETCH_ATTEMPTS); [simpl; lia | exact Hle].
  - destruct (_ && _); [|exact Hle]. now rewrite spawned_attempts.
Qed.

Lemma fetchFullConversation_attempts (k : fetch_caller) (p : panel) :
  _fetchAttempts p <= MAX_FETCH_ATTEMPTS ->
  _fetchAttempts (fst (fetchFullConversation k p)) <= MAX_FETCH_ATTEMPTS.
Proof.
  intros Hle. unfold fetchFullConversation.
  destruct (_ || _); [now apply after_fetch_attempts | exact Hle].
Qed.

Lemma fetchFullConversation_resume_attempts (k : fetch_caller) (o : settled) (p : panel) :
  _fetchAttempts p <= MAX_FETCH_ATTEMPTS ->
  _fetchAttempts (fst (fetchFullConversation_resume k o p)) <= MAX_FETCH_ATTEMPTS.
Proof.
  intros Hle. unfold fetchFullConversation_resume, fetchFullConversation_body.
  destruct o as [log|e]; [|now apply after_fetch_attempts].
  destruct (negb _); [now apply after_fetch_attempts|].
  destruct (messageLog _) as [entries|e]; [|now apply after_fetch_attempts].
  set (p1 := set_messages _ p).
  pose proof (runAnalysis_attempts end_options p1) as H.
  destruct (runAnalysis end_options p1) as [p2 [|req]]; simpl in H.
  - apply after_fetch_attempts. now rewrite H.
  - simpl. now rewrite H.
Qed.

Section Bound.

Variable JSON_parse : string -> completion value.

Lemma runAnalysis_try_attempts (o : settled) (p : panel) :
  _fetchAttempts (fst (runAnalysis_try JSON_parse o p)) = _fetchAttempts p.
Proof.
  unfold runAnalysis_try.
  destruct o as [resp0|e]; [|reflexivity].
  destruct (match resp0 with VStr s => JSON_parse s | _ => Normal resp0 end) as [resp|e];
    [|reflexivity].
  destruct (lowered _); reflexivity.
Qed.

Lemma runAnalysis_resume_attempts (o : settled) (p : panel) :
  _fetchAttempts (fst (runAnalysis_resume JSON_parse o p)) = _fetchAttempts p.
Proof.
  unfold runAnalysis_resume.
  pose proof (runAnalysis_try_attempts o p) as H.
  destruct (runAnalysis_try JSON_parse o p) as [p1 [r|e]]; simpl in H.
  - exact H.
  - destruct (bind _ _); exact H.
Qed.

Lemma analysis_settled_attempts (k : analysis_caller) (o : settled) (p : panel) :
  _fetchAttempts p <= MAX_FETCH_ATTEMPTS ->
  _fetchAttempts (fst (analysis_settled JSON_parse k o p)) <= MAX_FETCH_ATTEMPTS.
Proof.
  intros Hle. unfold analysis_settled.
  pose proof (runAnalysis_resume_attempts o p) as H.
  destruct (runAnalysis_resume JSON_parse o p) as [p1 r]. simpl in H.
  destruct k as [|fk]; simpl; [now rewrite H|].
  apply after_fetch_attempts. now rewrite H.
Qed.

Lemma step_attempts (ev : event) (s : system) :
  _fetchAttempts (view s) <= MAX_FETCH_ATTEMPTS ->
  _fetchAttempts (view (step JSON_parse ev s)) <= MAX_FETCH_ATTEMPTS.
Proof.
  intros Hle.
  destruct ev as [v|there|subscribe| |data err|data err|message|payload| |i o|i]; simpl.
  - exact Hle.
  - exact Hle.
  - unfold connectedCallback, trySubscribe, trySubscribe_try.
    destruct (receivingSubscription (view s));
      [|destruct (subscribe ConversationEndUserChannel)]; simpl; try exact Hle;
      match goal with |- context [match ?x with Some _ => _ | None => _ end] =>
        destruct x; [|destruct (subscribe ConversationEndedChannel)] end; exact Hle.
  - unfold renderedCallback, tryInitialFetch.
    destruct (_ && _); [|exact Hle]. now apply fetchFullConversation_attempts.
  - unfold wiredConfig.
    destruct (truthy data); [|destruct (truthy err); exact Hle].
    destruct (_ && _); [|exact Hle]. now rewrite spawned_attempts.
  - unfold wiredSession. repeat break_match; exact Hle.
  - unfold handleMessageReceived.
    destruct (present _); [|exact Hle]. now rewrite spawned_attempts.
  - unfold handleConversationEnded. now apply fetchFullConversation_attempts.
  - unfold handleManualCalculate.
    destruct (negb _); [exact Hle|]. now rewrite spawned_attempts.
  - destruct (nth_error (pending s) i) as [[req k|session k|delay]|]; try exact Hle.
    + now apply analysis_settled_attempts.
    + now apply fetchFullConversation_resume_attempts.
  - destruct (nth_error (pending s) i) as [[req k|session k|delay]|]; try exact Hle.
    now apply fetchFullConversation_attempts.
Qed.

Lemma run_attempts (evs : list event) (s : system) :
  _fetchAttempts (view s) <= MAX_FETCH_ATTEMPTS ->
  _fetchAttempts (view (run JSON_parse evs s)) <= MAX_FETCH_ATTEMPTS.
Proof.
  revert s. induction evs as [|ev evs IH]; intros s Hle; simpl.
  - exact Hle.
  - apply IH, step_attempts, Hle.
Qed.

(** *** The calls of the initial-fetch machine in an arbitrary run *)

(** [q] agrees with [p] on the fields of the machine. *)
Definition frame (p q : panel) : Prop :=
  _fetchAttempts q = _fetchAttempts p /\
  _toolkitReady q = _toolkitReady p /\
  _initialConversationFetched q = _initialConversationFetched p.

Lemma frame_refl (p : panel) : frame p p.
Proof.
  repeat split.
Qed.

Lemma frame_trans (p q r : panel) : frame p q -> frame q r -> frame p r.
Proof.
  unfold frame. intros (-> & -> & ->) (-> & -> & ->). repeat split.
Qed.

Lemma runAnalysis_frame (o : options) (p : panel) : frame p (fst (runAnalysis o p)).
Proof.
  unfold runAnalysis. repeat break_match; repeat split.
Qed.

Lemma runAnalysis_resume_frame (o : settled) (p : panel) :
  frame p (fst (runAnalysis_resume JSON_parse o p)).
Proof.
  unfold runAnalysis_resume.
  assert (H : frame p (fst (runAnalysis_try JSON_parse o p))).
  { unfold runAnalysis_try.
    destruct o as [resp0|e]; [|apply frame_refl].
    destruct (match resp0 with VStr s => JSON_parse s | _ => Normal resp0 end) as [resp|e];
      [|apply frame_refl].
    destruct (lowered _); repeat split. }
  destruct (runAnalysis_try JSON_parse o p) as [p1 [r|e]]; simpl in H.
  - exact H.
  - destruct (bind _ _); exact H.
Qed.

Lemma wiredSession_frame (data : option session_record) (err : value) (p : panel) :
  frame p (wiredSession data err p).
Proof.
  unfold wiredSession. repeat break_match; repeat split.
Qed.

Lemma connectedCallback_frame (subscribe : channel -> completion handle) (p : panel) :
  frame p (fst (connectedCallback subscribe p)).
Proof.
  unfold connectedCallback, trySubscribe, trySubscribe_try.
  destruct (receivingSubscription p);
    [|destruct (subscribe ConversationEndUserChannel)]; simpl; try (repeat split; fail);
    match goal with |- context [match ?x with Some _ => _ | None => _ end] =>
      destruct x; [|destruct (subscribe ConversationEndedChannel)] end; repeat split.
Qed.

(** [cost] counts what the machine pays for: the log calls of the initial
    fetch and the timers.  Every handler but [renderedCallback] is thrifty:
    it leaves [_toolkitReady] alone and what it spends is covered by the
    advance of the counter.  Only [tryInitialFetch] may spend one more, and
    it runs when the machine starts or when a timer is used up. *)

Definition cost (ts : list task) : nat :=
  List.length (filter is_initial_log ts) + List.length (filter is_timeout ts).

Definition thrifty (p : panel) (r : panel * list task) : Prop :=
  cost (snd r) + _fetchAttempts p <= _fetchAttempts (fst r) /\
  _toolkitReady (fst r) = _toolkitReady p.

Lemma cost_app (l1 l2 : list task) : cost (l1 ++ l2) = cost l1 + cost l2.
Proof.
  unfold cost. rewrite !filter_app, !length_app. lia.
Qed.

Lemma thrifty_same (p q : panel) : frame p q -> thrifty p (q, []).
Proof.
  unfold thrifty, frame. simpl. intros (-> & -> & _). split; [lia | reflexivity].
Qed.

Lemma thrifty_step (p q : panel) (r : panel * list task) :
  frame p q -> thrifty q r -> thrifty p r.
Proof.
  unfold thrifty, frame. now intros (-> & -> & _).
Qed.

Lemma spawned_thrifty (o : options) (k : analysis_caller) (p : panel) :
  thrifty p (let '(p1, st) := runAnalysis o p in (p1, spawn st k)).
Proof.
  pose proof (runAnalysis_frame o p) as (Ha & Hr & _).
  unfold thrifty.
  destruct (runAnalysis o p) as [p1 [|req]]; simpl in *; unfold cost; simpl;
    split; (lia || assumption).
Qed.

Lemma after_fetch_thrifty (k : fetch_caller) (got : completion bool) (p : panel) :
  thrifty p (after_fetch k got p).
Proof.
  unfold after_fetch, tryInitialFetch_then, handleConversationEnded_rest.
  destruct got as [g|e]; [|apply thrifty_same, frame_refl].
  destruct k.
  - destruct g; [unfold thrifty, cost; simpl; split; [lia | reflexivity]|].
    destruct (_ <? _)%nat; [|apply thrifty_same, frame_refl].
    unfold thrifty, cost. simpl. split; [lia | reflexivity].
  - destruct (_ && _); [apply spawned_thrifty | apply thrifty_same, frame_refl].
Qed.

(** [fetchFullConversation] spends at most the one log call. *)
Lemma fetchFullConversation_spends (k : fetch_caller) (p : panel) :
  cost (snd (fetchFullConversation k p)) + _fetchAttempts p
  <= _fetchAttempts (fst (fetchFullConversation k p)) + 1 /\
  _toolkitReady (fst (fetchFullConversation k p)) = _toolkitReady p.
Proof.
  unfold fetchFullConversation.
  destruct (_ || _).
  - destruct (after_fetch_thrifty k (Normal false) p) as [H1 H2]. split; [lia | exact H2].
  - unfold cost. destruct k; simpl; split; (lia || reflexivity).
Qed.

Lemma handleConversationEnded_thrifty (payload : value) (p : panel) :
  thrifty p (handleConversationEnded payload p).
Proof.
  unfold handleConversationEnded, fetchFullConversation.
  destruct (_ || _).
  - apply thrifty_step with (q := set_conversationEnded true p);
      [repeat split | apply after_fetch_thrifty].
  - unfold thrifty, cost. simpl. split; [lia | reflexivity].
Qed.

Lemma fetchFullConversation_resume_thrifty (k : fetch_caller) (o : settled) (p : panel) :
  thrifty p (fetchFullConversation_resume k o p).
Proof.
  unfold fetchFullConversation_resume, fetchFullConversation_body.
  destruct o as [log|e]; [|apply after_fetch_thrifty].
  destruct (negb _); [apply after_fetch_thrifty|].
  destruct (messageLog _) as [entries|e]; [|apply after_fetch_thrifty].
  set (p1 := set_messages _ p).
  pose proof (runAnalysis_frame end_options p1) as H.
  destruct (runAnalysis end_options p1) as [p2 [|req]]; simpl in H.
  - apply thrifty_step with (q := p2); [exact H | apply after_fetch_thrifty].
  - destruct H as (Ha & Hr & _). unfold thrifty, cost. simpl.
    split; [simpl in Ha; lia | exact Hr].
Qed.

Lemma analysis_settled_thrifty (k : analysis_caller) (o : settled) (p : panel) :
  thrifty p (analysis_settled JSON_parse k o p).
Proof.
  unfold analysis_settled.
  pose proof (runAnalysis_resume_frame o p) as H.
  destruct (runAnalysis_resume JSON_parse o p) as [p1 r]. simpl in H.
  destruct k as [|fk]; [now apply thrifty_same|].
  apply thrifty_step with (q := p1); [exact H | apply after_fetch_thrifty].
Qed.

Lemma handleMessageReceived_thrifty (message : value) (p : panel) :
  thrifty p (handleMessageReceived message p).
Proof.
  unfold handleMessageReceived.
  set (p1 := set_messages _ p).
  destruct (present (messages p1)).
  - apply thrifty_step with (q := p1); [repeat split | apply spawned_thrifty].
  - apply thrifty_same. repeat split.
Qed.

Lemma handleManualCalculate_thrifty (p : panel) :
  thrifty p (handleManualCalculate p).
Proof.
  unfold handleManualCalculate.
  destruct (negb _); [apply thrifty_same; repeat split | apply spawned_thrifty].
Qed.

Lemma wiredConfig_thrifty (data err : value) (p : panel) :
  thrifty p (wiredConfig data err p).
Proof.
  unfold wiredConfig.
  destruct (truthy data).
  - set (p2 := set__configLoaded true _).
    destruct (_ && _).
    + apply thrifty_step with (q := p2); [repeat split | apply spawned_thrifty].
    + apply thrifty_same. repeat split.
  - destruct (truthy err); apply thrifty_same; repeat split.
Qed.

Lemma cost_remove (i : nat) (ts : list task) (t : task) :
  nth_error ts i = Some t ->
  cost (remove_nth i ts) + cost [t] = cost ts.
Proof.
  revert i. induction ts as [|x rest IH]; intros [|j] Hnth; simpl in *; try discriminate.
  - injection Hnth as Hx. subst x. change (t :: rest) with ([t] ++ rest)%list.
    rewrite cost_app. lia.
  - change (x :: remove_nth j rest) with ([x] ++ remove_nth j rest)%list.
    change (x :: rest) with ([x] ++ rest)%list.
    rewrite !cost_app. specialize (IH j Hnth). lia.
Qed.

Lemma timers_remove (i : nat) (ts : list task) (t : task) :
  nth_error ts i = Some t ->
  List.length (filter is_timeout (remove_nth i ts)) + (if is_timeout t then 1 else 0)
  = List.length (filter is_timeout ts).
Proof.
  revert i. induction ts as [|x rest IH]; intros [|j] Hnth; simpl in *; try discriminate.
  - injection Hnth as Hx. subst x. destruct (is_timeout t); simpl; lia.
  - specialize (IH j Hnth). destruct (is_timeout x); simpl; lia.
Qed.

(** The log calls of the initial fetch ever made, together with the timers
    still to fire, never exceed the counter by more than one, and by nothing
    before the machine has started. *)
Definition within_budget (s : system) : Prop :=
  List.length (filter is_initial_log (issued s))
  + List.length (filter is_timeout (pending s))
  <= _fetchAttempts (view s) + (if _toolkitReady (view s) then 1 else 0).

Lemma commit_thrifty (s : system) (r : panel * list task) :
  within_budget s -> thrifty (view s) r -> within_budget (commit s r).
Proof.
  unfold within_budget, thrifty, cost, commit. simpl. intros Hb [Ht ->].
  rewrite !filter_app, !length_app. lia.
Qed.

Lemma take_budget (i : nat) (s : system) (t : task) :
  nth_error (pending s) i = Some t -> is_timeout t = false ->
  within_budget s -> within_budget (take i s).
Proof.
  intros Hnth Hnt. unfold within_budget, take. simpl.
  pose proof (timers_remove i _ _ Hnth) as H. rewrite Hnt in H. lia.
Qed.

Lemma step_budget (ev : event) (s : system) :
  within_budget s -> within_budget (step JSON_parse ev s).
Proof.
  intros Hb.
  destruct ev as [v|there|subscribe| |data err|data err|message|payload| |i o|i]; simpl.
  - apply commit_thrifty; [exact Hb | apply thrifty_same; repeat split].
  - apply commit_thrifty; [exact Hb | apply thrifty_same; repeat split].
  - pose proof (connectedCallback_frame subscribe (view s)) as (Ha & Hr & _).
    destruct (connectedCallback subscribe (view s)) as [p1 calls]. simpl in *.
    unfold within_budget in *. simpl. rewrite Ha, Hr. exact Hb.
  - unfold renderedCallback, tryInitialFetch.
    destruct (_toolkitReady (view s)) eqn:Hready; simpl;
      [apply commit_thrifty; [exact Hb | apply thrifty_same, frame_refl]|].
    destruct (_ && _); [|apply commit_thrifty; [exact Hb | apply thrifty_same, frame_refl]].
    destruct (fetchFullConversation_spends FromInitialFetch
                (set__toolkitReady true (view s))) as [Hs Hr].
    unfold within_budget, cost, commit in *. simpl in *.
    rewrite Hready in Hb. rewrite Hr. rewrite !filter_app, !length_app. lia.
  - apply commit_thrifty; [exact Hb | apply wiredConfig_thrifty].
  - apply commit_thrifty; [exact Hb | apply thrifty_same, wiredSession_frame].
  - apply commit_thrifty; [exact Hb | apply handleMessageReceived_thrifty].
  - apply commit_thrifty; [exact Hb | apply handleConversationEnded_thrifty].
  - apply commit_thrifty; [exact Hb | apply handleManualCalculate_thrifty].
  - destruct (nth_error (pending s) i) as [[req k|session k|delay]|] eqn:Hnth; try exact Hb.
    + apply commit_thrifty;
        [apply (take_budget i s _ Hnth eq_refl Hb) | apply analysis_settled_thrifty].
    + apply commit_thrifty;
        [apply (take_budget i s _ Hnth eq_refl Hb) | apply fetchFullConversation_resume_thrifty].
  - destruct (nth_error (pending s) i) as [[req k|session k|delay]|] eqn:Hnth; try exact Hb.
    destruct (fetchFullConversation_spends FromInitialFetch (view s)) as [Hs Hr].
    pose proof (timers_remove i _ _ Hnth) as Hrm. simpl in Hrm.
    unfold tryInitialFetch, within_budget, cost, commit, take in *. simpl in *.
    rewrite Hr. rewrite !filter_app, !length_app. lia.
Qed.

Lemma run_budget (evs : list event) (s : system) :
  within_budget s -> within_budget (run JSON_parse evs s).
Proof.
  revert s. induction evs as [|ev evs IH]; intros s Hb; simpl.
  - exact Hb.
  - apply IH, step_budget, Hb.
Qed.

(** *** After the initial fetch has succeeded

    The tasks of the initial-fetch machine: its log call, the analysis its
    fetch awaits, and its timer.  At most one of them is pending, and none
    before the machine has started or after it has succeeded. *)

Definition is_chain (t : task) : bool :=
  match t with
  | Timeout _ => true
  | AwaitLog _ FromInitialFetch => true
  | AwaitAnalysis _ (FromFetch FromInitialFetch) => true
  | _ => false
  end.

Definition chain (ts : list task) : nat := List.length (filter is_chain ts).

(** A handler outside the machine, and a move of the machine. *)
Definition quiet (p : panel) (r : panel * list task) : Prop :=
  frame p (fst r) /\ chain (snd r) = 0.

Definition advance (p : panel) (r : panel * list task) : Prop :=
  _toolkitReady (fst r) = _toolkitReady p /\
  chain (snd r) <= 1 /\
  (_initialConversationFetched (fst r) = _initialConversationFetched p \/
   (_initialConversationFetched (fst r) = true /\ chain (snd r) = 0)).

Definition outside (k : analysis_caller) : bool :=
  match k with
  | FromFetch FromInitialFetch => false
  | _ => true
  end.

Lemma chain_app (l1 l2 : list task) : chain (l1 ++ l2) = chain l1 + chain l2.
Proof.
  unfold chain. now rewrite filter_app, length_app.
Qed.

Lemma chain_remove (i : nat) (ts : list task) (t : task) :
  nth_error ts i = Some t ->
  chain (remove_nth i ts) + (if is_chain t then 1 else 0) = chain ts.
Proof.
  unfold chain.
  revert i. induction ts as [|x rest IH]; intros [|j] Hnth; simpl in *; try discriminate.
  - injection Hnth as Hx. subst x. destruct (is_chain t); simpl; lia.
  - specialize (IH j Hnth). destruct (is_chain x); simpl; lia.
Qed.

Lemma quiet_same (p q : panel) : frame p q -> quiet p (q, []).
Proof.
  intros H. split; [exact H | reflexivity].
Qed.

Lemma quiet_step (p q : panel) (r : panel * list task) :
  frame p q -> quiet q r -> quiet p r.
Proof.
  intros Hpq [Hqr Hc]. split; [exact (frame_trans _ _ _ Hpq Hqr) | exact Hc].
Qed.

Lemma quiet_advance (p : panel) (r : panel * list task) : quiet p r -> advance p r.
Proof.
  intros [(_ & Hr & Hf) Hc]. unfold advance. rewrite Hc. repeat split; [exact Hr | lia | now left].
Qed.

Lemma advance_step (p q : panel) (r : panel * list task) :
  frame p q -> advance q r -> advance p r.
Proof.
  unfold advance, frame. now intros (_ & -> & ->).
Qed.

Lemma spawned_quiet (o : options) (k : analysis_caller) (p : panel) :
  outside k = true ->
  quiet p (let '(p1, st) := runAnalysis o p in (p1, spawn st k)).
Proof.
  intros Hk. pose proof (runAnalysis_frame o p) as H.
  destruct (runAnalysis o p) as [p1 [|req]]; split; try exact H; try reflexivity.
  unfold chain. simpl. destruct k as [|[]]; try discriminate; reflexivity.
Qed.

Lemma handleConversationEnded_rest_quiet (p : panel) :
  quiet p (handleConversationEnded_rest p).
Proof.
  unfold handleConversationEnded_rest.
  destruct (_ && _); [now apply spawned_quiet | apply quiet_same, frame_refl].
Qed.

Lemma after_fetch_ended_quiet (got : completion bool) (p : panel) :
  quiet p (after_fetch FromConversationEnded got p).
Proof.
  unfold after_fetch.
  destruct got; [apply handleConversationEnded_rest_quiet | apply quiet_same, frame_refl].
Qed.

Lemma after_fetch_advance (k : fetch_caller) (got : completion bool) (p : panel) :
  advance p (after_fetch k got p).
Proof.
  destruct k; [|apply quiet_advance, after_fetch_ended_quiet].
  unfold after_fetch, tryInitialFetch_then.
  destruct got as [g|e]; [|apply quiet_advance, quiet_same, frame_refl].
  destruct g.
  - unfold advance, chain. simpl. repeat split; [lia | now right].
  - destruct (_ <? _)%nat; [|apply quiet_advance, quiet_same, frame_refl].
    unfold advance, chain. simpl. repeat split; [lia | now left].
Qed.

Lemma fetchFullConversation_ended_quiet (p : panel) :
  quiet p (fetchFullConversation FromConversationEnded p).
Proof.
  unfold fetchFullConversation.
  destruct (_ || _); [apply after_fetch_ended_quiet | apply quiet_same, frame_refl].
Qed.

Lemma fetchFullConversation_advance (k : fetch_caller) (p : panel) :
  advance p (fetchFullConversation k p).
Proof.
  unfold fetchFullConversation.
  destruct (_ || _); [apply after_fetch_advance|].
  unfold advance, chain. destruct k; simpl; repeat split; (lia || now left).
Qed.

Lemma fetchFullConversation_resume_advance (k : fetch_caller) (o : settled) (p : panel) :
  advance p (fetchFullConversation_resume k o p) /\
  (k = FromConversationEnded -> quiet p (fetchFullConversation_resume k o p)).
Proof.
  unfold fetchFullConversation_resume, fetchFullConversation_body.
  assert (Hdone : forall got,
             advance p (after_fetch k got p) /\
             (k = FromConversationEnded -> quiet p (after_fetch k got p))).
  { intros got. split; [apply after_fetch_advance|].
    intros ->. apply after_fetch_ended_quiet. }
  destruct o as [log|e]; [|apply Hdone].
  destruct (negb _); [apply Hdone|].
  destruct (messageLog _) as [entries|e]; [|apply Hdone].
  set (p1 := set_messages _ p).
  assert (Hp1 : frame p p1) by repeat split.
  pose proof (runAnalysis_frame end_options p1) as H.
  destruct (runAnalysis end_options p1) as [p2 [|req]]; simpl in H.
  - pose proof (frame_trans _ _ _ Hp1 H) as Hp2. split.
    + apply advance_step with (q := p2); [exact Hp2 | apply after_fetch_advance].
    + intros ->. apply quiet_step with (q := p2); [exact Hp2 | apply after_fetch_ended_quiet].
  - pose proof (frame_trans _ _ _ Hp1 H) as (Ha & Hr & Hf). split.
    + unfold advance, chain. simpl. repeat split; [exact Hr | destruct k; simpl; lia | now left].
    + intros ->. split; [repeat split; assumption | reflexivity].
Qed.

Lemma analysis_settled_advance (k : analysis_caller) (o : settled) (p : panel) :
  advance p (analysis_settled JSON_parse k o p) /\
  (outside k = true -> quiet p (analysis_settled JSON_parse k o p)).
Proof.
  unfold analysis_settled.
  pose proof (runAnalysis_resume_frame o p) as H.
  destruct (runAnalysis_resume JSON_parse o p) as [p1 r]. simpl in H.
  destruct k as [|fk].
  - split; [apply quiet_advance|intros _]; now apply quiet_same.
  - split.
    + apply advance_step with (q := p1); [exact H | apply after_fetch_advance].
    + destruct fk; [discriminate|]. intros _.
      apply quiet_step with (q := p1); [exact H | apply after_fetch_ended_quiet].
Qed.

Lemma handleMessageReceived_quiet (message : value) (p : panel) :
  quiet p (handleMessageReceived message p).
Proof.
  unfold handleMessageReceived.
  set (p1 := set_messages _ p).
  destruct (present (messages p1)).
  - apply quiet_step with (q := p1); [repeat split | now apply spawned_quiet].
  - apply quiet_same. repeat split.
Qed.

Lemma handleManualCalculate_quiet (p : panel) :
  quiet p (handleManualCalculate p).
Proof.
  unfold handleManualCalculate.
  destruct (negb _); [apply quiet_same; repeat split | now apply spawned_quiet].
Qed.

Lemma wiredConfig_quiet (data err : value) (p : panel) :
  quiet p (wiredConfig data err p).
Proof.
  unfold wiredConfig.
  destruct (truthy data).
  - set (p2 := set__configLoaded true _).
    destruct (_ && _).
    + apply quiet_step with (q := p2); [repeat split | now apply spawned_quiet].
    + apply quiet_same. repeat split.
  - destruct (truthy err); apply quiet_same; repeat split.
Qed.

Lemma handleConversationEnded_quiet (payload : value) (p : panel) :
  quiet p (handleConversationEnded payload p).
Proof.
  unfold handleConversationEnded.
  apply quiet_step with (q := set_conversationEnded true p);
    [repeat split | apply fetchFullConversation_ended_quiet].
Qed.

Definition machine_ok (s : system) : Prop :=
  chain (pending s) <= 1 /\
  (_toolkitReady (view s) = false ->
   chain (pending s) = 0 /\ _initialConversationFetched (view s) = false) /\
  (_initialConversationFetched (view s) = true -> chain (pending s) = 0).

Lemma commit_quiet (s : system) (r : panel * list task) :
  machine_ok s -> quiet (view s) r -> machine_ok (commit s r).
Proof.
  unfold machine_ok, quiet, frame, commit. simpl.
  intros (H1 & H2 & H3) ((_ & -> & ->) & Hc). rewrite chain_app, Hc, Nat.add_0_r.
  repeat split; tauto.
Qed.

Lemma take_advance (i : nat) (s : system) (t : task) (r : panel * list task) :
  nth_error (pending s) i = Some t -> is_chain t = true ->
  machine_ok s -> advance (view s) r -> machine_ok (commit (take i s) r).
Proof.
  intros Hnth Ht (H1 & H2 & H3) (Hr & Hc & Hf).
  pose proof (chain_remove i _ _ Hnth) as Hrm. rewrite Ht in Hrm.
  assert (Hzero : chain (remove_nth i (pending s)) = 0) by lia.
  assert (Hready : _toolkitReady (view s) = true).
  { destruct (_toolkitReady (view s)); [reflexivity|]. destruct (H2 eq_refl). lia. }
  assert (Hnot : _initialConversationFetched (view s) = false).
  { destruct (_initialConversationFetched (view s)); [|reflexivity]. specialize (H3 eq_refl). lia. }
  unfold machine_ok, commit, take. simpl. rewrite chain_app, Hzero, Hr, Hready. simpl.
  repeat split; try discriminate; [exact Hc|].
  intros Hnow. destruct Hf as [Hf|[_ Hf]]; [congruence | exact Hf].
Qed.

Lemma take_quiet (i : nat) (s : system) (t : task) (r : panel * list task) :
  nth_error (pending s) i = Some t -> is_chain t = false ->
  machine_ok s -> quiet (view s) r -> machine_ok (commit (take i s) r).
Proof.
  intros Hnth Ht Hok Hq. apply commit_quiet; [|exact Hq].
  pose proof (chain_remove i _ _ Hnth) as Hrm. rewrite Ht in Hrm.
  unfold machine_ok, take in *. simpl. now rewrite Nat.add_0_r in Hrm; rewrite Hrm.
Qed.

Lemma step_machine_ok (ev : event) (s : system) :
  machine_ok s -> machine_ok (step JSON_parse ev s).
Proof.
  intros Hok.
  destruct ev as [v|there|subscribe| |data err|data err|message|payload| |i o|i]; simpl.
  - apply commit_quiet; [exact Hok | apply quiet_same; repeat split].
  - apply commit_quiet; [exact Hok | apply quiet_same; repeat split].
  - pose proof (connectedCallback_frame subscribe (view s)) as (_ & Hr & Hf).
    destruct (connectedCallback subscribe (view s)) as [p1 calls]. simpl in *.
    unfold machine_ok in *. simpl. now rewrite Hr, Hf.
  - unfold renderedCallback, tryInitialFetch.
    destruct (_toolkitReady (view s)) eqn:Hready; simpl;
      [apply commit_quiet; [exact Hok | apply quiet_same, frame_refl]|].
    destruct (_ && _); [|apply commit_quiet; [exact Hok | apply quiet_same, frame_refl]].
    destruct Hok as (H1 & H2 & H3). destruct (H2 Hready) as [Hzero Hnot].
    destruct (fetchFullConversation_advance FromInitialFetch
                (set__toolkitReady true (view s))) as (Hr & Hc & Hf).
    unfold machine_ok, commit. simpl in *. rewrite chain_app, Hzero, Hr. simpl.
    repeat split; try discriminate; [exact Hc|].
    intros Hnow. destruct Hf as [Hf|[_ Hf]]; [congruence | exact Hf].
  - apply commit_quiet; [exact Hok | apply wiredConfig_quiet].
  - apply commit_quiet; [exact Hok | apply quiet_same, wiredSession_frame].
  - apply commit_quiet; [exact Hok | apply handleMessageReceived_quiet].
  - apply commit_quiet; [exact Hok | apply handleConversationEnded_quiet].
  - apply commit_quiet; [exact Hok | apply handleManualCalculate_quiet].
  - destruct (nth_error (pending s) i) as [[req k|session k|delay]|] eqn:Hnth; try exact Hok.
    + destruct (analysis_settled_advance k o (view s)) as [Hadv Hq].
      destruct (is_chain (AwaitAnalysis req k)) eqn:Hc.
      * apply (take_advance i s _ _ Hnth Hc Hok Hadv).
      * apply (take_quiet i s _ _ Hnth Hc Hok). apply Hq.
        destruct k as [|[]]; (reflexivity || discriminate).
    + destruct (fetchFullConversation_resume_advance k o (view s)) as [Hadv Hq].
      destruct k.
      * apply (take_advance i s _ _ Hnth eq_refl Hok Hadv).
      * apply (take_quiet i s _ _ Hnth eq_refl Hok). now apply Hq.
  - destruct (nth_error (pending s) i) as [[req k|session k|delay]|] eqn:Hnth; try exact Hok.
    apply (take_advance i s _ _ Hnth eq_refl Hok).
    apply fetchFullConversation_advance.
Qed.

Lemma run_machine_ok (evs : list event) (s : system) :
  machine_ok s -> machine_ok (run JSON_parse evs s).
Proof.
  revert s. induction evs as [|ev evs IH]; intros s Hok; simpl.
  - exact Hok.
  - apply IH, step_machine_ok, Hok.
Qed.

Lemma no_chain_no_log (ts : list task) :
  chain ts = 0 -> filter is_initial_log ts = [].
Proof.
  unfold chain. induction ts as [|t rest IH]; simpl; [reflexivity|].
  destruct t as [req [|[]]|session []|delay]; simpl; try discriminate; exact IH.
Qed.

Lemma commit_after_success (s : system) (r : panel * list task) :
  _initialConversationFetched (view s) = true -> quiet (view s) r ->
  filter is_initial_log (issued (commit s r)) = filter is_initial_log (issued s) /\
  _initialConversationFetched (view (commit s r)) = true.
Proof.
  intros Hf [(_ & _ & Hsame) Hc]. unfold commit. simpl.
  rewrite filter_app, (no_chain_no_log _ Hc), app_nil_r, Hsame. now split.
Qed.

(** Once the flag is set the machine makes no log call any more. *)
Lemma step_after_success (ev : event) (s : system) :
  machine_ok s -> _initialConversationFetched (view s) = true ->
  filter is_initial_log (issued (step JSON_parse ev s)) = filter is_initial_log (issued s) /\
  _initialConversationFetched (view (step JSON_parse ev s)) = true.
Proof.
  intros (H1 & H2 & H3) Hf. specialize (H3 Hf).
  assert (Hready : _toolkitReady (view s) = true).
  { destruct (_toolkitReady (view s)); [reflexivity|]. destruct (H2 eq_refl). congruence. }
  assert (Hnone : forall i t, nth_error (pending s) i = Some t -> is_chain t = false).
  { intros i t Hnth. pose proof (chain_remove i _ _ Hnth) as Hrm.
    destruct (is_chain t); [lia | reflexivity]. }
  destruct ev as [v|there|subscribe| |data err|data err|message|payload| |i o|i]; unfold step.
  - apply commit_after_success; [exact Hf | apply quiet_same; repeat split].
  - apply commit_after_success; [exact Hf | apply quiet_same; repeat split].
  - pose proof (connectedCallback_frame subscribe (view s)) as (_ & _ & Hsame).
    destruct (connectedCallback subscribe (view s)) as [p1 calls]. simpl in *.
    now rewrite Hsame.
  - unfold renderedCallback. rewrite Hready. cbn [negb andb].
    apply commit_after_success; [exact Hf | apply quiet_same, frame_refl].
  - apply commit_after_success; [exact Hf | apply wiredConfig_quiet].
  - apply commit_after_success; [exact Hf | apply quiet_same, wiredSession_frame].
  - apply commit_after_success; [exact Hf | apply handleMessageReceived_quiet].
  - apply commit_after_success; [exact Hf | apply handleConversationEnded_quiet].
  - apply commit_after_success; [exact Hf | apply handleManualCalculate_quiet].
  - destruct (nth_error (pending s) i) as [[req k|session k|delay]|] eqn:Hnth;
      try (now split).
    + pose proof (Hnone _ _ Hnth) as Hk.
      apply (commit_after_success (take i s)); [exact Hf|].
      apply analysis_settled_advance. destruct k as [|[]]; (reflexivity || discriminate).
    + pose proof (Hnone _ _ Hnth) as Hk.
      apply (commit_after_success (take i s)); [exact Hf|].
      apply fetchFullConversation_resume_advance. destruct k; [discriminate | reflexivity].
  - destruct (nth_error (pending s) i) as [[req k|session k|delay]|] eqn:Hnth;
      try (now split).
    pose proof (Hnone _ _ Hnth). discriminate.
Qed.

Lemma run_after_success (evs : list event) (s : system) :
  machine_ok s -> _initialConversationFetched (view s) = true ->
  filter is_initial_log (issued (run JSON_parse evs s)) = filter is_initial_log (issued s).
Proof.
  revert s. induction evs as [|ev evs IH]; intros s Hok Hf; simpl.
  - reflexivity.
  - destruct (step_after_success ev s Hok Hf) as [Hlogs Hf'].
    rewrite IH; [exact Hlogs | apply step_machine_ok, Hok | exact Hf'].
Qed.

End Bound.

Lemma boot_machine_ok : machine_ok boot.
Proof.
  unfold machine_ok, chain. simpl. repeat split; (lia || discriminate).
Qed.

Lemma boot_within_budget : within_budget boot.
Proof.
  unfold within_budget. simpl. lia.
Qed.

End FetchFacts.

(** C4: what the code does against a log source that never has data.  The
    machine started by the first render with toolkit and record id makes six
    [getConversationLog] calls, one more than [MAX_FETCH_ATTEMPTS]: the
    first one and a re-attempt after each of the delays 300, 600, 900, 1200
    and 1500 (300 times the counter); then nothing is pending, and a later
    render starts nothing.  In every run the counter stays at or below
    [MAX_FETCH_ATTEMPTS] and the initial fetch makes at most
    [MAX_FETCH_ATTEMPTS + 1] log calls. *)
Theorem C4_six_fetches_on_empty_source :
  (forall JSON_parse source rid extra,
      truthy rid = true ->
      (forall n, FetchFacts.no_data (source n) = true) ->
      let start := PersistPanel.run JSON_parse
                     [PersistPanel.HostSetsRecordId rid; PersistPanel.ToolkitRef true;
                      PersistPanel.Rendered] PersistPanel.boot in
      let s := PersistPanel.drive JSON_parse (11 + extra) source 0 start in
      filter PersistPanel.is_log (PersistPanel.issued s)
        = repeat (PersistPanel.AwaitLog rid PersistPanel.FromInitialFetch) 6 /\
      PersistPanel.delays (PersistPanel.issued s) = [300; 600; 900; 1200; 1500] /\
      PersistPanel.pending s = [] /\
      PersistPanel._fetchAttempts (PersistPanel.view s) = 5 /\
      PersistPanel.renderedCallback (PersistPanel.view s) = (PersistPanel.view s, [])) /\
  (forall JSON_parse evs,
      let s := PersistPanel.run JSON_parse evs PersistPanel.boot in
      PersistPanel._fetchAttempts (PersistPanel.view s) <= PersistPanel.MAX_FETCH_ATTEMPTS /\
      List.length (filter PersistPanel.is_initial_log (PersistPanel.issued s))
        <= PersistPanel.MAX_FETCH_ATTEMPTS + 1).
Proof.
  split.
  - intros JSON_parse source rid extra Hrid Hempty start s.
    assert (Hstart : start =
              FetchFacts.fetching
                (PersistPanel.set__toolkitReady true
                   (PersistPanel.set_toolkit true
                      (PersistPanel.set_recordId rid PersistPanel.initial)))
                [PersistPanel.AwaitLog rid PersistPanel.FromInitialFetch] []).
    { subst start. unfold PersistPanel.run, fold_left.
      unfold PersistPanel.step, PersistPanel.renderedCallback,
        PersistPanel.tryInitialFetch, PersistPanel.fetchFullConversation.
      cbn. rewrite Hrid. cbn. rewrite ?Hrid. reflexivity. }
    subst s. rewrite Hstart. clear Hstart start.
    change (11 + extra) with (S (S (S (S (S (S (S (S (S (S (S extra))))))))))).
    do 5 (rewrite (FetchFacts.drive_round JSON_parse source Hempty);
          [|reflexivity | exact Hrid | simpl; unfold PersistPanel.MAX_FETCH_ATTEMPTS; lia]).
    rewrite (FetchFacts.drive_last JSON_parse source Hempty); [|reflexivity].
    simpl. unfold PersistPanel.renderedCallback. simpl.
    repeat split; reflexivity.
  - intros JSON_parse evs s.
    assert (Hle : PersistPanel._fetchAttempts (PersistPanel.view s)
                  <= PersistPanel.MAX_FETCH_ATTEMPTS).
    { apply FetchFacts.run_attempts. unfold PersistPanel.MAX_FETCH_ATTEMPTS. simpl. lia. }
    split; [exact Hle|].
    pose proof (FetchFacts.run_budget JSON_parse evs PersistPanel.boot
                  FetchFacts.boot_within_budget) as Hb.
    unfold FetchFacts.within_budget in Hb. fold s in Hb.
    destruct (PersistPanel._toolkitReady (PersistPanel.view s)); lia.
Qed.

(** C4 at a source whose log has no messages, for the record "0Mw". *)
Lemma C4_six_fetches_witness :
  let source := fun _ : nat => Fulfilled (VObj [("messages", VArr [])]) in
  let start := PersistPanel.run Scenario.no_JSON
                 [PersistPanel.HostSetsRecordId (VStr "0Mw"); PersistPanel.ToolkitRef true;
                  PersistPanel.Rendered] PersistPanel.boot in
  List.length (filter PersistPanel.is_log
                 (PersistPanel.issued (PersistPanel.drive Scenario.no_JSON 11 source 0 start)))
    = 6.
Proof.
  intros source start.
  pose proof (proj1 C4_six_fetches_on_empty_source Scenario.no_JSON source (VStr "0Mw") 0
                eq_refl (fun _ => eq_refl)) as H.
  cbv zeta in H. destruct H as [H _].
  change (11 + 0) with 11 in H. subst start. rewrite H. reflexivity.
Defined.

(** ** No cache for the full-history fetch *)

Module EndedScenario.
Import PersistPanel.

(** A log of two entries for the record "0Mw". *)
Definition log : settled :=
  Fulfilled (VObj [("messages",
                    VArr [VObj [("content", VStr "hello"); ("name", VStr "Ann")];
                          VObj [("content", VStr "bye")]])]).

(** The initial fetch has succeeded. *)
Definition fetched : system :=
  run Scenario.no_JSON
    [HostSetsRecordId (VStr "0Mw"); ToolkitRef true; Rendered; Settles 0 log] boot.

End EndedScenario.

(** C5, as stated, fails: after the initial fetch has succeeded, the
    conversation-ended event makes a second [getConversationLog] call. *)
Lemma C5_ended_path_fetches_again :
  let s1 := EndedScenario.fetched in
  let s2 := PersistPanel.step Scenario.no_JSON (PersistPanel.ConversationEnded VUndefined) s1 in
  PersistPanel._initialConversationFetched (PersistPanel.view s1) = true /\
  filter PersistPanel.is_log (PersistPanel.issued s1)
    = [PersistPanel.AwaitLog (VStr "0Mw") PersistPanel.FromInitialFetch] /\
  filter PersistPanel.is_log (PersistPanel.issued s2)
    = [PersistPanel.AwaitLog (VStr "0Mw") PersistPanel.FromInitialFetch;
       PersistPanel.AwaitLog (VStr "0Mw") PersistPanel.FromConversationEnded] /\
  PersistPanel.pending s2
    = [PersistPanel.AwaitLog (VStr "0Mw") PersistPanel.FromConversationEnded].
Proof.
  repeat split; reflexivity.
Qed.

(** C5 (amended): a successful initial fetch sets
    [_initialConversationFetched] and schedules no re-attempt, and once the
    machine has been started a render does not start it again; in every run,
    from the moment that flag is set, the initial-fetch machine makes no
    further [getConversationLog] call.  But [fetchFullConversation] keeps no
    cache and never reads the flag: whenever the toolkit and the record id
    are present, every call of it, and so every conversation-ended event,
    makes a new [getConversationLog] call. *)
Theorem C5_fetch_not_cached :
  (forall p,
      PersistPanel.tryInitialFetch_then true p
        = (PersistPanel.set__initialConversationFetched true p, [])) /\
  (forall p,
      PersistPanel._toolkitReady p = true ->
      PersistPanel.renderedCallback p = (p, [])) /\
  (forall k p,
      PersistPanel.toolkit p = true -> truthy (PersistPanel.recordId p) = true ->
      PersistPanel.fetchFullConversation k p
        = (p, [PersistPanel.AwaitLog (PersistPanel.recordId p) k])) /\
  (forall payload p,
      PersistPanel.toolkit p = true -> truthy (PersistPanel.recordId p) = true ->
      PersistPanel.handleConversationEnded payload p
        = (PersistPanel.set_conversationEnded true p,
           [PersistPanel.AwaitLog (PersistPanel.recordId p)
              PersistPanel.FromConversationEnded])) /\
  (forall JSON_parse before after,
      let s := PersistPanel.run JSON_parse before PersistPanel.boot in
      PersistPanel._initialConversationFetched (PersistPanel.view s) = true ->
      filter PersistPanel.is_initial_log
        (PersistPanel.issued (PersistPanel.run JSON_parse after s))
        = filter PersistPanel.is_initial_log (PersistPanel.issued s)).
Proof.
  split; [|split; [|split; [|split]]].
  - reflexivity.
  - intros p Hready. unfold PersistPanel.renderedCallback. now rewrite Hready.
  - intros k p Htk Hrid. unfold PersistPanel.fetchFullConversation. now rewrite Htk, Hrid.
  - intros payload p Htk Hrid.
    unfold PersistPanel.handleConversationEnded, PersistPanel.fetchFullConversation.
    simpl PersistPanel.toolkit. simpl PersistPanel.recordId. now rewrite Htk, Hrid.
  - intros JSON_parse before after s Hf.
    apply FetchFacts.run_after_success; [|exact Hf].
    apply FetchFacts.run_machine_ok, FetchFacts.boot_machine_ok.
Qed.

(** C5 at the panel whose initial fetch has succeeded: the conversation-ended
    handler asks for the log of "0Mw" again. *)
Lemma C5_fetch_not_cached_witness :
  let p := PersistPanel.view EndedScenario.fetched in
  PersistPanel._initialConversationFetched p = true /\
  snd (PersistPanel.handleConversationEnded VUndefined p)
    = [PersistPanel.AwaitLog (VStr "0Mw") PersistPanel.FromConversationEnded].
Proof.
  split; [reflexivity|].
  rewrite (proj1 (proj2 (proj2 (proj2 C5_fetch_not_cached))) VUndefined
             (PersistPanel.view EndedScenario.fetched) eq_refl eq_refl).
  reflexivity.
Defined.

(** ** Seeding from the persisted record and the emotion written *)



(** C7, as stated, fails: the analysis response with emotion 'Angry' leaves
    the panel with emotion 'angry', which is none of the four values. *)
Lemma C7_unrecognized_emotion_kept :
  let resp := Fulfilled (VObj [("emotion", VStr "Angry"); ("reason", VStr "shouting")]) in
  let e := PersistPanel.emotion
             (fst (PersistPanel.runAnalysis_resume Scenario.no_JSON resp Scenario.persist_busy)) in
  e = Some "angry" /\
  e <> Some "positive" /\ e <> Some "negative" /\ e <> Some "neutral" /\ e <> Some "unknown".
Proof.
  repeat split; discriminate.
Qed.

Lemma lowered_fixed (x : value) (t : string) :
  lowered x = Normal t -> toLowerCase t = t.
Proof.
  unfold lowered. destruct (or_else x (VStr "")); try discriminate.
  intros [= <-]. apply StringFacts.toLowerCase_fixed.
Qed.

Lemma persist_resume_emotion JSON_parse (o : settled) (p : PersistPanel.panel) :
  let p' := fst (PersistPanel.runAnalysis_resume JSON_parse o p) in
  PersistPanel.emotion p' = PersistPanel.emotion p \/
  exists t, PersistPanel.emotion p' = Some t /\ toLowerCase t = t.
Proof.
  unfold PersistPanel.runAnalysis_resume, PersistPanel.runAnalysis_try.
  destruct o as [resp0|e].
  - destruct (match resp0 with VStr s => JSON_parse s | _ => Normal resp0 end) as [resp|e].
    + destruct (lowered (opt_get resp "emotion")) as [em|e] eqn:El.
      * right. exists em. split; [reflexivity | exact (lowered_fixed _ _ El)].
      * left. destruct (bind _ _); reflexivity.
    + left. destruct (bind _ _); reflexivity.
  - left. destruct (bind _ _); reflexivity.
Qed.

Lemma plain_resume_emotion JSON_parse (o : settled) (p : PlainPanel.panel) :
  let p' := fst (PlainPanel.runAnalysis_resume JSON_parse o p) in
  PlainPanel.emotion p' = PlainPanel.emotion p \/
  exists t, PlainPanel.emotion p' = Some t /\ toLowerCase t = t.
Proof.
  unfold PlainPanel.runAnalysis_resume, PlainPanel.runAnalysis_try.
  destruct o as [resp0|e].
  - match goal with |- context [lowered ?x] => destruct (lowered x) as [em|e] eqn:El end.
    + right. exists em. split; [reflexivity | exact (lowered_fixed _ _ El)].
    + left. destruct (bind _ _); reflexivity.
  - left. destruct (bind _ _); reflexivity.
Qed.

(** *** The emotion held in an arbitrary run *)

Module EmotionFacts.

(** No emotion yet, or a string that [toLowerCase] leaves as it is. *)
Definition lower_cased (e : option string) : Prop :=
  match e with
  | None => True
  | Some t => toLowerCase t = t
  end.

Lemma lower_cased_kept (e e' : option string) :
  e' = e \/ (exists t, e' = Some t /\ toLowerCase t = t) ->
  lower_cased e -> lower_cased e'.
Proof.
  intros [->|(t & -> & Ht)] H; [exact H | exact Ht].
Qed.

Section Persist.
Import PersistPanel.

Variable JSON_parse : string -> completion value.

Lemma runAnalysis_emotion (o : options) (p : panel) :
  emotion (fst (runAnalysis o p)) = emotion p.
Proof.
  unfold runAnalysis. repeat FetchFacts.break_match; reflexivity.
Qed.

Lemma spawned_emotion (o : options) (k : analysis_caller) (p : panel) :
  emotion (fst (let '(p1, st) := runAnalysis o p in (p1, spawn st k))) = emotion p.
Proof.
  pose proof (runAnalysis_emotion o p) as H.
  destruct (runAnalysis o p). exact H.
Qed.

Lemma after_fetch_emotion (k : fetch_caller) (got : completion bool) (p : panel) :
  emotion (fst (after_fetch k got p)) = emotion p.
Proof.
  unfold after_fetch, tryInitialFetch_then, handleConversationEnded_rest.
  destruct got as [g|e]; [|reflexivity].
  destruct k.
  - destruct g; [reflexivity|]. destruct (_ <? _)%nat; reflexivity.
  - destruct (_ && _); [apply spawned_emotion | reflexivity].
Qed.

Lemma fetchFullConversation_emotion (k : fetch_caller) (p : panel) :
  emotion (fst (fetchFullConversation k p)) = emotion p.
Proof.
  unfold fetchFullConversation.
  destruct (_ || _); [apply after_fetch_emotion | reflexivity].
Qed.

Lemma fetchFullConversation_resume_emotion (k : fetch_caller) (o : settled) (p : panel) :
  emotion (fst (fetchFullConversation_resume k o p)) = emotion p.
Proof.
  unfold fetchFullConversation_resume, fetchFullConversation_body.
  destruct o as [log|e]; [|apply after_fetch_emotion].
  destruct (negb _); [apply after_fetch_emotion|].
  destruct (messageLog _) as [entries|e]; [|apply after_fetch_emotion].
  set (p1 := set_messages _ p).
  pose proof (runAnalysis_emotion end_options p1) as H.
  destruct (runAnalysis end_options p1) as [p2 [|req]]; simpl in H.
  - now rewrite after_fetch_emotion.
  - exact H.
Qed.

Lemma analysis_settled_emotion (k : analysis_caller) (o : settled) (p : panel) :
  lower_cased (emotion p) ->
  lower_cased (emotion (fst (analysis_settled JSON_parse k o p))).
Proof.
  intros Hp. unfold analysis_settled.
  pose proof (lower_cased_kept _ _ (persist_resume_emotion JSON_parse o p) Hp) as H.
  destruct (runAnalysis_resume JSON_parse o p) as [p1 r]. simpl in H.
  destruct k as [|fk]; [exact H|]. now rewrite after_fetch_emotion.
Qed.

Lemma wiredSession_emotion (data : option session_record) (err : value) (p : panel) :
  lower_cased (emotion p) -> lower_cased (emotion (wiredSession data err p)).
Proof.
  intros Hp. unfold wiredSession.
  destruct data as [d|]; [|exact Hp].
  destruct (negb _); [|exact Hp].
  destruct (truthy _); [|exact Hp].
  apply StringFacts.toLowerCase_fixed.
Qed.

Lemma persist_step_emotion (ev : event) (s : system) :
  lower_cased (emotion (view s)) ->
  lower_cased (emotion (view (step JSON_parse ev s))).
Proof.
  intros Hs.
  destruct ev as [v|there|subscribe| |data err|data err|message|payload| |i o|i]; simpl.
  - exact Hs.
  - exact Hs.
  - unfold connectedCallback, trySubscribe, trySubscribe_try.
    destruct (receivingSubscription (view s));
      [|destruct (subscribe ConversationEndUserChannel)]; simpl; try exact Hs;
      match goal with |- context [match ?x with Some _ => _ | None => _ end] =>
        destruct x; [|destruct (subscribe ConversationEndedChannel)] end; exact Hs.
  - unfold renderedCallback, tryInitialFetch.
    destruct (_ && _); [|exact Hs]. now rewrite fetchFullConversation_emotion.
  - unfold wiredConfig.
    destruct (truthy data); [|destruct (truthy err); exact Hs].
    destruct (_ && _); [|exact Hs]. now rewrite spawned_emotion.
  - now apply wiredSession_emotion.
  - unfold handleMessageReceived.
    destruct (present _); [|exact Hs]. now rewrite spawned_emotion.
  - unfold handleConversationEnded. now rewrite fetchFullConversation_emotion.
  - unfold handleManualCalculate.
    destruct (negb _); [exact Hs|]. now rewrite spawned_emotion.
  - destruct (nth_error (pending s) i) as [[req k|session k|delay]|]; try exact Hs.
    + now apply analysis_settled_emotion.
    + simpl. now rewrite fetchFullConversation_resume_emotion.
  - destruct (nth_error (pending s) i) as [[req k|session k|delay]|]; try exact Hs.
    simpl. unfold tryInitialFetch. now rewrite fetchFullConversation_emotion.
Qed.

Lemma persist_run_emotion (evs : list event) (s : system) :
  lower_cased (emotion (view s)) ->
  lower_cased (emotion (view (run JSON_parse evs s))).
Proof.
  revert s. induction evs as [|ev evs IH]; intros s Hs; simpl.
  - exact Hs.
  - apply IH, persist_step_emotion, Hs.
Qed.

End Persist.

Section Plain.
Import PlainPanel.

Variable JSON_parse : string -> completion value.

Lemma plain_runAnalysis_emotion (p : panel) :
  emotion (fst (runAnalysis p)) = emotion p.
Proof.
  unfold runAnalysis. repeat FetchFacts.break_match; reflexivity.
Qed.

Lemma plain_spawned_emotion (p : panel) :
  emotion (fst (let '(p1, st) := runAnalysis p in (p1, spawn st))) = emotion p.
Proof.
  pose proof (plain_runAnalysis_emotion p) as H.
  destruct (runAnalysis p). exact H.
Qed.

Lemma plain_trySubscribe_emotion (subscribe : channel -> completion handle) (p : panel) :
  emotion (fst (trySubscribe subscribe p)) = emotion p.
Proof.
  unfold trySubscribe, trySubscribe_try.
  destruct (receivingSubscription p); [|destruct (subscribe ConversationEndUserChannel)];
    simpl; try reflexivity;
    match goal with |- context [match ?x with Some _ => _ | None => _ end] =>
      destruct x; [|destruct (subscribe ConversationEndedChannel)] end; reflexivity.
Qed.

Lemma plain_step_emotion (ev : event) (s : system) :
  lower_cased (emotion (view s)) ->
  lower_cased (emotion (view (step JSON_parse ev s))).
Proof.
  intros Hs.
  destruct ev as [subscribe|subscribe|message|text|payload| |i o]; simpl.
  - unfold connectedCallback.
    pose proof (plain_trySubscribe_emotion subscribe (view s)) as H.
    destruct (trySubscribe subscribe (view s)). simpl in *. now rewrite H.
  - unfold renderedCallback.
    destruct (receivingSubscription (view s)); [exact Hs|].
    now rewrite plain_trySubscribe_emotion.
  - unfold handleMessageReceived.
    match goal with |- context [if negb (truthy ?x) then _ else _] =>
      destruct (negb (truthy x)); [exact Hs|];
      destruct (ToString x); [|exact Hs] end.
    now rewrite plain_spawned_emotion.
  - unfold simulateMessage, handleMessageReceived.
    match goal with |- context [if negb (truthy ?x) then _ else _] =>
      destruct (negb (truthy x)); [exact Hs|];
      destruct (ToString x); [|exact Hs] end.
    now rewrite plain_spawned_emotion.
  - unfold handleConversationEnded. now rewrite plain_spawned_emotion.
  - unfold handleManualCalculate.
    destruct (negb _); [exact Hs|]. now rewrite plain_spawned_emotion.
  - destruct (nth_error (pending s) i); [|exact Hs]. simpl.
    exact (lower_cased_kept _ _ (plain_resume_emotion JSON_parse o (view s)) Hs).
Qed.

Lemma plain_run_emotion (evs : list event) (s : system) :
  lower_cased (emotion (view s)) ->
  lower_cased (emotion (view (run JSON_parse evs s))).
Proof.
  revert s. induction evs as [|ev evs IH]; intros s Hs; simpl.
  - exact Hs.
  - apply IH, plain_step_emotion, Hs.
Qed.

End Plain.

End EmotionFacts.

(** C7 (amended): every operation that writes the emotion field, the
    settlement of an analysis in either panel and the persisted-state
    delivery, stores a lower-cased string; the value is not restricted to
    positive, negative, neutral and unknown: a response whose emotion is the
    non-empty string [s] stores [s] lower-cased, recognised or not.  In every
    run of either panel the emotion held is undefined or lower-cased. *)
Theorem C7_emotion_lower_cased :
  (forall JSON_parse o p,
      let p' := fst (PersistPanel.runAnalysis_resume JSON_parse o p) in
      PersistPanel.emotion p' = PersistPanel.emotion p \/
      exists t, PersistPanel.emotion p' = Some t /\ toLowerCase t = t) /\
  (forall JSON_parse o p,
      let p' := fst (PlainPanel.runAnalysis_resume JSON_parse o p) in
      PlainPanel.emotion p' = PlainPanel.emotion p \/
      exists t, PlainPanel.emotion p' = Some t /\ toLowerCase t = t) /\
  (forall data err p,
      let p' := PersistPanel.wiredSession data err p in
      PersistPanel.emotion p' = PersistPanel.emotion p \/
      exists t, PersistPanel.emotion p' = Some t /\ toLowerCase t = t) /\
  (forall JSON_parse fields s p,
      lookup "emotion" fields = VStr s -> s <> "" ->
      PersistPanel.emotion
        (fst (PersistPanel.runAnalysis_resume JSON_parse (Fulfilled (VObj fields)) p))
        = Some (toLowerCase s) /\
      forall q,
        PlainPanel.emotion
          (fst (PlainPanel.runAnalysis_resume JSON_parse (Fulfilled (VObj fields)) q))
          = Some (toLowerCase s)) /\
  (forall JSON_parse evs,
      EmotionFacts.lower_cased
        (PersistPanel.emotion
           (PersistPanel.view (PersistPanel.run JSON_parse evs PersistPanel.boot)))) /\
  (forall JSON_parse evs,
      EmotionFacts.lower_cased
        (PlainPanel.emotion
           (PlainPanel.view (PlainPanel.run JSON_parse evs PlainPanel.boot)))).
Proof.
  split; [|split; [|split; [|split; [|split]]]].
  - exact persist_resume_emotion.
  - exact plain_resume_emotion.
  - intros data err p. unfold PersistPanel.wiredSession.
    destruct data as [d|]; [|now left].
    destruct (negb _); [|now left].
    destruct (truthy _); [|now left].
    right. eexists. split; [reflexivity | apply StringFacts.toLowerCase_fixed].
  - intros JSON_parse fields s p Hem Hs.
    apply String.eqb_neq in Hs.
    assert (Hl : lowered (opt_get (VObj fields) "emotion") = Normal (toLowerCase s)).
    { unfold lowered, or_else, opt_get. simpl. rewrite Hem. simpl. now rewrite Hs. }
    split; [|intros q].
    + unfold PersistPanel.runAnalysis_resume, PersistPanel.runAnalysis_try.
      rewrite Hl. reflexivity.
    + unfold PlainPanel.runAnalysis_resume, PlainPanel.runAnalysis_try.
      rewrite Hl. reflexivity.
  - intros JSON_parse evs. now apply EmotionFacts.persist_run_emotion.
  - intros JSON_parse evs. now apply EmotionFacts.plain_run_emotion.
Qed.

(** C7 at the response with emotion 'Angry'. *)
Lemma C7_emotion_lower_cased_witness :
  PersistPanel.emotion
    (fst (PersistPanel.runAnalysis_resume Scenario.no_JSON
            (Fulfilled (VObj [("emotion", VStr "Angry")])) Scenario.persist_busy))
    = Some "angry".
Proof.
  refine (proj1 (proj1 (proj2 (proj2 (proj2 C7_emotion_lower_cased))) Scenario.no_JSON
                   [("emotion", VStr "Angry")] "Angry" Scenario.persist_busy eq_refl _)).
  discriminate.
Defined.

(** ** Subscription *)

Module SubscribeFacts.

(** The handle a panel holds for a channel. *)
Definition persist_handle (c : channel) (p : PersistPanel.panel) : option handle :=
  match c with
  | ConversationEndUserChannel => PersistPanel.receivingSubscription p
  | ConversationEndedChannel => PersistPanel.endedSubscription p
  end.

Definition plain_handle (c : channel) (p : PlainPanel.panel) : option handle :=
  match c with
  | ConversationEndUserChannel => PlainPanel.receivingSubscription p
  | ConversationEndedChannel => PlainPanel.endedSubscription p
  end.

(** A [subscribe] that never throws. *)
Definition always (h : handle) : channel -> completion handle := fun _ => Normal h.

(** A [subscribe] that succeeds on the inbound-message channel only. *)
Definition inbound_only (h : handle) : channel -> completion handle :=
  fun c => match c with
           | ConversationEndUserChannel => Normal h
           | ConversationEndedChannel => Throw (TypeError "subscribe failed")
           end.

Ltac subscribe_cases sub p recv ended :=
  destruct (recv p) eqn:?, (sub ConversationEndUserChannel) eqn:?,
           (ended p) eqn:?, (sub ConversationEndedChannel) eqn:?.

(** One invocation of [trySubscribe], channel by channel. *)
Definition persist_spec (sub : channel -> completion handle) (p : PersistPanel.panel) : Prop :=
  let r := PersistPanel.trySubscribe sub p in
  (forall c e, sub c = Throw e -> persist_handle c (fst r) = persist_handle c p) /\
  (forall c h, persist_handle c p = Some h ->
               persist_handle c (fst r) = Some h /\ ~ In c (snd r)) /\
  (PersistPanel.receivingSubscription p = None -> In ConversationEndUserChannel (snd r)) /\
  (PersistPanel.endedSubscription p = None ->
   PersistPanel.receivingSubscription (fst r) <> None ->
   In ConversationEndedChannel (snd r)) /\
  (forall c h, persist_handle c p = None -> In c (snd r) -> sub c = Normal h ->
               persist_handle c (fst r) = Some h) /\
  (forall e, PersistPanel.receivingSubscription p = None ->
             sub ConversationEndUserChannel = Throw e ->
             r = (p, [ConversationEndUserChannel])).

Definition plain_spec (sub : channel -> completion handle) (p : PlainPanel.panel) : Prop :=
  let r := PlainPanel.trySubscribe sub p in
  (forall c e, sub c = Throw e -> plain_handle c (fst r) = plain_handle c p) /\
  (forall c h, plain_handle c p = Some h ->
               plain_handle c (fst r) = Some h /\ ~ In c (snd r)) /\
  (PlainPanel.receivingSubscription p = None -> In ConversationEndUserChannel (snd r)) /\
  (PlainPanel.endedSubscription p = None ->
   PlainPanel.receivingSubscription (fst r) <> None ->
   In ConversationEndedChannel (snd r)) /\
  (forall c h, plain_handle c p = None -> In c (snd r) -> sub c = Normal h ->
               plain_handle c (fst r) = Some h) /\
  (forall e, PlainPanel.receivingSubscription p = None ->
             sub ConversationEndUserChannel = Throw e ->
             r = (p, [ConversationEndUserChannel])).

Lemma persist_trySubscribe_spec sub p : persist_spec sub p.
Proof.
  unfold persist_spec, PersistPanel.trySubscribe, PersistPanel.trySubscribe_try.
  subscribe_cases sub p PersistPanel.receivingSubscription PersistPanel.endedSubscription;
    simpl; repeat match goal with H : _ = _ |- _ => rewrite H end; simpl;
    (split; [|split; [|split; [|split; [|split]]]]);
    try (intros [] ?; simpl; intros; split; [congruence | intros [?|[?|?]]; congruence]);
    try (intros [] ?; simpl; intros; simpl in *; intuition congruence);
    try (intros; simpl in *; intuition congruence).
Qed.

Lemma plain_trySubscribe_spec sub p : plain_spec sub p.
Proof.
  unfold plain_spec, PlainPanel.trySubscribe, PlainPanel.trySubscribe_try.
  subscribe_cases sub p PlainPanel.receivingSubscription PlainPanel.endedSubscription;
    simpl; repeat match goal with H : _ = _ |- _ => rewrite H end; simpl;
    (split; [|split; [|split; [|split; [|split]]]]);
    try (intros [] ?; simpl; intros; split; [congruence | intros [?|[?|?]]; congruence]);
    try (intros [] ?; simpl; intros; simpl in *; intuition congruence);
    try (intros; simpl in *; intuition congruence).
Qed.

End SubscribeFacts.

(** C8, as stated, fails: in the persistence-free panel, after a connect in
    which the inbound-message channel was subscribed and the subscription of
    the conversation-ended channel threw, a render retries nothing, although
    [subscribe] would now succeed: the conversation-ended channel stays
    without a handle. *)
Lemma C8_render_does_not_retry_ended :
  let s1 := PlainPanel.run Scenario.no_JSON
              [PlainPanel.Connected (SubscribeFacts.inbound_only 1)] PlainPanel.boot in
  let s2 := PlainPanel.step Scenario.no_JSON
              (PlainPanel.Rendered (SubscribeFacts.always 2)) s1 in
  PlainPanel.receivingSubscription (PlainPanel.view s1) = Some 1 /\
  PlainPanel.endedSubscription (PlainPanel.view s1) = None /\
  PlainPanel.subscribed s2 = PlainPanel.subscribed s1 /\
  PlainPanel.endedSubscription (PlainPanel.view s2) = None.
Proof.
  repeat split; reflexivity.
Qed.

(** C8 (amended): in both panels one invocation of [trySubscribe] records no
    handle for a channel whose [subscribe] throws, keeps every handle
    already held without calling [subscribe] for its channel, calls
    [subscribe] for the inbound-message channel when it has no handle and for
    the conversation-ended channel when it has none and the inbound-message
    channel holds one by then, and records the handle of a successful call; a
    throw on the inbound-message channel ends the invocation before the
    conversation-ended channel is tried.  The persistence-free panel invokes
    [trySubscribe] again on a render only while the inbound-message channel
    has no handle; the panel with persistence makes no [subscribe] call on a
    render. *)
Theorem C8_subscription :
  (forall sub p, SubscribeFacts.persist_spec sub p) /\
  (forall sub p, SubscribeFacts.plain_spec sub p) /\
  (forall sub p,
      PlainPanel.receivingSubscription p = None ->
      PlainPanel.renderedCallback sub p = PlainPanel.trySubscribe sub p) /\
  (forall sub p h,
      PlainPanel.receivingSubscription p = Some h ->
      PlainPanel.renderedCallback sub p = (p, [])) /\
  (forall JSON_parse s,
      PersistPanel.subscribed (PersistPanel.step JSON_parse PersistPanel.Rendered s)
        = PersistPanel.subscribed s).
Proof.
  split; [|split; [|split; [|split]]].
  - exact SubscribeFacts.persist_trySubscribe_spec.
  - exact SubscribeFacts.plain_trySubscribe_spec.
  - intros sub p H. unfold PlainPanel.renderedCallback. now rewrite H.
  - intros sub p h H. unfold PlainPanel.renderedCallback. now rewrite H.
  - reflexivity.
Qed.

(** C8 at the panel that holds the inbound-message handle only: a render
    does nothing. *)
Lemma C8_subscription_witness :
  let p := PlainPanel.set_receivingSubscription (Some 1) PlainPanel.initial in
  PlainPanel.renderedCallback (SubscribeFacts.always 2) p = (p, []).
Proof.
  exact (proj1 (proj2 (proj2 (proj2 C8_subscription))) (SubscribeFacts.always 2)
           (PlainPanel.set_receivingSubscription (Some 1) PlainPanel.initial) 1 eq_refl).
Defined.

(** ** Responses without an emotion *)

(** What [runAnalysis] reads after the parse step of the panel with
    persistence (line 176). *)
Definition persist_parsed (JSON_parse : string -> completion value) (resp0 : value)
  : completion value :=
  match resp0 with
  | VStr s => JSON_parse s
  | _ => Normal resp0
  end.

(** What [runAnalysis] reads after the parse step of the persistence-free
    panel (lines 115-117): a string that does not parse is kept. *)
Definition plain_parsed (JSON_parse : string -> completion value) (resp0 : value) : value :=
  match resp0 with
  | VStr s => match JSON_parse s with
              | Normal parsed => parsed
              | Throw _ => resp0
              end
  | _ => resp0
  end.




(** * Further properties of the handlers *)

(** ** Trimmed strings and JSON text *)

Module TrimFacts.

Fixpoint no_space (s : string) : bool :=
  match s with
  | EmptyString => true
  | String a rest => negb (is_space a) && no_space rest
  end.

Lemma trimEnd_snoc (s : string) (c : ascii) :
  is_space c = false -> trimEnd (s ++ String c "") = s ++ String c "".
Proof.
  intros Hc. induction s as [|a rest IH]; simpl.
  - now rewrite Hc.
  - rewrite IH. destruct rest; reflexivity.
Qed.

Lemma trimEnd_fixed (s : string) : trimEnd (trimEnd s) = trimEnd s.
Proof.
  induction s as [|a rest IH]; simpl; [reflexivity|].
  destruct (trimEnd rest) as [|b kept] eqn:E.
  - destruct (is_space a) eqn:Ha; simpl; [reflexivity | now rewrite Ha].
  - change (trimEnd (String a (String b kept)))
      with (match trimEnd (String b kept) with
            | EmptyString => if is_space a then EmptyString else String a EmptyString
            | k => String a k
            end).
    now rewrite IH.
Qed.

(** A string that is empty or starts with a character other than white
    space. *)
Definition headed (s : string) : Prop :=
  match s with
  | EmptyString => True
  | String a _ => is_space a = false
  end.

Lemma trimStart_headed (s : string) : headed (trimStart s).
Proof.
  induction s as [|a rest IH]; simpl; [exact I|].
  destruct (is_space a) eqn:Ha; [exact IH | exact Ha].
Qed.

Lemma trimStart_of_headed (s : string) : headed s -> trimStart s = s.
Proof.
  destruct s as [|a rest]; simpl; [reflexivity | now intros ->].
Qed.

Lemma trimEnd_headed (s : string) : headed s -> headed (trimEnd s).
Proof.
  destruct s as [|a rest]; simpl; [trivial|]. intros Ha.
  destruct (trimEnd rest); [rewrite Ha|]; exact Ha.
Qed.

Lemma trimEnd_nonempty (a : ascii) (rest : string) :
  is_space a = false -> trimEnd (String a rest) <> "".
Proof.
  intros Ha. simpl. destruct (trimEnd rest); [rewrite Ha|]; discriminate.
Qed.

(** [trim] is idempotent. *)
Lemma trim_fixed (s : string) : trim (trim s) = trim s.
Proof.
  unfold trim.
  rewrite (trimStart_of_headed (trimEnd (trimStart s))).
  - apply trimEnd_fixed.
  - apply trimEnd_headed, trimStart_headed.
Qed.

Lemma trim_headed_nonempty (a : ascii) (rest : string) :
  is_space a = false -> trim (String a rest) <> "".
Proof.
  intros Ha. unfold trim.
  rewrite (trimStart_of_headed (String a rest) Ha). now apply trimEnd_nonempty.
Qed.

(** A string between two characters that are not white space is its own
    trim. *)
Lemma trim_enclosed (a c : ascii) (body : string) :
  is_space a = false -> is_space c = false ->
  trim (String a (body ++ String c "")) = String a (body ++ String c "").
Proof.
  intros Ha Hc. unfold trim.
  rewrite (trimStart_of_headed (String a (body ++ String c "")) Ha).
  exact (trimEnd_snoc (String a body) c Hc).
Qed.

Lemma trim_no_space (s : string) : no_space s = true -> trim s = s.
Proof.
  intros Hs. unfold trim.
  assert (Hh : headed s).
  { destruct s; simpl in *; [exact I|].
    apply andb_true_iff in Hs. now apply negb_true_iff. }
  rewrite (trimStart_of_headed s Hh). clear Hh.
  induction s as [|a rest IH]; simpl in *; [reflexivity|].
  apply andb_true_iff in Hs. destruct Hs as [Ha Hrest].
  apply negb_true_iff in Ha. rewrite (IH Hrest).
  destruct rest; [now rewrite Ha | reflexivity].
Qed.

Lemma digits_no_space (d : Decimal.uint) : no_space (NilEmpty.string_of_uint d) = true.
Proof.
  induction d; simpl; try reflexivity; exact IHd.
Qed.

Lemma string_of_Z_no_space (n : Z) : no_space (string_of_Z n) = true /\ string_of_Z n <> "".
Proof.
  unfold string_of_Z, NilZero.string_of_int, NilZero.string_of_uint.
  destruct (Z.to_int n) as [d|d]; destruct d; simpl;
    (split; [first [reflexivity | apply digits_no_space] | discriminate]).
Qed.

(** The text [JSON.stringify] produces has no white space at either end and
    is never empty. *)
Lemma JSON_stringify_trimmed (v : value) (t : string) :
  JSON_stringify v = Some t -> trim t = t /\ t <> "".
Proof.
  destruct v as [| |b|n|s|items|fields]; simpl; intros H; try discriminate;
    injection H as <-.
  - split; [reflexivity | discriminate].
  - destruct b; (split; [reflexivity | discriminate]).
  - destruct (string_of_Z_no_space n) as [Hn He]. split; [now apply trim_no_space | exact He].
  - unfold quote. split; [now apply trim_enclosed | discriminate].
  - split; [now apply trim_enclosed | discriminate].
  - split; [now apply trim_enclosed | discriminate].
Qed.

End TrimFacts.

(** ** Inbound messages, manual calculation and configuration (panel with
    persistence) *)

Module PersistHandlers.
Import PersistPanel.

(** The panel once the analysis of its buffer has been started. *)
Definition analysing (p : panel) : panel :=
  set_error VNull (set_loaded false (set__analyzing true p)).

Lemma resolved_text_buffer (o : options) (p : panel) (t : string) :
  overrideText o = None -> messages p = Some t -> trim t = t -> t <> "" ->
  resolved_text o p = t.
Proof.
  intros Ho Hm Htrim Ht. unfold resolved_text. rewrite Ho, Hm. simpl.
  apply String.eqb_neq in Ht. now rewrite Ht.
Qed.

Lemma runAnalysis_on_buffer (o : options) (p : panel) (t : string) :
  overrideText o = None -> messages p = Some t -> trim t = t -> t <> "" ->
  runAnalysis o p =
    if policy_denies o (config p) || _analyzing p then (p, ReturnedNull)
    else (analysing p, Awaiting {| sessionId := recordId p; text := t |}).
Proof.
  intros Ho Hm Htrim Ht. unfold runAnalysis.
  rewrite (resolved_text_buffer o p t Ho Hm Htrim Ht).
  apply String.eqb_neq in Ht. rewrite Ht.
  destruct (policy_denies o (config p)); [reflexivity|].
  destruct (_analyzing p); reflexivity.
Qed.

Lemma inbound_with_content (message : value) (p : panel) (t : string) :
  JSON_stringify (opt_get message "content") = Some t ->
  handleMessageReceived message p =
    let p1 := set_messages (Some t) p in
    if calculateEveryMessage (config p) && negb (_analyzing p)
    then (analysing p1,
          [AwaitAnalysis {| sessionId := recordId p; text := t |} Detached])
    else (p1, []).
Proof.
  intros Ht.
  destruct (TrimFacts.JSON_stringify_trimmed _ _ Ht) as [Htrim Hne].
  unfold handleMessageReceived. rewrite Ht.
  simpl messages. simpl present.
  pose proof Hne as Hne'. apply String.eqb_neq in Hne'. rewrite Hne'. simpl negb. cbv iota.
  rewrite (runAnalysis_on_buffer
             {| force := false; context := "message"; overrideText := None |}
             (set_messages (Some t) p) t eq_refl eq_refl Htrim Hne).
  unfold policy_denies. simpl.
  destruct (calculateEveryMessage (config p)); simpl; [|reflexivity].
  destruct (_analyzing p); reflexivity.
Qed.

End PersistHandlers.

(** X1: an inbound message whose content is defined replaces the buffer by
    the JSON text of the content; if [calculateEveryMessage] is on and no
    analysis is in flight, exactly one analysis call is made, with that text
    unchanged and the record id as session; otherwise no call is made.  A
    message without content erases the buffer and makes no call. *)
Theorem X1_inbound_message :
  (forall message p t,
      JSON_stringify (opt_get message "content") = Some t ->
      PersistPanel.handleMessageReceived message p =
        let p1 := PersistPanel.set_messages (Some t) p in
        if PersistPanel.calculateEveryMessage (PersistPanel.config p)
           && negb (PersistPanel._analyzing p)
        then (PersistHandlers.analysing p1,
              [PersistPanel.AwaitAnalysis
                 {| PersistPanel.sessionId := PersistPanel.recordId p;
                    PersistPanel.text := t |} PersistPanel.Detached])
        else (p1, [])) /\
  (forall message p,
      JSON_stringify (opt_get message "content") = None ->
      PersistPanel.handleMessageReceived message p
        = (PersistPanel.set_messages None p, [])).
Proof.
  split.
  - exact PersistHandlers.inbound_with_content.
  - intros message p Hnone. unfold PersistPanel.handleMessageReceived.
    now rewrite Hnone.
Qed.

(** X1 at the message "I love this!" on a panel configured to analyse every
    message. *)
Lemma X1_inbound_message_witness :
  let p := PersistPanel.set_config
             {| PersistPanel.calculateEveryMessage := true;
                PersistPanel.calculateOnSessionEnd := false;
                PersistPanel.showCalculateButton := false |} PersistPanel.initial in
  snd (PersistPanel.handleMessageReceived (Scenario.inbound "I love this!") p)
    = [PersistPanel.AwaitAnalysis
         {| PersistPanel.sessionId := VUndefined;
            PersistPanel.text := quote "I love this!" |} PersistPanel.Detached].
Proof.
  intros p.
  rewrite (proj1 X1_inbound_message (Scenario.inbound "I love this!") p
             (quote "I love this!") eq_refl).
  reflexivity.
Defined.

(** X2: on a panel with no analysis in flight and [calculateEveryMessage]
    off, an inbound message with content makes no analysis call, and the
    manual calculation that follows makes exactly one, forced, with the JSON
    text of that content. *)
Theorem X2_message_then_manual :
  forall message p t,
    JSON_stringify (opt_get message "content") = Some t ->
    PersistPanel.calculateEveryMessage (PersistPanel.config p) = false ->
    PersistPanel._analyzing p = false ->
    let r1 := PersistPanel.handleMessageReceived message p in
    snd r1 = [] /\
    PersistPanel.handleManualCalculate (fst r1) =
      (PersistHandlers.analysing (fst r1),
       [PersistPanel.AwaitAnalysis
          {| PersistPanel.sessionId := PersistPanel.recordId p;
             PersistPanel.text := t |} PersistPanel.Detached]).
Proof.
  intros message p t Ht Hoff Hidle r1.
  destruct (TrimFacts.JSON_stringify_trimmed _ _ Ht) as [Htrim Hne].
  subst r1. rewrite (PersistHandlers.inbound_with_content message p t Ht).
  cbv zeta. rewrite Hoff. simpl. split; [reflexivity|].
  unfold PersistPanel.handleManualCalculate. simpl PersistPanel.messages. simpl present.
  pose proof Hne as Hne'. apply String.eqb_neq in Hne'. rewrite Hne'. simpl negb. cbv iota.
  rewrite (PersistHandlers.runAnalysis_on_buffer
             {| PersistPanel.force := true; PersistPanel.context := "manual";
                PersistPanel.overrideText := None |}
             (PersistPanel.set_messages (Some t) p) t eq_refl eq_refl Htrim Hne).
  simpl. now rewrite Hidle.
Qed.

(** X2 at the message "I love this!" on the fresh panel, whose
    configuration is all off. *)
Lemma X2_message_then_manual_witness :
  let r1 := PersistPanel.handleMessageReceived (Scenario.inbound "I love this!")
              PersistPanel.initial in
  snd r1 = [] /\
  snd (PersistPanel.handleManualCalculate (fst r1))
    = [PersistPanel.AwaitAnalysis
         {| PersistPanel.sessionId := VUndefined;
            PersistPanel.text := quote "I love this!" |} PersistPanel.Detached].
Proof.
  destruct (X2_message_then_manual (Scenario.inbound "I love this!") PersistPanel.initial
              (quote "I love this!") eq_refl eq_refl eq_refl) as [H1 H2].
  split; [exact H1 | now rewrite H2].
Defined.

Lemma persist_runAnalysis_cases (o : PersistPanel.options) (p : PersistPanel.panel) :
  PersistPanel.runAnalysis o p = (PersistPanel.set_loaded true p, PersistPanel.ReturnedNull) \/
  PersistPanel.runAnalysis o p = (p, PersistPanel.ReturnedNull) \/
  PersistPanel.runAnalysis o p =
    (PersistHandlers.analysing p,
     PersistPanel.Awaiting {| PersistPanel.sessionId := PersistPanel.recordId p;
                              PersistPanel.text := PersistPanel.resolved_text o p |}).
Proof.
  unfold PersistPanel.runAnalysis.
  destruct (String.eqb _ ""); [now left|].
  destruct (PersistPanel.policy_denies _ _); [now right; left|].
  destruct (PersistPanel._analyzing p); [now right; left | now right; right].
Qed.

(** X3: a configuration delivery with data replaces the configuration
    wholesale by the three flags of the data coerced to booleans (a missing
    flag is false) and marks the configuration loaded; it starts an analysis
    only if text is buffered, the new [calculateEveryMessage] is on, no
    analysis is in flight and there is no result yet, and then it does start
    one when the buffer is trimmed, non-empty text.  A delivery with only an
    error keeps the configuration and marks it loaded; an empty delivery
    changes nothing. *)
Theorem X3_wiredConfig :
  (forall data err p,
      truthy data = true ->
      let r := PersistPanel.wiredConfig data err p in
      PersistPanel.config (fst r) =
        {| PersistPanel.calculateEveryMessage := truthy (own data "calculateEveryMessage");
           PersistPanel.calculateOnSessionEnd := truthy (own data "calculateOnSessionEnd");
           PersistPanel.showCalculateButton := truthy (own data "showCalculateButton") |} /\
      PersistPanel._configLoaded (fst r) = true /\
      (snd r <> [] ->
       present (PersistPanel.messages p) = true /\
       truthy (own data "calculateEveryMessage") = true /\
       PersistPanel._analyzing p = false /\
       PersistPanel.hasResult p = false)) /\
  (forall data err p t,
      truthy data = true ->
      truthy (own data "calculateEveryMessage") = true ->
      PersistPanel.messages p = Some t -> trim t = t -> t <> "" ->
      PersistPanel._analyzing p = false ->
      PersistPanel.hasResult p = false ->
      snd (PersistPanel.wiredConfig data err p)
        = [PersistPanel.AwaitAnalysis
             {| PersistPanel.sessionId := PersistPanel.recordId p;
                PersistPanel.text := t |} PersistPanel.Detached]) /\
  (forall data err p,
      truthy data = false -> truthy err = true ->
      PersistPanel.wiredConfig data err p = (PersistPanel.set__configLoaded true p, [])) /\
  (forall data err p,
      truthy data = false -> truthy err = false ->
      PersistPanel.wiredConfig data err p = (p, [])).
Proof.
  split; [|split; [|split]].
  - intros data err p Hdata r. subst r. unfold PersistPanel.wiredConfig. rewrite Hdata.
    simpl PersistPanel.messages. simpl PersistPanel.config.
    simpl PersistPanel.calculateEveryMessage. simpl PersistPanel._analyzing.
    change (PersistPanel.hasResult (PersistPanel.set__configLoaded true _))
      with (PersistPanel.hasResult p).
    match goal with |- context [PersistPanel.runAnalysis ?o ?q] =>
      destruct (persist_runAnalysis_cases o q) as [E|[E|E]]; rewrite E end;
      destruct (present (PersistPanel.messages p));
      destruct (truthy (own data "calculateEveryMessage"));
      destruct (PersistPanel._analyzing p);
      destruct (PersistPanel.hasResult p); simpl;
      (split; [reflexivity | split; [reflexivity | intros Hs]]);
      try (now elim Hs); repeat split.
  - intros data err p t Hdata Hevery Hm Htrim Hne Hidle Hnone.
    unfold PersistPanel.wiredConfig. rewrite Hdata.
    simpl PersistPanel.messages. simpl PersistPanel.config.
    simpl PersistPanel.calculateEveryMessage. simpl PersistPanel._analyzing.
    change (PersistPanel.hasResult (PersistPanel.set__configLoaded true _))
      with (PersistPanel.hasResult p).
    rewrite Hevery, Hidle, Hnone, Hm. simpl present.
    pose proof Hne as Hne'. apply String.eqb_neq in Hne'. rewrite Hne'. simpl.
    match goal with |- context [PersistPanel.runAnalysis ?o ?q] =>
      rewrite (PersistHandlers.runAnalysis_on_buffer o q t eq_refl Hm Htrim Hne) end.
    simpl. rewrite Hidle. reflexivity.
  - intros data err p Hdata Herr. unfold PersistPanel.wiredConfig. now rewrite Hdata, Herr.
  - intros data err p Hdata Herr. unfold PersistPanel.wiredConfig. now rewrite Hdata, Herr.
Qed.

(** X3 at a delivery that switches [calculateEveryMessage] on while the
    text of an earlier message is buffered. *)
Lemma X3_wiredConfig_witness :
  let p := PersistPanel.set_messages (Some (quote "hello")) PersistPanel.initial in
  snd (PersistPanel.wiredConfig (VObj [("calculateEveryMessage", VBool true)]) VUndefined p)
    = [PersistPanel.AwaitAnalysis
         {| PersistPanel.sessionId := VUndefined;
            PersistPanel.text := quote "hello" |} PersistPanel.Detached].
Proof.
  refine (proj1 (proj2 X3_wiredConfig) (VObj [("calculateEveryMessage", VBool true)])
            VUndefined
            (PersistPanel.set_messages (Some (quote "hello")) PersistPanel.initial)
            (quote "hello") eq_refl eq_refl eq_refl eq_refl _ eq_refl eq_refl).
  discriminate.
Defined.

(** ** What a settled analysis leaves behind *)

Lemma or_else_fallback_truthy (a b : value) : truthy b = true -> truthy (or_else a b) = true.
Proof.
  intros Hb. unfold or_else. destruct (truthy a) eqn:Ha; [exact Ha | exact Hb].
Qed.

Lemma failure_message_value (e : value) :
  nullish e = false -> exists m, failure_message e = Normal m.
Proof.
  intros He. unfold failure_message, get. rewrite He.
  destruct (truthy _); eexists; reflexivity.
Qed.

(** The three ways the resumed [runAnalysis] ends, told by what it returns:
    a result, null, or a rejection. *)
Definition persist_outcome (p : PersistPanel.panel)
  (r : PersistPanel.panel * completion (option result)) : Prop :=
  match snd r with
  | Normal (Some res) =>
      PersistPanel.emotion (fst r) = Some (result_emotion res) /\
      PersistPanel.reason (fst r) = result_reason res /\
      PersistPanel.error (fst r) = PersistPanel.error p
  | Normal None =>
      PersistPanel.emotion (fst r) = PersistPanel.emotion p /\
      PersistPanel.reason (fst r) = PersistPanel.reason p /\
      truthy (PersistPanel.error (fst r)) = true
  | Throw _ =>
      PersistPanel.emotion (fst r) = PersistPanel.emotion p /\
      PersistPanel.reason (fst r) = PersistPanel.reason p /\
      PersistPanel.error (fst r) = PersistPanel.error p
  end.

Definition plain_outcome (p : PlainPanel.panel)
  (r : PlainPanel.panel * completion (option result)) : Prop :=
  match snd r with
  | Normal (Some res) =>
      PlainPanel.emotion (fst r) = Some (result_emotion res) /\
      PlainPanel.reason (fst r) = result_reason res /\
      PlainPanel.error (fst r) = PlainPanel.error p
  | Normal None =>
      PlainPanel.emotion (fst r) = PlainPanel.emotion p /\
      PlainPanel.reason (fst r) = PlainPanel.reason p /\
      truthy (PlainPanel.error (fst r)) = true
  | Throw _ =>
      PlainPanel.emotion (fst r) = PlainPanel.emotion p /\
      PlainPanel.reason (fst r) = PlainPanel.reason p /\
      PlainPanel.error (fst r) = PlainPanel.error p
  end.

Lemma persist_try_cases JSON_parse (o : settled) (p : PersistPanel.panel) :
  (exists e, PersistPanel.runAnalysis_try JSON_parse o p = (p, Throw e)) \/
  (exists res, PersistPanel.runAnalysis_try JSON_parse o p
               = (PersistPanel.set_reason (result_reason res)
                    (PersistPanel.set_emotion (Some (result_emotion res)) p),
                  Normal res)).
Proof.
  unfold PersistPanel.runAnalysis_try.
  destruct o as [resp0|e]; [|left; eexists; reflexivity].
  destruct (match resp0 with VStr s => JSON_parse s | _ => Normal resp0 end) as [resp|e];
    [|left; eexists; reflexivity].
  destruct (lowered _) as [em|e]; [|left; eexists; reflexivity].
  right. eexists {| result_emotion := em |}. reflexivity.
Qed.

Lemma plain_try_cases JSON_parse (o : settled) (p : PlainPanel.panel) :
  (exists e, PlainPanel.runAnalysis_try JSON_parse o p = (p, Throw e)) \/
  (exists res, PlainPanel.runAnalysis_try JSON_parse o p
               = (PlainPanel.set_reason (result_reason res)
                    (PlainPanel.set_emotion (Some (result_emotion res)) p),
                  Normal res)).
Proof.
  unfold PlainPanel.runAnalysis_try.
  destruct o as [resp0|e]; [|left; eexists; reflexivity].
  match goal with |- context [lowered ?x] => destruct (lowered x) as [em|e] end;
    [|left; eexists; reflexivity].
  right. eexists {| result_emotion := em |}. reflexivity.
Qed.

(** X4: in both panels the value [runAnalysis] returns tells what it did to
    the panel.  A result carries the emotion and reason just stored and the
    error field is left as the start of the call set it; null after a
    settled call means that emotion and reason are the earlier ones and
    that a truthy error message is stored; a rejection (the failure value
    was null or undefined) leaves emotion, reason and error alone. *)
Theorem X4_result_tells_state :
  (forall JSON_parse o p,
      persist_outcome p (PersistPanel.runAnalysis_resume JSON_parse o p)) /\
  (forall JSON_parse o p,
      plain_outcome p (PlainPanel.runAnalysis_resume JSON_parse o p)).
Proof.
  split; intros JSON_parse o p.
  - unfold PersistPanel.runAnalysis_resume, persist_outcome.
    destruct (persist_try_cases JSON_parse o p) as [[e ->]|[res ->]].
    + destruct (failure_message e) as [m|e']; simpl; repeat split.
      now apply or_else_fallback_truthy.
    + simpl. repeat split.
  - unfold PlainPanel.runAnalysis_resume, plain_outcome.
    destruct (plain_try_cases JSON_parse o p) as [[e ->]|[res ->]].
    + destruct (failure_message e) as [m|e']; simpl; repeat split.
      now apply or_else_fallback_truthy.
    + simpl. repeat split.
Qed.

Lemma persist_failed JSON_parse (o : settled) (p : PersistPanel.panel) (e : value) :
  PersistPanel.runAnalysis_try JSON_parse o p = (p, Throw e) -> nullish e = false ->
  let r := PersistPanel.runAnalysis_resume JSON_parse o p in
  snd r = Normal None /\
  PersistPanel.emotion (fst r) = PersistPanel.emotion p /\
  PersistPanel.reason (fst r) = PersistPanel.reason p /\
  truthy (PersistPanel.error (fst r)) = true.
Proof.
  intros Htry He. unfold PersistPanel.runAnalysis_resume. rewrite Htry.
  destruct (failure_message_value e He) as [m ->]. simpl.
  repeat split. now apply or_else_fallback_truthy.
Qed.

Lemma plain_failed JSON_parse (o : settled) (p : PlainPanel.panel) (e : value) :
  PlainPanel.runAnalysis_try JSON_parse o p = (p, Throw e) -> nullish e = false ->
  let r := PlainPanel.runAnalysis_resume JSON_parse o p in
  snd r = Normal None /\
  PlainPanel.emotion (fst r) = PlainPanel.emotion p /\
  PlainPanel.reason (fst r) = PlainPanel.reason p /\
  truthy (PlainPanel.error (fst r)) = true.
Proof.
  intros Htry He. unfold PlainPanel.runAnalysis_resume. rewrite Htry.
  destruct (failure_message_value e He) as [m ->]. simpl.
  repeat split. now apply or_else_fallback_truthy.
Qed.

Lemma lowered_not_string (x : value) :
  truthy x = true -> (forall s, x <> VStr s) -> exists e, lowered x = Throw e /\ nullish e = false.
Proof.
  intros Hx Hns. unfold lowered, or_else. rewrite Hx.
  destruct x; try (eexists; split; reflexivity). now elim (Hns s).
Qed.

(** X5: responses the panel cannot use end as failures that keep the earlier
    emotion and reason, return null and store a truthy error.  In the panel
    with persistence this is so for a rejected call (with an error value),
    for a string response that [JSON.parse] rejects, and for a response whose
    emotion is truthy but not a string; in the persistence-free panel for a
    rejected call and for an emotion that is truthy but not a string. *)
Theorem X5_unusable_response :
  (forall JSON_parse e p,
      nullish e = false ->
      let r := PersistPanel.runAnalysis_resume JSON_parse (Rejected e) p in
      snd r = Normal None /\
      PersistPanel.emotion (fst r) = PersistPanel.emotion p /\
      PersistPanel.reason (fst r) = PersistPanel.reason p /\
      truthy (PersistPanel.error (fst r)) = true) /\
  (forall JSON_parse s e p,
      JSON_parse s = Throw e -> nullish e = false ->
      let r := PersistPanel.runAnalysis_resume JSON_parse (Fulfilled (VStr s)) p in
      snd r = Normal None /\
      PersistPanel.emotion (fst r) = PersistPanel.emotion p /\
      PersistPanel.reason (fst r) = PersistPanel.reason p /\
      truthy (PersistPanel.error (fst r)) = true) /\
  (forall JSON_parse resp0 resp p,
      persist_parsed JSON_parse resp0 = Normal resp ->
      truthy (opt_get resp "emotion") = true ->
      (forall s, opt_get resp "emotion" <> VStr s) ->
      let r := PersistPanel.runAnalysis_resume JSON_parse (Fulfilled resp0) p in
      snd r = Normal None /\
      PersistPanel.emotion (fst r) = PersistPanel.emotion p /\
      PersistPanel.reason (fst r) = PersistPanel.reason p /\
      truthy (PersistPanel.error (fst r)) = true) /\
  (forall JSON_parse e p,
      nullish e = false ->
      let r := PlainPanel.runAnalysis_resume JSON_parse (Rejected e) p in
      snd r = Normal None /\
      PlainPanel.emotion (fst r) = PlainPanel.emotion p /\
      PlainPanel.reason (fst r) = PlainPanel.reason p /\
      truthy (PlainPanel.error (fst r)) = true) /\
  (forall JSON_parse resp0 p,
      truthy (opt_get (plain_parsed JSON_parse resp0) "emotion") = true ->
      (forall s, opt_get (plain_parsed JSON_parse resp0) "emotion" <> VStr s) ->
      let r := PlainPanel.runAnalysis_resume JSON_parse (Fulfilled resp0) p in
      snd r = Normal None /\
      PlainPanel.emotion (fst r) = PlainPanel.emotion p /\
      PlainPanel.reason (fst r) = PlainPanel.reason p /\
      truthy (PlainPanel.error (fst r)) = true).
Proof.
  split; [|split; [|split; [|split]]].
  - intros JSON_parse e p He. now apply (persist_failed JSON_parse (Rejected e) p e).
  - intros JSON_parse s e p Hparse He.
    apply (persist_failed JSON_parse (Fulfilled (VStr s)) p e); [|exact He].
    unfold PersistPanel.runAnalysis_try. now rewrite Hparse.
  - intros JSON_parse resp0 resp p Hparsed Hx Hns.
    destruct (lowered_not_string _ Hx Hns) as (e & Hl & He).
    apply (persist_failed JSON_parse (Fulfilled resp0) p e); [|exact He].
    unfold PersistPanel.runAnalysis_try. unfold persist_parsed in Hparsed.
    now rewrite Hparsed, Hl.
  - intros JSON_parse e p He. now apply (plain_failed JSON_parse (Rejected e) p e).
  - intros JSON_parse resp0 p Hx Hns.
    destruct (lowered_not_string _ Hx Hns) as (e & Hl & He).
    apply (plain_failed JSON_parse (Fulfilled resp0) p e); [|exact He].
    unfold PlainPanel.runAnalysis_try. fold (plain_parsed JSON_parse resp0).
    now rewrite Hl.
Qed.

(** X5 at a response whose emotion is the number 5, on the panel that holds
    the result 'positive'. *)
Lemma X5_unusable_response_witness :
  let p := PersistPanel.set_emotion (Some "positive") Scenario.persist_busy in
  let r := PersistPanel.runAnalysis_resume Scenario.no_JSON
             (Fulfilled (VObj [("emotion", VNum 5)])) p in
  snd r = Normal None /\ PersistPanel.emotion (fst r) = Some "positive".
Proof.
  assert (Hns : forall s, opt_get (VObj [("emotion", VNum 5)]) "emotion" <> VStr s)
    by (intros s; discriminate).
  destruct (proj1 (proj2 (proj2 X5_unusable_response)) Scenario.no_JSON
              (VObj [("emotion", VNum 5)]) (VObj [("emotion", VNum 5)])
              (PersistPanel.set_emotion (Some "positive") Scenario.persist_busy)
              eq_refl eq_refl Hns) as (H1 & H2 & _).
  split; [exact H1 | exact H2].
Defined.

(** ** Text extraction in the persistence-free panel *)

Module PlainHandlers.
Import PlainPanel.

(** The four probes of [handleMessageReceived] (lines 70-73), in order. *)
Definition extracted (message : value) : value :=
  or_else
    (or_else
       (or_else (opt_get (opt_get message "content") "messageText")
                (opt_get (opt_get message "content") "text"))
       (opt_get message "content"))
    (opt_get message "messageText").

Definition analysing (p : panel) : panel :=
  set_error VNull (set_loaded false (set__analyzing true p)).

Lemma or_else_falsy (a b : value) :
  truthy (or_else a b) = false -> truthy a = false /\ truthy b = false.
Proof.
  unfold or_else. destruct (truthy a) eqn:Ha; intros H; [congruence | now split].
Qed.

(** The serialising fallback of lines 75-77 never applies: when the probes
    find nothing, the content is falsy as well. *)
Lemma fallback_dead (message : value) :
  negb (truthy (extracted message)) && truthy (opt_get message "content") = false.
Proof.
  destruct (truthy (extracted message)) eqn:E; [reflexivity|]. simpl.
  unfold extracted in E.
  apply or_else_falsy in E. destruct E as [E _].
  apply or_else_falsy in E. now destruct E as [_ E].
Qed.

Lemma handleMessageReceived_probes (message : value) (p : panel) :
  handleMessageReceived message p =
    if negb (truthy (extracted message)) then (p, [])
    else
      match ToString (extracted message) with
      | Throw _ => (p, [])
      | Normal str =>
          let p1 := set_messages (Some (trim str)) p in
          let '(p2, st) := runAnalysis p1 in (p2, spawn st)
      end.
Proof.
  unfold handleMessageReceived.
  change (or_else VUndefined (opt_get (opt_get message "content") "messageText"))
    with (opt_get (opt_get message "content") "messageText").
  fold (extracted message).
  now rewrite fallback_dead.
Qed.

Lemma runAnalysis_on_text (p : panel) (t : string) :
  messages p = Some t -> trim t = t -> t <> "" ->
  runAnalysis p = if _analyzing p then (p, ReturnedNull) else (analysing p, Awaiting t).
Proof.
  intros Hm Htrim Hne. unfold runAnalysis, resolved_text. rewrite Hm. simpl.
  pose proof Hne as Hne'. apply String.eqb_neq in Hne'. rewrite Hne'. simpl.
  rewrite Htrim, Hne'. destruct (_analyzing p); reflexivity.
Qed.

Lemma runAnalysis_on_blank (p : panel) :
  messages p = Some "" -> runAnalysis p = (set_loaded true p, ReturnedNull).
Proof.
  intros Hm. unfold runAnalysis, resolved_text. now rewrite Hm.
Qed.

(** What the handler does with the text found. *)
Lemma handleMessageReceived_found (message : value) (p : panel) (str : string) :
  truthy (extracted message) = true ->
  ToString (extracted message) = Normal str ->
  let t := trim str in
  let p1 := set_messages (Some t) p in
  handleMessageReceived message p =
    if String.eqb t "" then (set_loaded true p1, [])
    else if _analyzing p then (p1, [])
    else (analysing p1, [t]).
Proof.
  intros Hfound Hstr. cbv zeta. rewrite handleMessageReceived_probes, Hfound, Hstr.
  simpl negb. cbv iota zeta.
  set (t := trim str).
  set (p1 := set_messages (Some t) p).
  destruct (String.eqb_spec t "") as [Hblank|Hne].
  - rewrite (runAnalysis_on_blank p1); [reflexivity|]. simpl. now rewrite Hblank.
  - rewrite (runAnalysis_on_text p1 t eq_refl (TrimFacts.trim_fixed _) Hne).
    simpl. destruct (_analyzing p); reflexivity.
Qed.

(** A value found that [String] cannot convert stops the handler. *)
Lemma handleMessageReceived_thrown (message : value) (p : panel) (e : value) :
  ToString (extracted message) = Throw e ->
  handleMessageReceived message p = (p, []).
Proof.
  intros Hstr. rewrite handleMessageReceived_probes, Hstr.
  now destruct (negb _).
Qed.

Lemma ToString_cases (v : value) :
  (convertible v = true /\ ToString v = Normal (String_ v)) \/
  (convertible v = false /\ exists e, ToString v = Throw e).
Proof.
  unfold ToString. destruct (convertible v); [left | right]; split; eauto.
Qed.

End PlainHandlers.

(** X6: in the persistence-free panel the text of an inbound message is the
    first truthy value among [content.messageText], [content.text],
    [content] and [messageText]; the JSON fallback never contributes.  When
    none is truthy the panel is unchanged and no call is made.  When the
    value found cannot be converted by [String] (an object with an own
    [toString] property, or an array that holds one), the handler throws
    there: the panel is unchanged and no call is made.  Otherwise the buffer
    becomes that value as a string, trimmed; if it is empty, [loaded] is set
    and no call is made, else one [analyze] call is made with exactly the
    buffer unless an analysis is in flight. *)
Theorem X6_extraction :
  (forall message,
      let a := opt_get (opt_get message "content") "messageText" in
      let b := opt_get (opt_get message "content") "text" in
      let c := opt_get message "content" in
      let d := opt_get message "messageText" in
      PlainHandlers.extracted message =
        if truthy a then a else if truthy b then b else if truthy c then c else d) /\
  (forall message p,
      truthy (PlainHandlers.extracted message) = false ->
      PlainPanel.handleMessageReceived message p = (p, [])) /\
  (forall message p,
      truthy (PlainHandlers.extracted message) = true ->
      convertible (PlainHandlers.extracted message) = false ->
      PlainPanel.handleMessageReceived message p = (p, [])) /\
  (forall message p,
      truthy (PlainHandlers.extracted message) = true ->
      convertible (PlainHandlers.extracted message) = true ->
      let t := trim (String_ (PlainHandlers.extracted message)) in
      let p1 := PlainPanel.set_messages (Some t) p in
      PlainPanel.handleMessageReceived message p =
        if String.eqb t "" then (PlainPanel.set_loaded true p1, [])
        else if PlainPanel._analyzing p then (p1, [])
        else (PlainHandlers.analysing p1, [t])).
Proof.
  split; [|split; [|split]].
  - intros message. cbv zeta. unfold PlainHandlers.extracted, or_else.
    generalize (opt_get (opt_get message "content") "messageText") as a.
    generalize (opt_get (opt_get message "content") "text") as b.
    generalize (opt_get message "content") as c.
    generalize (opt_get message "messageText") as d.
    intros d c b a.
    destruct (truthy a) eqn:Ha; [|destruct (truthy b) eqn:Hb; [|destruct (truthy c) eqn:Hc]];
      repeat (cbv iota; rewrite ?Ha, ?Hb, ?Hc); reflexivity.
  - intros message p Hmiss. rewrite PlainHandlers.handleMessageReceived_probes.
    now rewrite Hmiss.
  - intros message p _ Hconv.
    destruct (PlainHandlers.ToString_cases (PlainHandlers.extracted message))
      as [[H _]|[_ [e He]]]; [congruence|].
    exact (PlainHandlers.handleMessageReceived_thrown message p e He).
  - intros message p Hfound Hconv.
    destruct (PlainHandlers.ToString_cases (PlainHandlers.extracted message))
      as [[_ H]|[H _]]; [|congruence].
    exact (PlainHandlers.handleMessageReceived_found message p _ Hfound H).
Qed.

(** X6 at a payload that carries both [content.text] and a top-level
    [messageText]: the former wins. *)
Lemma X6_extraction_witness :
  let message := VObj [("content", VObj [("text", VStr " from content ")]);
                       ("messageText", VStr "from top")] in
  PlainPanel.handleMessageReceived message PlainPanel.initial
    = (PlainHandlers.analysing
         (PlainPanel.set_messages (Some "from content") PlainPanel.initial),
       ["from content"]).
Proof.
  intros message.
  rewrite (proj2 (proj2 (proj2 X6_extraction)) message PlainPanel.initial eq_refl eq_refl).
  reflexivity.
Defined.

(** X7: in the persistence-free panel a message whose content is an object
    with neither a truthy [messageText] nor a truthy [text] is its own text:
    the content is the first truthy probe and [String] is applied to it.  If
    the object has no own [toString] property it is buffered, and analysed
    when the panel is idle, as the text "[object Object]"; if it has one,
    [String] throws, nothing is buffered and no call is made. *)
Theorem X7_object_content :
  (forall fields rest p,
      truthy (lookup "messageText" fields) = false ->
      truthy (lookup "text" fields) = false ->
      has_own "toString" fields = false ->
      PlainPanel._analyzing p = false ->
      PlainPanel.handleMessageReceived (VObj (("content", VObj fields) :: rest)) p
        = (PlainHandlers.analysing
             (PlainPanel.set_messages (Some "[object Object]") p),
           ["[object Object]"])) /\
  (forall fields rest p,
      truthy (lookup "messageText" fields) = false ->
      truthy (lookup "text" fields) = false ->
      has_own "toString" fields = true ->
      PlainPanel.handleMessageReceived (VObj (("content", VObj fields) :: rest)) p
        = (p, [])).
Proof.
  assert (HE : forall fields rest,
             truthy (lookup "messageText" fields) = false ->
             truthy (lookup "text" fields) = false ->
             PlainHandlers.extracted (VObj (("content", VObj fields) :: rest))
             = VObj fields).
  { intros fields rest Hmt Ht.
    unfold PlainHandlers.extracted, or_else, opt_get. simpl. now rewrite Hmt, Ht. }
  split.
  - intros fields rest p Hmt Ht Hown Hidle.
    rewrite (PlainHandlers.handleMessageReceived_found _ p "[object Object]").
    + simpl. now rewrite Hidle.
    + now rewrite (HE fields rest Hmt Ht).
    + rewrite (HE fields rest Hmt Ht). unfold ToString. simpl. now rewrite Hown.
  - intros fields rest p Hmt Ht Hown.
    apply (PlainHandlers.handleMessageReceived_thrown _ p
             (TypeError "Cannot convert object to primitive value")).
    rewrite (HE fields rest Hmt Ht). unfold ToString. simpl. now rewrite Hown.
Qed.

(** X7 at a content that carries the text under another key. *)
Lemma X7_object_content_witness :
  snd (PlainPanel.handleMessageReceived
         (VObj [("content", VObj [("body", VStr "I love this!")])]) PlainPanel.initial)
    = ["[object Object]"] /\
  PlainPanel.handleMessageReceived
    (VObj [("content", VObj [("toString", VNum 1)])]) PlainPanel.initial
    = (PlainPanel.initial, []).
Proof.
  split.
  - rewrite (proj1 X7_object_content [("body", VStr "I love this!")] [] PlainPanel.initial
               eq_refl eq_refl eq_refl eq_refl).
    reflexivity.
  - exact (proj2 X7_object_content [("toString", VNum 1)] [] PlainPanel.initial
             eq_refl eq_refl eq_refl).
Defined.

(** X8: [simulateMessage] with a string: the empty string changes nothing;
    otherwise the buffer becomes the trimmed string, and an idle panel makes
    one [analyze] call with it, or, when the string is all white space, only
    sets [loaded]. *)
Theorem X8_simulateMessage :
  (forall p, PlainPanel.simulateMessage (VStr "") p = (p, [])) /\
  (forall s p,
      s <> "" ->
      let p1 := PlainPanel.set_messages (Some (trim s)) p in
      PlainPanel.simulateMessage (VStr s) p =
        if String.eqb (trim s) "" then (PlainPanel.set_loaded true p1, [])
        else if PlainPanel._analyzing p then (p1, [])
        else (PlainHandlers.analysing p1, [trim s])).
Proof.
  split.
  - intros p. unfold PlainPanel.simulateMessage.
    now rewrite PlainHandlers.handleMessageReceived_probes.
  - intros s p Hne p1. unfold PlainPanel.simulateMessage.
    assert (HE : PlainHandlers.extracted (VObj [("content", VStr s)]) = VStr s).
    { unfold PlainHandlers.extracted, or_else, opt_get. simpl.
      apply String.eqb_neq in Hne. now rewrite Hne. }
    rewrite (PlainHandlers.handleMessageReceived_found _ p s); rewrite ?HE.
    + reflexivity.
    + simpl. apply String.eqb_neq in Hne. now rewrite Hne.
    + reflexivity.
Qed.

(** X8 at the text " hello world ". *)
Lemma X8_simulateMessage_witness :
  snd (PlainPanel.simulateMessage (VStr " hello world ") PlainPanel.initial)
    = ["hello world"].
Proof.
  assert (Hne : " hello world " <> "") by discriminate.
  rewrite (proj2 X8_simulateMessage " hello world " PlainPanel.initial Hne).
  reflexivity.
Defined.

(** ** The getters of the template *)

Lemma lower_upper_ascii (a : ascii) : lower_ascii (upper_ascii a) = lower_ascii a.
Proof.
  destruct a as [[] [] [] [] [] [] [] []]; reflexivity.
Qed.

Lemma display_lowered (p : PersistPanel.panel) (label : string) :
  EmotionFacts.lower_cased (PersistPanel.emotion p) ->
  PersistPanel.displayEmotion p = Some label ->
  toLowerCase label
    = match PersistPanel.emotion p with Some e => e | None => "" end.
Proof.
  unfold PersistPanel.displayEmotion, EmotionFacts.lower_cased.
  destruct (PersistPanel.emotion p) as [[|a rest]|].
  - intros _ [= <-]. reflexivity.
  - destruct (is_ascii7 a); [|discriminate].
    simpl. intros [= Ha Hrest] [= <-]. simpl. now rewrite lower_upper_ascii, Ha, Hrest.
  - intros _ [= <-]. reflexivity.
Qed.

(** X9: the display label of an emotion that starts with a character below
    128 (the labels this model gives) is the emotion with that character in
    upper case.  Lower-casing the label gives back the stored emotion
    whenever that is lower-cased, which it is in every run of the panel; the
    label has the length of the emotion; it is empty exactly when there is no
    result; and it is given for every emotion that is undefined, empty or
    starts with a character below 128. *)
Theorem X9_displayEmotion :
  (forall p label,
      EmotionFacts.lower_cased (PersistPanel.emotion p) ->
      PersistPanel.displayEmotion p = Some label ->
      toLowerCase label
        = match PersistPanel.emotion p with Some e => e | None => "" end) /\
  (forall JSON_parse evs label,
      let p := PersistPanel.view (PersistPanel.run JSON_parse evs PersistPanel.boot) in
      PersistPanel.displayEmotion p = Some label ->
      toLowerCase label
        = match PersistPanel.emotion p with Some e => e | None => "" end) /\
  (forall p label,
      PersistPanel.displayEmotion p = Some label ->
      String.length label
        = String.length (match PersistPanel.emotion p with Some e => e | None => "" end)) /\
  (forall p, PersistPanel.displayEmotion p = Some "" <-> PersistPanel.hasResult p = false) /\
  (forall p,
      PersistPanel.displayEmotion p = None <->
      exists a rest, PersistPanel.emotion p = Some (String a rest) /\ is_ascii7 a = false).
Proof.
  split; [exact display_lowered | split; [|split; [|split]]].
  - intros JSON_parse evs label p. apply display_lowered.
    now apply EmotionFacts.persist_run_emotion.
  - intros p label. unfold PersistPanel.displayEmotion.
    destruct (PersistPanel.emotion p) as [[|a rest]|]; try (intros [= <-]; reflexivity).
    destruct (is_ascii7 a); [|discriminate]. intros [= <-]. reflexivity.
  - intros p. unfold PersistPanel.displayEmotion, PersistPanel.hasResult.
    destruct (PersistPanel.emotion p) as [[|a rest]|]; simpl;
      try (split; reflexivity).
    destruct (is_ascii7 a); split; discriminate.
  - intros p. unfold PersistPanel.displayEmotion.
    destruct (PersistPanel.emotion p) as [[|a rest]|].
    + split; [discriminate | intros (a & rest & H & _); discriminate].
    + destruct (is_ascii7 a) eqn:E.
      * split; [discriminate|]. intros (a' & rest' & [= <- <-] & H). congruence.
      * split; [|reflexivity]. intros _. exists a, rest. now split.
    + split; [discriminate | intros (a & rest & H & _); discriminate].
Qed.

(** X9 at the stored emotion 'negative'. *)
Lemma X9_displayEmotion_witness :
  let p := PersistPanel.set_emotion (Some "negative") PersistPanel.initial in
  PersistPanel.displayEmotion p = Some "Negative" /\
  toLowerCase "Negative" = "negative".
Proof.
  split; [reflexivity|].
  exact (proj1 X9_displayEmotion
           (PersistPanel.set_emotion (Some "negative") PersistPanel.initial) "Negative"
           eq_refl eq_refl).
Defined.

(** The emotions the getters know. *)
Definition recognised (e : option string) : Prop :=
  e = Some "positive" \/ e = Some "negative" \/ e = Some "neutral".

(** X10: in both panels the badge is the bare "slds-badge" and the icon the
    fallback icon exactly for the emotions other than 'positive', 'negative'
    and 'neutral' (undefined, the empty string and the unrecognised values
    the panel stores); every badge class starts with "slds-badge", and the
    two panels give the same badge for the same emotion. *)
Theorem X10_badge_and_icon :
  (forall p,
      (PersistPanel.badgeClass p = "slds-badge" <-> ~ recognised (PersistPanel.emotion p)) /\
      (PersistPanel.iconName p = "utility:help" <-> ~ recognised (PersistPanel.emotion p)) /\
      exists theme, PersistPanel.badgeClass p = "slds-badge" ++ theme) /\
  (forall q,
      (PlainPanel.badgeClass q = "slds-badge" <-> ~ recognised (PlainPanel.emotion q)) /\
      (PlainPanel.iconName q = "utility:question" <-> ~ recognised (PlainPanel.emotion q))) /\
  (forall p q,
      PersistPanel.emotion p = PlainPanel.emotion q ->
      PersistPanel.badgeClass p = PlainPanel.badgeClass q).
Proof.
  assert (Hcases : forall e : option string,
             recognised e \/
             (~ recognised e /\
              match e with
              | Some s => String.eqb s "positive" = false /\
                          String.eqb s "negative" = false /\
                          String.eqb s "neutral" = false
              | None => True
              end)).
  { intros [s|]; [|right; split; [intros [H|[H|H]]; discriminate | exact I]].
    destruct (String.eqb_spec s "positive") as [->|H1]; [left; now left|].
    destruct (String.eqb_spec s "negative") as [->|H2]; [left; right; now left|].
    destruct (String.eqb_spec s "neutral") as [->|H3]; [left; right; now right|].
    right. split; [|repeat split].
    intros [[= H]|[[= H]|[= H]]]; congruence. }
  split; [|split].
  - intros p. unfold PersistPanel.badgeClass, PersistPanel.iconName.
    destruct (Hcases (PersistPanel.emotion p)) as [[H|[H|H]]|[Hn Hs]].
    + rewrite H. simpl. repeat split; try discriminate;
        try (intros Hno; elim Hno; now left). now exists " slds-theme_success".
    + rewrite H. simpl. repeat split; try discriminate;
        try (intros Hno; elim Hno; right; now left). now exists " slds-theme_error".
    + rewrite H. simpl. repeat split; try discriminate;
        try (intros Hno; elim Hno; right; now right). now exists " slds-theme_info".
    + destruct (PersistPanel.emotion p) as [s|].
      * destruct Hs as (-> & -> & ->). repeat split; auto. now exists "".
      * repeat split; auto. now exists "".
  - intros q. unfold PlainPanel.badgeClass, PlainPanel.iconName.
    destruct (Hcases (PlainPanel.emotion q)) as [[H|[H|H]]|[Hn Hs]].
    + rewrite H. simpl. repeat split; try discriminate;
        try (intros Hno; elim Hno; now left).
    + rewrite H. simpl. repeat split; try discriminate;
        try (intros Hno; elim Hno; right; now left).
    + rewrite H. simpl. repeat split; try discriminate;
        try (intros Hno; elim Hno; right; now right).
    + destruct (PlainPanel.emotion q) as [s|].
      * destruct Hs as (-> & -> & ->). repeat split; auto.
      * repeat split; auto.
  - intros p q H. unfold PersistPanel.badgeClass, PlainPanel.badgeClass. now rewrite H.
Qed.

(** X10 at the unrecognised emotion 'angry': both panels show the bare
    badge. *)
Lemma X10_badge_and_icon_witness :
  let p := PersistPanel.set_emotion (Some "angry") PersistPanel.initial in
  let q := PlainPanel.set_emotion (Some "angry") PlainPanel.initial in
  PersistPanel.badgeClass p = PlainPanel.badgeClass q /\
  PlainPanel.badgeClass q = "slds-badge".
Proof.
  split; [|reflexivity].
  exact (proj2 (proj2 X10_badge_and_icon)
           (PersistPanel.set_emotion (Some "angry") PersistPanel.initial)
           (PlainPanel.set_emotion (Some "angry") PlainPanel.initial) eq_refl).
Defined.

(** ** Rendering, the conversation log and the end of the conversation *)

(** X11: a render starts the initial fetch exactly when it has not been
    started and both the toolkit and a truthy record id are there; it then
    marks the machine started and makes one [getConversationLog] call for the
    record.  Otherwise it changes nothing, so the panel stays ready to start
    at a later render; and a render right after a render never starts
    anything. *)
Theorem X11_renderedCallback :
  (forall p,
      PersistPanel.renderedCallback p =
        if negb (PersistPanel._toolkitReady p) && PersistPanel.toolkit p
           && truthy (PersistPanel.recordId p)
        then (PersistPanel.set__toolkitReady true p,
              [PersistPanel.AwaitLog (PersistPanel.recordId p) PersistPanel.FromInitialFetch])
        else (p, [])) /\
  (forall p,
      snd (PersistPanel.renderedCallback (fst (PersistPanel.renderedCallback p))) = []).
Proof.
  assert (H : forall p,
             PersistPanel.renderedCallback p =
               if negb (PersistPanel._toolkitReady p) && PersistPanel.toolkit p
                  && truthy (PersistPanel.recordId p)
               then (PersistPanel.set__toolkitReady true p,
                     [PersistPanel.AwaitLog (PersistPanel.recordId p)
                        PersistPanel.FromInitialFetch])
               else (p, [])).
  { intros p. unfold PersistPanel.renderedCallback, PersistPanel.tryInitialFetch,
      PersistPanel.fetchFullConversation. simpl.
    destruct (PersistPanel._toolkitReady p); [reflexivity|].
    destruct (PersistPanel.toolkit p); [|reflexivity].
    destruct (truthy (PersistPanel.recordId p)); reflexivity. }
  split; [exact H|].
  intros p. rewrite (H p).
  destruct (negb (PersistPanel._toolkitReady p) && PersistPanel.toolkit p
            && truthy (PersistPanel.recordId p)) eqn:E; cbn [fst].
  - rewrite (H _). reflexivity.
  - rewrite (H p), E. reflexivity.
Qed.

(** The entry built for one message of the log (lines 238-241). *)
Definition log_entry (m : value) : value :=
  VObj [("content", own m "content"); ("author", or_else (own m "name") (VStr "Unknown"))].

Lemma get_value (m : value) (k : string) : nullish m = false -> get m k = Normal (own m k).
Proof.
  intros H. unfold get. now rewrite H.
Qed.

Lemma messageLog_entries (items : list value) :
  forallb (fun m => negb (nullish m)) items = true ->
  PersistPanel.messageLog (VArr items) = Normal (VArr (map log_entry items)).
Proof.
  unfold PersistPanel.messageLog.
  match goal with |- _ -> bind (PersistPanel.each ?f items) _ = _ => set (entry := f) end.
  assert (H : forallb (fun m => negb (nullish m)) items = true ->
              PersistPanel.each entry items = Normal (map log_entry items)).
  { induction items as [|m rest IH]; [reflexivity|].
    cbn [forallb PersistPanel.each map]. intros Hall.
    apply andb_true_iff in Hall. destruct Hall as [Hm Hrest].
    apply negb_true_iff in Hm.
    assert (Hentry : entry m = Normal (log_entry m)).
    { subst entry. cbv beta. now rewrite !(get_value m _ Hm). }
    now rewrite Hentry, (IH Hrest). }
  intros Hall. now rewrite (H Hall).
Qed.




Lemma persist_failed_panel JSON_parse (e : value) (p : PersistPanel.panel) :
  nullish e = false ->
  exists m,
    truthy m = true /\
    PersistPanel.runAnalysis_resume JSON_parse (Rejected e) p
      = (PersistPanel.set__analyzing false
           (PersistPanel.set_loaded true (PersistPanel.set_error m p)),
         Normal None).
Proof.
  intros He. unfold PersistPanel.runAnalysis_resume. simpl.
  destruct (failure_message_value e He) as [m ->]. simpl. eexists.
  split; [|reflexivity]. now apply or_else_fallback_truthy.
Qed.

(** A log of well-formed entries, settled on an idle panel with
    [calculateOnSessionEnd] on: the entries are buffered and the analysis
    awaited by the fetch is started. *)
Lemma log_starts_analysis (k : PersistPanel.fetch_caller)
  (log m : value) (items : list value) (t : string) (p : PersistPanel.panel) :
  PersistPanel._analyzing p = false ->
  PersistPanel.calculateOnSessionEnd (PersistPanel.config p) = true ->
  or_else (opt_get log "messages") (VArr []) = VArr (m :: items) ->
  forallb (fun x => negb (nullish x)) (m :: items) = true ->
  JSON_stringify (VArr (map log_entry (m :: items))) = Some t ->
  PersistPanel.fetchFullConversation_resume k (Fulfilled log) p
    = (PersistHandlers.analysing (PersistPanel.set_messages (Some t) p),
       [PersistPanel.AwaitAnalysis
          {| PersistPanel.sessionId := PersistPanel.recordId p; PersistPanel.text := t |}
          (PersistPanel.FromFetch k)]).
Proof.
  intros Hidle Hend Hraw Hall Ht.
  destruct (TrimFacts.JSON_stringify_trimmed _ _ Ht) as [Htrim Hne].
  unfold PersistPanel.fetchFullConversation_resume, PersistPanel.fetchFullConversation_body.
  rewrite Hraw.
  change (negb (truthy (own (VArr (m :: items)) "length"))) with false. cbv iota.
  rewrite (messageLog_entries _ Hall), Ht.
  rewrite (PersistHandlers.runAnalysis_on_buffer PersistPanel.end_options
             (PersistPanel.set_messages (Some t) p) t eq_refl eq_refl Htrim Hne).
  unfold PersistPanel.policy_denies. simpl. now rewrite Hend, Hidle.
Qed.

(** X13: a failed analysis is attempted a second time on the
    conversation-ended path and not inside the initial fetch.  Both parts
    are runs from a panel with nothing pending, in which nothing but the
    three deliveries named is handled, so that no other suspended call can
    resume between the rejection and what follows it.  The toolkit and a
    record id are present, [calculateOnSessionEnd] is on, no analysis is in
    flight, and the log is non-empty and well formed.

    - Conversation ended, with the initial fetch over ([_toolkitReady] set,
      so that a render starts nothing) and no result held: the event, the
      log and the rejection of the analysis awaited by the fetch leave a
      second analysis of the same text in flight, started by
      [handleConversationEnded] (line 146), with [error] reset to null.  If
      that one is rejected as well, the error is shown and no third analysis
      is started.
    - Initial fetch: after the render that starts it, the log and the same
      rejection nothing is pending, the error is shown, no second analysis
      and no timer was started, and [_initialConversationFetched] is set. *)
Theorem X13_ended_second_attempt :
  (forall JSON_parse payload log m items e e' p t,
      PersistPanel.toolkit p = true ->
      truthy (PersistPanel.recordId p) = true ->
      PersistPanel._toolkitReady p = true ->
      PersistPanel._analyzing p = false ->
      PersistPanel.hasResult p = false ->
      PersistPanel.calculateOnSessionEnd (PersistPanel.config p) = true ->
      or_else (opt_get log "messages") (VArr []) = VArr (m :: items) ->
      forallb (fun x => negb (nullish x)) (m :: items) = true ->
      JSON_stringify (VArr (map log_entry (m :: items))) = Some t ->
      nullish e = false -> nullish e' = false ->
      let s0 := {| PersistPanel.view := p; PersistPanel.pending := [];
                   PersistPanel.issued := []; PersistPanel.subscribed := [] |} in
      let req := {| PersistPanel.sessionId := PersistPanel.recordId p;
                    PersistPanel.text := t |} in
      let calls := [PersistPanel.AwaitLog (PersistPanel.recordId p)
                      PersistPanel.FromConversationEnded;
                    PersistPanel.AwaitAnalysis req
                      (PersistPanel.FromFetch PersistPanel.FromConversationEnded);
                    PersistPanel.AwaitAnalysis req PersistPanel.Detached] in
      let s := PersistPanel.run JSON_parse
                 [PersistPanel.ConversationEnded payload;
                  PersistPanel.Settles 0 (Fulfilled log);
                  PersistPanel.Settles 0 (Rejected e)] s0 in
      let s' := PersistPanel.step JSON_parse (PersistPanel.Settles 0 (Rejected e')) s in
      (PersistPanel.issued s = calls /\
       PersistPanel.pending s = [PersistPanel.AwaitAnalysis req PersistPanel.Detached] /\
       PersistPanel.error (PersistPanel.view s) = VNull /\
       PersistPanel._analyzing (PersistPanel.view s) = true /\
       PersistPanel.loaded (PersistPanel.view s) = false) /\
      (PersistPanel.issued s' = calls /\
       PersistPanel.pending s' = [] /\
       truthy (PersistPanel.error (PersistPanel.view s')) = true /\
       PersistPanel._analyzing (PersistPanel.view s') = false /\
       PersistPanel.loaded (PersistPanel.view s') = true)) /\
  (forall JSON_parse log m items e p t,
      PersistPanel.toolkit p = true ->
      truthy (PersistPanel.recordId p) = true ->
      PersistPanel._toolkitReady p = false ->
      PersistPanel._analyzing p = false ->
      PersistPanel.calculateOnSessionEnd (PersistPanel.config p) = true ->
      or_else (opt_get log "messages") (VArr []) = VArr (m :: items) ->
      forallb (fun x => negb (nullish x)) (m :: items) = true ->
      JSON_stringify (VArr (map log_entry (m :: items))) = Some t ->
      nullish e = false ->
      let s0 := {| PersistPanel.view := p; PersistPanel.pending := [];
                   PersistPanel.issued := []; PersistPanel.subscribed := [] |} in
      let s := PersistPanel.run JSON_parse
                 [PersistPanel.Rendered;
                  PersistPanel.Settles 0 (Fulfilled log);
                  PersistPanel.Settles 0 (Rejected e)] s0 in
      PersistPanel.issued s
        = [PersistPanel.AwaitLog (PersistPanel.recordId p) PersistPanel.FromInitialFetch;
           PersistPanel.AwaitAnalysis
             {| PersistPanel.sessionId := PersistPanel.recordId p; PersistPanel.text := t |}
             (PersistPanel.FromFetch PersistPanel.FromInitialFetch)] /\
      PersistPanel.pending s = [] /\
      PersistPanel._initialConversationFetched (PersistPanel.view s) = true /\
      PersistPanel._fetchAttempts (PersistPanel.view s) = PersistPanel._fetchAttempts p /\
      truthy (PersistPanel.error (PersistPanel.view s)) = true /\
      PersistPanel._analyzing (PersistPanel.view s) = false).
Proof.
  split.
  - intros JSON_parse payload log m items e e' p t Htk Hrid _ Hidle Hnone Hend Hraw Hall Ht
      He He' s0 req calls s s'.
    destruct (TrimFacts.JSON_stringify_trimmed _ _ Ht) as [Htrim Hne].
    set (p0 := PersistPanel.set_conversationEnded true p).
    set (p1 := PersistHandlers.analysing (PersistPanel.set_messages (Some t) p0)).
    destruct (persist_failed_panel JSON_parse e p1 He) as (m1 & _ & Hm1).
    set (p2 := PersistPanel.set__analyzing false
                 (PersistPanel.set_loaded true (PersistPanel.set_error m1 p1))) in Hm1.
    assert (Hs : s = {| PersistPanel.view := PersistHandlers.analysing p2;
                        PersistPanel.pending :=
                          [PersistPanel.AwaitAnalysis req PersistPanel.Detached];
                        PersistPanel.issued := calls;
                        PersistPanel.subscribed := [] |}).
    { subst s s0. unfold PersistPanel.run, fold_left.
      unfold PersistPanel.step at 3.
      unfold PersistPanel.handleConversationEnded, PersistPanel.fetchFullConversation.
      cbn [PersistPanel.view]. fold p0.
      change (PersistPanel.toolkit p0) with (PersistPanel.toolkit p).
      change (PersistPanel.recordId p0) with (PersistPanel.recordId p).
      rewrite Htk, Hrid. cbn [negb orb]. unfold PersistPanel.commit.
      cbn [fst snd PersistPanel.pending PersistPanel.issued PersistPanel.subscribed app].
      unfold PersistPanel.step at 2.
      cbn [PersistPanel.pending PersistPanel.view nth_error].
      rewrite (log_starts_analysis PersistPanel.FromConversationEnded
                 log m items t p0 Hidle Hend Hraw Hall Ht).
      fold p1. change (PersistPanel.recordId p0) with (PersistPanel.recordId p). fold req.
      unfold PersistPanel.commit, PersistPanel.take.
      cbn [fst snd PersistPanel.pending PersistPanel.issued PersistPanel.subscribed
           PersistPanel.view remove_nth app].
      unfold PersistPanel.step.
      cbn [PersistPanel.pending PersistPanel.view nth_error].
      unfold PersistPanel.analysis_settled. rewrite Hm1.
      cbn [PersistPanel.after_fetch]. unfold PersistPanel.handleConversationEnded_rest.
      change (PersistPanel.hasResult p2) with (PersistPanel.hasResult p). rewrite Hnone.
      change (PersistPanel.messages p2) with (Some t).
      pose proof Hne as Hne'. apply String.eqb_neq in Hne'.
      cbn [present negb andb]. rewrite Hne'. cbn [negb].
      rewrite (PersistHandlers.runAnalysis_on_buffer PersistPanel.end_options p2 t
                 eq_refl eq_refl Htrim Hne).
      unfold PersistPanel.policy_denies.
      change (PersistPanel.config p2) with (PersistPanel.config p).
      cbn [PersistPanel.force PersistPanel.end_options PersistPanel.context negb].
      rewrite Hend. simpl. reflexivity. }
    split; [rewrite Hs; repeat split|].
    subst s'. rewrite Hs.
    destruct (persist_failed_panel JSON_parse e' (PersistHandlers.analysing p2) He')
      as (m2 & Htruthy & Hm2).
    unfold PersistPanel.step.
    cbn [PersistPanel.pending PersistPanel.view nth_error].
    unfold PersistPanel.analysis_settled. rewrite Hm2.
    simpl. repeat split. exact Htruthy.
  - intros JSON_parse log m items e p t Htk Hrid Hready Hidle Hend Hraw Hall Ht He s0 s.
    set (p0 := PersistPanel.set__toolkitReady true p).
    set (p1 := PersistHandlers.analysing (PersistPanel.set_messages (Some t) p0)).
    destruct (persist_failed_panel JSON_parse e p1 He) as (m1 & Htruthy & Hm1).
    set (p2 := PersistPanel.set__analyzing false
                 (PersistPanel.set_loaded true (PersistPanel.set_error m1 p1))) in Hm1.
    assert (Hs : s = {| PersistPanel.view :=
                          PersistPanel.set__initialConversationFetched true p2;
                        PersistPanel.pending := [];
                        PersistPanel.issued :=
                          [PersistPanel.AwaitLog (PersistPanel.recordId p)
                             PersistPanel.FromInitialFetch;
                           PersistPanel.AwaitAnalysis
                             {| PersistPanel.sessionId := PersistPanel.recordId p;
                                PersistPanel.text := t |}
                             (PersistPanel.FromFetch PersistPanel.FromInitialFetch)];
                        PersistPanel.subscribed := [] |}).
    { subst s s0. unfold PersistPanel.run, fold_left.
      assert (H1 : PersistPanel.step JSON_parse PersistPanel.Rendered
                     {| PersistPanel.view := p; PersistPanel.pending := [];
                        PersistPanel.issued := []; PersistPanel.subscribed := [] |}
                   = {| PersistPanel.view := p0;
                        PersistPanel.pending :=
                          [PersistPanel.AwaitLog (PersistPanel.recordId p)
                             PersistPanel.FromInitialFetch];
                        PersistPanel.issued :=
                          [PersistPanel.AwaitLog (PersistPanel.recordId p)
                             PersistPanel.FromInitialFetch];
                        PersistPanel.subscribed := [] |}).
      { unfold PersistPanel.step, PersistPanel.renderedCallback,
          PersistPanel.tryInitialFetch, PersistPanel.fetchFullConversation.
        cbn [PersistPanel.view]. rewrite Hready, Htk, Hrid. cbn [negb andb]. fold p0.
        change (PersistPanel.toolkit p0) with (PersistPanel.toolkit p).
        change (PersistPanel.recordId p0) with (PersistPanel.recordId p).
        rewrite Htk, Hrid. reflexivity. }
      rewrite H1. clear H1.
      unfold PersistPanel.step at 2.
      cbn [PersistPanel.pending PersistPanel.view nth_error].
      rewrite (log_starts_analysis PersistPanel.FromInitialFetch
                 log m items t p0 Hidle Hend Hraw Hall Ht).
      fold p1. change (PersistPanel.recordId p0) with (PersistPanel.recordId p).
      unfold PersistPanel.commit, PersistPanel.take.
      cbn [fst snd PersistPanel.pending PersistPanel.issued PersistPanel.subscribed
           PersistPanel.view remove_nth app].
      unfold PersistPanel.step.
      cbn [PersistPanel.pending PersistPanel.view nth_error].
      unfold PersistPanel.analysis_settled. rewrite Hm1. reflexivity. }
    rewrite Hs. simpl. repeat split. exact Htruthy.
Qed.

(** X13 at the log of two messages on a panel for the record "0Mw" with
    [calculateOnSessionEnd] on, when the analysis is rejected with a
    timeout: two analysis calls on the conversation-ended path, one in the
    initial fetch. *)
Lemma X13_ended_second_attempt_witness :
  let p := PersistPanel.set_config
             {| PersistPanel.calculateEveryMessage := false;
                PersistPanel.calculateOnSessionEnd := true;
                PersistPanel.showCalculateButton := false |}
             (PersistPanel.set_toolkit true
                (PersistPanel.set_recordId (VStr "0Mw") PersistPanel.initial)) in
  let at_rest q := {| PersistPanel.view := q; PersistPanel.pending := [];
                      PersistPanel.issued := []; PersistPanel.subscribed := [] |} in
  let timeout := Rejected (VObj [("message", VStr "timeout")]) in
  PersistPanel.analyses
    (PersistPanel.issued
       (PersistPanel.run Scenario.no_JSON
          [PersistPanel.ConversationEnded VUndefined;
           PersistPanel.Settles 0 EndedScenario.log;
           PersistPanel.Settles 0 timeout]
          (at_rest (PersistPanel.set__toolkitReady true p)))) = 2 /\
  PersistPanel.analyses
    (PersistPanel.issued
       (PersistPanel.run Scenario.no_JSON
          [PersistPanel.Rendered;
           PersistPanel.Settles 0 EndedScenario.log;
           PersistPanel.Settles 0 timeout] (at_rest p))) = 1.
Proof.
  intros p at_rest timeout.
  pose (log := VObj [("messages",
                      VArr [VObj [("content", VStr "hello"); ("name", VStr "Ann")];
                            VObj [("content", VStr "bye")]])]).
  split.
  - destruct (proj1 X13_ended_second_attempt Scenario.no_JSON VUndefined log _ _
                (VObj [("message", VStr "timeout")]) (VObj [("message", VStr "timeout")])
                (PersistPanel.set__toolkitReady true p) _
                eq_refl eq_refl eq_refl eq_refl eq_refl eq_refl eq_refl eq_refl
                eq_refl eq_refl eq_refl) as ((H & _) & _).
    change EndedScenario.log with (Fulfilled log).
    unfold timeout, at_rest. rewrite H. reflexivity.
  - destruct (proj2 X13_ended_second_attempt Scenario.no_JSON log _ _
                (VObj [("message", VStr "timeout")])
                p _ eq_refl eq_refl eq_refl eq_refl eq_refl eq_refl eq_refl eq_refl
                eq_refl) as (H & _).
    change EndedScenario.log with (Fulfilled log).
    unfold timeout, at_rest. rewrite H. reflexivity.
Defined.

(** ** The initial fetch that succeeds after some empty answers *)

Module FetchSuccess.
Import PersistPanel FetchFacts.

(** The timers and log calls of [k] further rounds, from counter [a]. *)
Fixpoint rounds (rid : value) (a k : nat) : list task :=
  match k with
  | O => []
  | S k' => Timeout (300 * (a + 1)) :: AwaitLog rid FromInitialFetch :: rounds rid (a + 1) k'
  end.

Lemma rounds_logs (rid : value) (a k : nat) :
  filter is_log (rounds rid a k) = repeat (AwaitLog rid FromInitialFetch) k.
Proof.
  revert a. induction k as [|k IH]; intros a; simpl; [reflexivity|]. now rewrite IH.
Qed.

Lemma rounds_delays (rid : value) (a k : nat) :
  delays (rounds rid a k) = map (fun i => 300 * (a + i)) (seq 1 k).
Proof.
  revert a. induction k as [|k IH]; intros a; [reflexivity|].
  cbn [rounds delays flat_map app seq map]. change (flat_map _ (rounds rid (a + 1) k))
    with (delays (rounds rid (a + 1) k)).
  rewrite IH, <- (seq_shift k 1), map_map. f_equal.
  apply map_ext. intros i. f_equal. lia.
Qed.

Lemma rounds_analyses (rid : value) (a k : nat) : analyses (rounds rid a k) = 0.
Proof.
  revert a. induction k as [|k IH]; intros a; [reflexivity|].
  unfold analyses in *. simpl. apply IH.
Qed.

Lemma set__fetchAttempts_same (p : panel) : set__fetchAttempts (_fetchAttempts p) p = p.
Proof.
  now destruct p.
Qed.

Section Source.

Variable JSON_parse : string -> completion value.
Variable source : nat -> settled.

Lemma drive_one_round (fuel n : nat) (p : panel) (hist : list task) (subs : list channel) :
  toolkit p = true -> truthy (recordId p) = true ->
  _fetchAttempts p < MAX_FETCH_ATTEMPTS ->
  no_data (source n) = true ->
  drive JSON_parse (S (S fuel)) source n (fetching p hist subs) =
  drive JSON_parse fuel source (S n)
    (fetching (set__fetchAttempts (_fetchAttempts p + 1) p)
       (hist ++ rounds (recordId p) (_fetchAttempts p) 1) subs).
Proof.
  intros Htk Hrid Hlt Hn.
  change (drive JSON_parse (S (S fuel)) source n (fetching p hist subs))
    with (drive JSON_parse (S fuel) source (S n)
            (step JSON_parse (Settles 0 (source n)) (fetching p hist subs))).
  pose proof (settle_no_data JSON_parse (fun _ => source n) (fun _ => Hn) n p hist subs Hlt)
    as Hstep.
  cbv beta in Hstep. rewrite Hstep.
  match goal with |- drive _ (S fuel) _ _ ?s = _ =>
    change (drive JSON_parse (S fuel) source (S n) s)
      with (drive JSON_parse fuel source (S n) (step JSON_parse (Fires 0) s)) end.
  rewrite fire_timer by assumption.
  simpl recordId. simpl rounds. now rewrite <- app_assoc.
Qed.

Lemma drive_rounds (k : nat) :
  forall (fuel n : nat) (p : panel) (hist : list task) (subs : list channel),
    toolkit p = true -> truthy (recordId p) = true ->
    _fetchAttempts p + k <= MAX_FETCH_ATTEMPTS ->
    (forall i, i < k -> no_data (source (n + i)) = true) ->
    drive JSON_parse (2 * k + fuel) source n (fetching p hist subs) =
    drive JSON_parse fuel source (n + k)
      (fetching (set__fetchAttempts (_fetchAttempts p + k) p)
         (hist ++ rounds (recordId p) (_fetchAttempts p) k) subs).
Proof.
  induction k as [|k IH]; intros fuel n p hist subs Htk Hrid Hle Hsrc.
  - simpl. now rewrite !Nat.add_0_r, set__fetchAttempts_same, app_nil_r.
  - replace (2 * S k + fuel) with (S (S (2 * k + fuel))) by lia.
    rewrite drive_one_round; try assumption; [|lia|].
    + rewrite IH; try assumption.
      * replace (S n + k) with (n + S k) by lia.
        simpl _fetchAttempts. simpl recordId.
        replace (_fetchAttempts p + 1 + k) with (_fetchAttempts p + S k) by lia.
        simpl rounds. rewrite <- app_assoc. reflexivity.
      * simpl. lia.
      * intros i Hi. replace (S n + i) with (n + S i) by lia. apply Hsrc. lia.
    + rewrite <- (Nat.add_0_r n). apply Hsrc. lia.
Qed.

Lemma drive_log (fuel n : nat) (p : panel) (hist : list task) (subs : list channel) :
  drive JSON_parse (S fuel) source n (fetching p hist subs) =
  drive JSON_parse fuel source (S n)
    (step JSON_parse (Settles 0 (source n)) (fetching p hist subs)).
Proof.
  reflexivity.
Qed.

(** The call that brings the log, with [calculateOnSessionEnd] off. *)
Lemma settle_success (n : nat) (log m : value) (items : list value)
  (p : panel) (hist : list task) (subs : list channel) :
  source n = Fulfilled log ->
  or_else (opt_get log "messages") (VArr []) = VArr (m :: items) ->
  forallb (fun x => negb (nullish x)) (m :: items) = true ->
  calculateOnSessionEnd (config p) = false ->
  step JSON_parse (Settles 0 (source n)) (fetching p hist subs) =
  {| view := set__initialConversationFetched true
               (set_messages (JSON_stringify (VArr (map log_entry (m :: items)))) p);
     pending := []; issued := hist; subscribed := subs |}.
Proof.
  intros Hsrc Hraw Hall Hoff. rewrite Hsrc.
  unfold step, fetching. simpl nth_error.
  unfold fetchFullConversation_resume, fetchFullConversation_body. simpl view.
  rewrite Hraw.
  change (negb (truthy (own (VArr (m :: items)) "length"))) with false. cbv iota.
  rewrite (messageLog_entries _ Hall).
  destruct (JSON_stringify (VArr (map log_entry (m :: items)))) as [t|] eqn:Ht;
    [|discriminate].
  destruct (TrimFacts.JSON_stringify_trimmed _ _ Ht) as [Htrim Hne].
  rewrite (PersistHandlers.runAnalysis_on_buffer end_options
             (set_messages (Some t) p) t eq_refl eq_refl Htrim Hne).
  unfold policy_denies. simpl. rewrite Hoff. simpl.
  unfold commit, take. simpl. now rewrite app_nil_r.
Qed.

End Source.

End FetchSuccess.

(** X14: with the default configuration, if the log source has no data for
    the first [k] calls ([k] at most [MAX_FETCH_ATTEMPTS]) and then delivers
    a non-empty log of well-formed messages, the initial-fetch machine makes
    exactly [k + 1] [getConversationLog] calls, after the delays 300, 600,
    ..., 300 times [k], and then stops: nothing is pending, the flag
    [_initialConversationFetched] is set, the counter is [k], the buffer
    holds the JSON text of the log entries and no analysis call was made. *)
Theorem X14_fetch_succeeds_later :
  forall JSON_parse source rid k log m items extra,
    truthy rid = true ->
    k <= PersistPanel.MAX_FETCH_ATTEMPTS ->
    (forall i, i < k -> FetchFacts.no_data (source i) = true) ->
    source k = Fulfilled log ->
    or_else (opt_get log "messages") (VArr []) = VArr (m :: items) ->
    forallb (fun x => negb (nullish x)) (m :: items) = true ->
    let start := PersistPanel.run JSON_parse
                   [PersistPanel.HostSetsRecordId rid; PersistPanel.ToolkitRef true;
                    PersistPanel.Rendered] PersistPanel.boot in
    let s := PersistPanel.drive JSON_parse (2 * k + (1 + extra)) source 0 start in
    filter PersistPanel.is_log (PersistPanel.issued s)
      = repeat (PersistPanel.AwaitLog rid PersistPanel.FromInitialFetch) (k + 1) /\
    PersistPanel.delays (PersistPanel.issued s) = map (fun i => 300 * i) (seq 1 k) /\
    PersistPanel.pending s = [] /\
    PersistPanel._initialConversationFetched (PersistPanel.view s) = true /\
    PersistPanel._fetchAttempts (PersistPanel.view s) = k /\
    PersistPanel.messages (PersistPanel.view s)
      = JSON_stringify (VArr (map log_entry (m :: items))) /\
    PersistPanel.analyses (PersistPanel.issued s) = 0.
Proof.
  intros JSON_parse source rid k log m items extra Hrid Hk Hempty Hsrc Hraw Hall start s.
  assert (Hstart : start =
            FetchFacts.fetching
              (PersistPanel.set__toolkitReady true
                 (PersistPanel.set_toolkit true
                    (PersistPanel.set_recordId rid PersistPanel.initial)))
              [PersistPanel.AwaitLog rid PersistPanel.FromInitialFetch] []).
  { subst start. unfold PersistPanel.run, fold_left.
    unfold PersistPanel.step, PersistPanel.renderedCallback,
      PersistPanel.tryInitialFetch, PersistPanel.fetchFullConversation.
    cbn. rewrite Hrid. cbn. rewrite ?Hrid. reflexivity. }
  subst s. rewrite Hstart. clear Hstart start.
  rewrite (FetchSuccess.drive_rounds JSON_parse source k); try reflexivity; try assumption.
  change (1 + extra) with (S extra). change (0 + k) with k.
  rewrite FetchSuccess.drive_log.
  {
    rewrite (FetchSuccess.settle_success JSON_parse source k log m items); try assumption;
      [|reflexivity].
    assert (Hdone : forall st, PersistPanel.pending st = [] ->
                      PersistPanel.drive JSON_parse extra source (S k) st = st).
    { intros st Hp. destruct extra; simpl; [reflexivity | now rewrite Hp]. }
    rewrite Hdone by reflexivity.
    cbn [PersistPanel.issued PersistPanel.pending PersistPanel.view].
    simpl PersistPanel.recordId. simpl PersistPanel._fetchAttempts.
    simpl PersistPanel._initialConversationFetched. simpl PersistPanel.messages.
    change ([PersistPanel.AwaitLog rid PersistPanel.FromInitialFetch]
            ++ FetchSuccess.rounds rid 0 k)%list
      with (PersistPanel.AwaitLog rid PersistPanel.FromInitialFetch
            :: FetchSuccess.rounds rid 0 k).
    repeat split.
    + simpl. rewrite FetchSuccess.rounds_logs.
      replace (k + 1) with (S k) by lia. reflexivity.
    + change (PersistPanel.delays (?t :: ?l)) with (PersistPanel.delays l).
      now rewrite FetchSuccess.rounds_delays.
    + unfold PersistPanel.analyses. simpl.
      exact (FetchSuccess.rounds_analyses rid 0 k). }
Qed.

(** X14 at a source that answers with an empty log twice and then with a
    log of two messages: three calls. *)
Lemma X14_fetch_succeeds_later_witness :
  let source := fun n : nat =>
                  if (n <? 2)%nat then Fulfilled (VObj [("messages", VArr [])])
                  else EndedScenario.log in
  let start := PersistPanel.run Scenario.no_JSON
                 [PersistPanel.HostSetsRecordId (VStr "0Mw"); PersistPanel.ToolkitRef true;
                  PersistPanel.Rendered] PersistPanel.boot in
  List.length (filter PersistPanel.is_log
                 (PersistPanel.issued (PersistPanel.drive Scenario.no_JSON 5 source 0 start)))
    = 3.
Proof.
  intros source start.
  assert (Hempty : forall i, i < 2 -> FetchFacts.no_data (source i) = true).
  { intros [|[|i]] Hi; [reflexivity | reflexivity | lia]. }
  assert (Hk : 2 <= PersistPanel.MAX_FETCH_ATTEMPTS)
    by (unfold PersistPanel.MAX_FETCH_ATTEMPTS; lia).
  destruct (X14_fetch_succeeds_later Scenario.no_JSON source (VStr "0Mw") 2
              (VObj [("messages",
                      VArr [VObj [("content", VStr "hello"); ("name", VStr "Ann")];
                            VObj [("content", VStr "bye")]])])
              _ _ 0 eq_refl Hk Hempty eq_refl eq_refl eq_refl) as [H _].
  change (2 * 2 + (1 + 0)) with 5 in H. subst start. rewrite H. reflexivity.
Defined.

(** ** The buffer and the texts sent to the analysis, in an arbitrary run *)

Module TextFacts.

(** A non-empty text without white space at its ends. *)
Definition tight (t : string) : Prop := trim t = t /\ t <> "".

Lemma trimmed_tight (x : string) : trim x <> "" -> tight (trim x).
Proof.
  intros H. split; [apply TrimFacts.trim_fixed | exact H].
Qed.

Section Persist.
Import PersistPanel.

Variable JSON_parse : string -> completion value.

Definition buffer_ok (p : panel) : Prop :=
  match messages p with
  | Some t => tight t
  | None => True
  end.

Definition good_task (t : task) : Prop :=
  match t with
  | AwaitAnalysis req _ => tight (text req)
  | _ => True
  end.

(** A handler keeps the buffer tight and starts only analyses of tight
    text. *)
Definition tidy (p : panel) (r : panel * list task) : Prop :=
  (buffer_ok p -> buffer_ok (fst r)) /\ Forall good_task (snd r).

Lemma tidy_same (p q : panel) : messages q = messages p -> tidy p (q, []).
Proof.
  intros H. split; [unfold buffer_ok; simpl; now rewrite H | constructor].
Qed.

Lemma tidy_step (p q : panel) (r : panel * list task) :
  (buffer_ok p -> buffer_ok q) -> tidy q r -> tidy p r.
Proof.
  intros Hpq [H1 H2]. split; [auto | exact H2].
Qed.

Lemma spawned_tidy (o : options) (k : analysis_caller) (p : panel) :
  tidy p (let '(p1, st) := runAnalysis o p in (p1, spawn st k)).
Proof.
  unfold runAnalysis.
  destruct (String.eqb_spec (resolved_text o p) "") as [E|E]; [now apply tidy_same|].
  destruct (policy_denies _ _); [now apply tidy_same|].
  destruct (_analyzing p); [now apply tidy_same|].
  split; [trivial|]. simpl. constructor; [|constructor].
  simpl. unfold resolved_text in *. now apply trimmed_tight.
Qed.

Lemma after_fetch_tidy (k : fetch_caller) (got : completion bool) (p : panel) :
  tidy p (after_fetch k got p).
Proof.
  unfold after_fetch, tryInitialFetch_then, handleConversationEnded_rest.
  destruct got as [g|e]; [|now apply tidy_same].
  destruct k.
  - destruct g; [now apply tidy_same|].
    destruct (_ <? _)%nat; [|now apply tidy_same].
    split; [trivial|]. repeat constructor.
  - destruct (_ && _); [apply spawned_tidy | now apply tidy_same].
Qed.

Lemma fetchFullConversation_tidy (k : fetch_caller) (p : panel) :
  tidy p (fetchFullConversation k p).
Proof.
  unfold fetchFullConversation.
  destruct (_ || _); [apply after_fetch_tidy|].
  split; [trivial|]. repeat constructor.
Qed.

Lemma stringified_ok (v : value) (p : panel) : buffer_ok (set_messages (JSON_stringify v) p).
Proof.
  unfold buffer_ok. simpl.
  destruct (JSON_stringify v) as [t|] eqn:E; [|exact I].
  exact (TrimFacts.JSON_stringify_trimmed v t E).
Qed.

Lemma fetchFullConversation_resume_tidy (k : fetch_caller) (o : settled) (p : panel) :
  tidy p (fetchFullConversation_resume k o p).
Proof.
  unfold fetchFullConversation_resume, fetchFullConversation_body.
  destruct o as [log|e]; [|apply after_fetch_tidy].
  destruct (negb _); [apply after_fetch_tidy|].
  destruct (messageLog _) as [entries|e]; [|apply after_fetch_tidy].
  set (p1 := set_messages _ p).
  assert (Hp1 : buffer_ok p1) by apply stringified_ok.
  pose proof (spawned_tidy end_options (FromFetch k) p1) as [Hb Hg].
  destruct (runAnalysis end_options p1) as [p2 [|req]]; simpl in Hb, Hg.
  - apply tidy_step with (q := p2); [auto | apply after_fetch_tidy].
  - split; [auto | exact Hg].
Qed.

Lemma runAnalysis_resume_messages (o : settled) (p : panel) :
  messages (fst (runAnalysis_resume JSON_parse o p)) = messages p.
Proof.
  unfold runAnalysis_resume.
  destruct (persist_try_cases JSON_parse o p) as [[e ->]|[res ->]]; [|reflexivity].
  destruct (bind _ _); reflexivity.
Qed.

Lemma analysis_settled_tidy (k : analysis_caller) (o : settled) (p : panel) :
  tidy p (analysis_settled JSON_parse k o p).
Proof.
  unfold analysis_settled.
  pose proof (runAnalysis_resume_messages o p) as H.
  destruct (runAnalysis_resume JSON_parse o p) as [p1 r]. simpl in H.
  destruct k as [|fk]; [now apply tidy_same|].
  apply tidy_step with (q := p1); [unfold buffer_ok; now rewrite H | apply after_fetch_tidy].
Qed.

Lemma handleMessageReceived_tidy (message : value) (p : panel) :
  tidy p (handleMessageReceived message p).
Proof.
  unfold handleMessageReceived.
  set (p1 := set_messages _ p).
  assert (Hp1 : buffer_ok p1) by apply stringified_ok.
  destruct (present (messages p1)).
  - apply tidy_step with (q := p1); [auto | apply spawned_tidy].
  - split; [auto | constructor].
Qed.

Lemma wiredSession_messages (data : option session_record) (err : value) (p : panel) :
  messages (wiredSession data err p) = messages p.
Proof.
  unfold wiredSession. repeat FetchFacts.break_match; reflexivity.
Qed.

Lemma connectedCallback_messages (subscribe : channel -> completion handle) (p : panel) :
  messages (fst (connectedCallback subscribe p)) = messages p.
Proof.
  unfold connectedCallback, trySubscribe, trySubscribe_try.
  destruct (receivingSubscription p);
    [|destruct (subscribe ConversationEndUserChannel)]; simpl; try reflexivity;
    match goal with |- context [match ?x with Some _ => _ | None => _ end] =>
      destruct x; [|destruct (subscribe ConversationEndedChannel)] end; reflexivity.
Qed.

Definition texts_ok (s : system) : Prop :=
  buffer_ok (view s) /\ Forall good_task (issued s).

Lemma commit_tidy (s : system) (r : panel * list task) :
  texts_ok s -> tidy (view s) r -> texts_ok (commit s r).
Proof.
  intros [Hb Hi] [H1 H2]. split; [auto|]. simpl. apply Forall_app. now split.
Qed.

Lemma persist_step_texts (ev : event) (s : system) :
  texts_ok s -> texts_ok (step JSON_parse ev s).
Proof.
  intros Hs.
  destruct ev as [v|there|subscribe| |data err|data err|message|payload| |i o|i]; simpl.
  - apply commit_tidy; [exact Hs | now apply tidy_same].
  - apply commit_tidy; [exact Hs | now apply tidy_same].
  - pose proof (connectedCallback_messages subscribe (view s)) as H.
    destruct (connectedCallback subscribe (view s)) as [p1 calls]. simpl in H.
    destruct Hs as [Hb Hi]. split; [|exact Hi]. unfold buffer_ok in *. simpl. now rewrite H.
  - unfold renderedCallback, tryInitialFetch.
    destruct (_ && _); [|apply commit_tidy; [exact Hs | now apply tidy_same]].
    apply commit_tidy; [exact Hs|].
    apply tidy_step with (q := set__toolkitReady true (view s));
      [trivial | apply fetchFullConversation_tidy].
  - apply commit_tidy; [exact Hs|]. unfold wiredConfig.
    destruct (truthy data); [|destruct (truthy err); now apply tidy_same].
    set (p2 := set__configLoaded true _).
    destruct (_ && _); [|now apply tidy_same].
    apply tidy_step with (q := p2); [trivial | apply spawned_tidy].
  - apply commit_tidy; [exact Hs | apply tidy_same, wiredSession_messages].
  - apply commit_tidy; [exact Hs | apply handleMessageReceived_tidy].
  - apply commit_tidy; [exact Hs|]. unfold handleConversationEnded.
    apply tidy_step with (q := set_conversationEnded true (view s));
      [trivial | apply fetchFullConversation_tidy].
  - apply commit_tidy; [exact Hs|]. unfold handleManualCalculate.
    destruct (negb _); [now apply tidy_same | apply spawned_tidy].
  - destruct (nth_error (pending s) i) as [[req k|session k|delay]|]; try exact Hs.
    + apply (commit_tidy (take i s)); [exact Hs | apply analysis_settled_tidy].
    + apply (commit_tidy (take i s)); [exact Hs | apply fetchFullConversation_resume_tidy].
  - destruct (nth_error (pending s) i) as [[req k|session k|delay]|]; try exact Hs.
    apply (commit_tidy (take i s)); [exact Hs | apply fetchFullConversation_tidy].
Qed.

Lemma persist_run_texts (evs : list event) (s : system) :
  texts_ok s -> texts_ok (run JSON_parse evs s).
Proof.
  revert s. induction evs as [|ev evs IH]; intros s Hs; simpl.
  - exact Hs.
  - apply IH, persist_step_texts, Hs.
Qed.

End Persist.

End TextFacts.

(** X15: in every run of the panel with persistence the buffer is undefined
    or a non-empty text without white space at its ends (it is always JSON
    text), so no handler reaches the empty-text return of [runAnalysis]; and
    every analysis call ever made carries such a text. *)
Theorem X15_persist_texts :
  forall JSON_parse evs,
    let s := PersistPanel.run JSON_parse evs PersistPanel.boot in
    match PersistPanel.messages (PersistPanel.view s) with
    | Some t => trim t = t /\ t <> ""
    | None => True
    end /\
    (forall req k,
        In (PersistPanel.AwaitAnalysis req k) (PersistPanel.issued s) ->
        trim (PersistPanel.text req) = PersistPanel.text req /\ PersistPanel.text req <> "") /\
    (forall o,
        PersistPanel.overrideText o = None ->
        present (PersistPanel.messages (PersistPanel.view s)) = true ->
        PersistPanel.resolved_text o (PersistPanel.view s) <> "").
Proof.
  intros JSON_parse evs s.
  assert (H : TextFacts.texts_ok s).
  { apply TextFacts.persist_run_texts. split; [exact I | constructor]. }
  destruct H as [Hb Hi]. split; [exact Hb | split].
  - intros req k Hin. rewrite Forall_forall in Hi. exact (Hi _ Hin).
  - intros o Ho Hp. unfold TextFacts.buffer_ok in Hb.
    destruct (PersistPanel.messages (PersistPanel.view s)) as [t|] eqn:Hm; [|discriminate].
    destruct Hb as [Htrim Hne].
    now rewrite (PersistHandlers.resolved_text_buffer o _ t Ho Hm Htrim Hne).
Qed.

(** X15 at the run in which the configuration switches
    [calculateEveryMessage] on and the message "hi" arrives. *)
Lemma X15_persist_texts_witness :
  let evs := [PersistPanel.ConfigDelivered (VObj [("calculateEveryMessage", VBool true)])
                VUndefined;
              PersistPanel.MessageReceived (Scenario.inbound "hi")] in
  PersistPanel.issued (PersistPanel.run Scenario.no_JSON evs PersistPanel.boot)
    = [PersistPanel.AwaitAnalysis
         {| PersistPanel.sessionId := VUndefined; PersistPanel.text := quote "hi" |}
         PersistPanel.Detached] /\
  trim (quote "hi") = quote "hi".
Proof.
  intros evs. split; [reflexivity|].
  exact (proj1 (proj1 (proj2 (X15_persist_texts Scenario.no_JSON evs))
                  {| PersistPanel.sessionId := VUndefined; PersistPanel.text := quote "hi" |}
                  PersistPanel.Detached (or_introl eq_refl))).
Defined.

Module PlainTextFacts.
Import PlainPanel.

Definition plain_buffer_ok (p : panel) : Prop :=
  match messages p with
  | Some t => trim t = t
  | None => True
  end.

Definition plain_tidy (p : panel) (r : panel * list string) : Prop :=
  (plain_buffer_ok p -> plain_buffer_ok (fst r)) /\ Forall TextFacts.tight (snd r).

Lemma plain_tidy_same (p q : panel) : messages q = messages p -> plain_tidy p (q, []).
Proof.
  intros H. split; [unfold plain_buffer_ok; simpl; now rewrite H | constructor].
Qed.

Lemma plain_spawned_tidy (p : panel) :
  plain_tidy p (let '(p1, st) := runAnalysis p in (p1, spawn st)).
Proof.
  unfold runAnalysis.
  destruct (String.eqb_spec (resolved_text p) "") as [E|E]; [now apply plain_tidy_same|].
  destruct (_analyzing p); [now apply plain_tidy_same|].
  split; [trivial|]. simpl. constructor; [|constructor].
  unfold resolved_text in *. now apply TextFacts.trimmed_tight.
Qed.

Lemma plain_tidy_step (p q : panel) (r : panel * list string) :
  (plain_buffer_ok p -> plain_buffer_ok q) -> plain_tidy q r -> plain_tidy p r.
Proof.
  intros Hpq [H1 H2]. split; [auto | exact H2].
Qed.

Lemma plain_handleMessageReceived_tidy (message : value) (p : panel) :
  plain_tidy p (handleMessageReceived message p).
Proof.
  rewrite PlainHandlers.handleMessageReceived_probes.
  destruct (negb _); [now apply plain_tidy_same|].
  destruct (ToString _) as [str|e]; [|now apply plain_tidy_same]. cbv zeta.
  set (p1 := set_messages _ p).
  apply plain_tidy_step with (q := p1); [|apply plain_spawned_tidy].
  intros _. unfold plain_buffer_ok. simpl. apply TrimFacts.trim_fixed.
Qed.

Lemma plain_trySubscribe_messages (subscribe : channel -> completion handle) (p : panel) :
  messages (fst (trySubscribe subscribe p)) = messages p.
Proof.
  unfold trySubscribe, trySubscribe_try.
  destruct (receivingSubscription p); [|destruct (subscribe ConversationEndUserChannel)];
    simpl; try reflexivity;
    match goal with |- context [match ?x with Some _ => _ | None => _ end] =>
      destruct x; [|destruct (subscribe ConversationEndedChannel)] end; reflexivity.
Qed.

Section Run.

Variable JSON_parse : string -> completion value.

Lemma plain_resume_messages (o : settled) (p : panel) :
  messages (fst (runAnalysis_resume JSON_parse o p)) = messages p.
Proof.
  unfold runAnalysis_resume.
  destruct (plain_try_cases JSON_parse o p) as [[e ->]|[res ->]]; [|reflexivity].
  destruct (bind _ _); reflexivity.
Qed.

Definition plain_texts_ok (s : system) : Prop :=
  plain_buffer_ok (view s) /\ Forall TextFacts.tight (issued s).

Lemma plain_commit_tidy (s : system) (r : panel * list string) :
  plain_texts_ok s -> plain_tidy (view s) r -> plain_texts_ok (commit s r).
Proof.
  intros [Hb Hi] [H1 H2]. split; [auto|]. simpl. apply Forall_app. now split.
Qed.

Lemma plain_step_texts (ev : event) (s : system) :
  plain_texts_ok s -> plain_texts_ok (step JSON_parse ev s).
Proof.
  intros Hs.
  destruct ev as [subscribe|subscribe|message|text|payload| |i o]; simpl.
  - destruct Hs as [Hb Hi]. split; [|exact Hi].
    unfold plain_buffer_ok, connectedCallback in *. simpl.
    pose proof (plain_trySubscribe_messages subscribe (view s)) as H.
    destruct (trySubscribe subscribe (view s)). simpl in *. now rewrite H.
  - destruct Hs as [Hb Hi]. split; [|exact Hi].
    unfold plain_buffer_ok, renderedCallback in *. simpl.
    destruct (receivingSubscription (view s)); [exact Hb|].
    now rewrite plain_trySubscribe_messages.
  - apply plain_commit_tidy; [exact Hs | apply plain_handleMessageReceived_tidy].
  - apply plain_commit_tidy; [exact Hs | apply plain_handleMessageReceived_tidy].
  - apply plain_commit_tidy; [exact Hs|]. unfold handleConversationEnded.
    apply plain_tidy_step with (q := set_conversationEnded true (view s));
      [trivial | apply plain_spawned_tidy].
  - apply plain_commit_tidy; [exact Hs|]. unfold handleManualCalculate.
    destruct (negb _); [now apply plain_tidy_same | apply plain_spawned_tidy].
  - destruct (nth_error (pending s) i); [|exact Hs].
    destruct Hs as [Hb Hi]. split; [|exact Hi].
    unfold plain_buffer_ok in *. simpl. now rewrite plain_resume_messages.
Qed.

Lemma plain_run_texts (evs : list event) (s : system) :
  plain_texts_ok s -> plain_texts_ok (run JSON_parse evs s).
Proof.
  revert s. induction evs as [|ev evs IH]; intros s Hs; simpl.
  - exact Hs.
  - apply IH, plain_step_texts, Hs.
Qed.

End Run.

End PlainTextFacts.

(** X16: in every run of the persistence-free panel the buffer is undefined
    or a trimmed string (possibly empty), and every [analyze] call ever made
    carries a non-empty text without white space at its ends. *)
Theorem X16_plain_texts :
  forall JSON_parse evs,
    let s := PlainPanel.run JSON_parse evs PlainPanel.boot in
    match PlainPanel.messages (PlainPanel.view s) with
    | Some t => trim t = t
    | None => True
    end /\
    (forall t, In t (PlainPanel.issued s) -> trim t = t /\ t <> "").
Proof.
  intros JSON_parse evs s.
  assert (H : PlainTextFacts.plain_texts_ok s).
  { apply PlainTextFacts.plain_run_texts. split; [exact I | constructor]. }
  destruct H as [Hb Hi]. split; [exact Hb|].
  intros t Hin. rewrite Forall_forall in Hi. exact (Hi _ Hin).
Qed.

(** X16 at the run of one simulated message. *)
Lemma X16_plain_texts_witness :
  let evs := [PlainPanel.SimulateMessage (VStr "  hello ")] in
  PlainPanel.issued (PlainPanel.run Scenario.no_JSON evs PlainPanel.boot) = ["hello"] /\
  trim "hello" = "hello".
Proof.
  intros evs. split; [reflexivity|].
  exact (proj1 (proj2 (X16_plain_texts Scenario.no_JSON evs) "hello" (or_introl eq_refl))).
Defined.

(** ** Manual calculation and blank text *)




(** ** Subscriptions over the life of the panel *)

Module HandleFacts.

Section Persist.
Import PersistPanel.

Variable JSON_parse : string -> completion value.

(** [q] holds the subscriptions of [p]. *)
Definition kept (p q : panel) : Prop :=
  receivingSubscription q = receivingSubscription p /\
  endedSubscription q = endedSubscription p.

Lemma kept_trans (p q r : panel) : kept p q -> kept q r -> kept p r.
Proof.
  unfold kept. intros [-> ->] [-> ->]. now split.
Qed.

Lemma spawned_kept (o : options) (k : analysis_caller) (p : panel) :
  kept p (fst (let '(p1, st) := runAnalysis o p in (p1, spawn st k))).
Proof.
  destruct (persist_runAnalysis_cases o p) as [E|[E|E]]; rewrite E; now split.
Qed.

Lemma after_fetch_kept (k : fetch_caller) (got : completion bool) (p : panel) :
  kept p (fst (after_fetch k got p)).
Proof.
  unfold after_fetch, tryInitialFetch_then, handleConversationEnded_rest.
  destruct got as [g|e]; [|now split].
  destruct k.
  - destruct g; [now split|]. destruct (_ <? _)%nat; now split.
  - destruct (_ && _); [apply spawned_kept | now split].
Qed.

Lemma fetchFullConversation_kept (k : fetch_caller) (p : panel) :
  kept p (fst (fetchFullConversation k p)).
Proof.
  unfold fetchFullConversation.
  destruct (_ || _); [apply after_fetch_kept | now split].
Qed.

Lemma fetchFullConversation_resume_kept (k : fetch_caller) (o : settled) (p : panel) :
  kept p (fst (fetchFullConversation_resume k o p)).
Proof.
  unfold fetchFullConversation_resume, fetchFullConversation_body.
  destruct o as [log|e]; [|apply after_fetch_kept].
  destruct (negb _); [apply after_fetch_kept|].
  destruct (messageLog _) as [entries|e]; [|apply after_fetch_kept].
  set (p1 := set_messages _ p).
  pose proof (spawned_kept end_options (FromFetch k) p1) as H.
  destruct (runAnalysis end_options p1) as [p2 [|req]]; simpl in H.
  - apply kept_trans with (q := p2); [exact H | apply after_fetch_kept].
  - exact H.
Qed.

Lemma analysis_settled_kept (k : analysis_caller) (o : settled) (p : panel) :
  kept p (fst (analysis_settled JSON_parse k o p)).
Proof.
  unfold analysis_settled.
  assert (H : kept p (fst (runAnalysis_resume JSON_parse o p))).
  { unfold runAnalysis_resume.
    destruct (persist_try_cases JSON_parse o p) as [[e ->]|[res ->]]; [|now split].
    destruct (bind _ _); now split. }
  destruct (runAnalysis_resume JSON_parse o p) as [p1 r]. simpl in H.
  destruct k as [|fk]; [exact H|].
  apply kept_trans with (q := p1); [exact H | apply after_fetch_kept].
Qed.

Definition holds (c : channel) (h : handle) (p : panel) : Prop :=
  SubscribeFacts.persist_handle c p = Some h.

Lemma kept_holds (c : channel) (h : handle) (p q : panel) :
  kept p q -> holds c h p -> holds c h q.
Proof.
  unfold holds, kept. intros [H1 H2]. destruct c; simpl; congruence.
Qed.

Lemma persist_step_holds (c : channel) (h : handle) (ev : event) (s : system) :
  holds c h (view s) -> holds c h (view (step JSON_parse ev s)).
Proof.
  intros Hs.
  destruct ev as [v|there|subscribe| |data err|data err|message|payload| |i o|i]; simpl.
  - exact Hs.
  - exact Hs.
  - unfold connectedCallback.
    destruct (SubscribeFacts.persist_trySubscribe_spec subscribe (view s))
      as (_ & Hkeep & _).
    destruct (Hkeep c h Hs) as [Hh _].
    destruct (trySubscribe subscribe (view s)) as [p1 calls]. simpl in *.
    unfold holds. destruct c; exact Hh.
  - apply (kept_holds c h (view s)); [|exact Hs].
    unfold renderedCallback, tryInitialFetch.
    destruct (_ && _); [|now split].
    apply kept_trans with (q := set__toolkitReady true (view s));
      [now split | apply fetchFullConversation_kept].
  - apply (kept_holds c h (view s)); [|exact Hs]. unfold wiredConfig.
    destruct (truthy data); [|destruct (truthy err); now split].
    set (p2 := set__configLoaded true _).
    destruct (_ && _); [|now split].
    apply kept_trans with (q := p2); [now split | apply spawned_kept].
  - apply (kept_holds c h (view s)); [|exact Hs]. unfold wiredSession.
    repeat FetchFacts.break_match; now split.
  - apply (kept_holds c h (view s)); [|exact Hs]. unfold handleMessageReceived.
    set (p1 := set_messages _ (view s)).
    destruct (present (messages p1)); [|now split].
    apply kept_trans with (q := p1); [now split | apply spawned_kept].
  - apply (kept_holds c h (view s)); [|exact Hs]. unfold handleConversationEnded.
    apply kept_trans with (q := set_conversationEnded true (view s));
      [now split | apply fetchFullConversation_kept].
  - apply (kept_holds c h (view s)); [|exact Hs]. unfold handleManualCalculate.
    destruct (negb _); [now split | apply spawned_kept].
  - destruct (nth_error (pending s) i) as [[req k|session k|delay]|]; try exact Hs.
    + apply (kept_holds c h (view s)); [apply analysis_settled_kept | exact Hs].
    + apply (kept_holds c h (view s)); [apply fetchFullConversation_resume_kept | exact Hs].
  - destruct (nth_error (pending s) i) as [[req k|session k|delay]|]; try exact Hs.
    apply (kept_holds c h (view s)); [apply fetchFullConversation_kept | exact Hs].
Qed.

Lemma persist_run_holds (c : channel) (h : handle) (evs : list event) (s : system) :
  holds c h (view s) -> holds c h (view (run JSON_parse evs s)).
Proof.
  revert s. induction evs as [|ev evs IH]; intros s Hs; simpl.
  - exact Hs.
  - apply IH, persist_step_holds, Hs.
Qed.

End Persist.

Section Plain.
Import PlainPanel.

Variable JSON_parse : string -> completion value.

Definition plain_kept (p q : panel) : Prop :=
  receivingSubscription q = receivingSubscription p /\
  endedSubscription q = endedSubscription p.

Definition plain_holds (c : channel) (h : handle) (p : panel) : Prop :=
  SubscribeFacts.plain_handle c p = Some h.

Lemma plain_kept_holds (c : channel) (h : handle) (p q : panel) :
  plain_kept p q -> plain_holds c h p -> plain_holds c h q.
Proof.
  unfold plain_holds, plain_kept. intros [H1 H2]. destruct c; simpl; congruence.
Qed.

Lemma plain_spawned_kept (p : panel) :
  plain_kept p (fst (let '(p1, st) := runAnalysis p in (p1, spawn st))).
Proof.
  unfold runAnalysis.
  destruct (String.eqb _ ""); [now split|].
  destruct (_analyzing p); now split.
Qed.

Lemma plain_trySubscribe_holds (c : channel) (h : handle)
  (subscribe : channel -> completion handle) (p : panel) :
  plain_holds c h p -> plain_holds c h (fst (trySubscribe subscribe p)).
Proof.
  intros Hs.
  destruct (SubscribeFacts.plain_trySubscribe_spec subscribe p) as (_ & Hkeep & _).
  exact (proj1 (Hkeep c h Hs)).
Qed.

Lemma plain_step_holds (c : channel) (h : handle) (ev : event) (s : system) :
  plain_holds c h (view s) -> plain_holds c h (view (step JSON_parse ev s)).
Proof.
  intros Hs.
  destruct ev as [subscribe|subscribe|message|text|payload| |i o]; simpl.
  - unfold connectedCallback.
    pose proof (plain_trySubscribe_holds c h subscribe (view s) Hs) as H.
    destruct (trySubscribe subscribe (view s)) as [p1 calls]. simpl in *.
    unfold plain_holds. destruct c; exact H.
  - unfold renderedCallback.
    destruct (receivingSubscription (view s)) eqn:E; [exact Hs|].
    now apply plain_trySubscribe_holds.
  - apply (plain_kept_holds c h (view s)); [|exact Hs].
    rewrite PlainHandlers.handleMessageReceived_probes.
    destruct (negb _); [now split|].
    destruct (ToString _) as [str|e]; [|now split]. cbv zeta.
    set (p1 := set_messages _ (view s)).
    pose proof (plain_spawned_kept p1) as H. exact H.
  - apply (plain_kept_holds c h (view s)); [|exact Hs]. unfold simulateMessage.
    rewrite PlainHandlers.handleMessageReceived_probes.
    destruct (negb _); [now split|].
    destruct (ToString _) as [str|e]; [|now split]. cbv zeta.
    set (p1 := set_messages _ (view s)).
    pose proof (plain_spawned_kept p1) as H. exact H.
  - apply (plain_kept_holds c h (view s)); [|exact Hs]. unfold handleConversationEnded.
    exact (plain_spawned_kept (set_conversationEnded true (view s))).
  - apply (plain_kept_holds c h (view s)); [|exact Hs]. unfold handleManualCalculate.
    destruct (negb _); [now split | apply plain_spawned_kept].
  - destruct (nth_error (pending s) i); [|exact Hs].
    apply (plain_kept_holds c h (view s)); [|exact Hs]. simpl.
    unfold runAnalysis_resume.
    destruct (plain_try_cases JSON_parse o (view s)) as [[e ->]|[res ->]]; [|now split].
    destruct (bind _ _); now split.
Qed.

Lemma plain_run_holds (c : channel) (h : handle) (evs : list event) (s : system) :
  plain_holds c h (view s) -> plain_holds c h (view (run JSON_parse evs s)).
Proof.
  revert s. induction evs as [|ev evs IH]; intros s Hs; simpl.
  - exact Hs.
  - apply IH, plain_step_holds, Hs.
Qed.

End Plain.

End HandleFacts.

(** X17: neither panel ever drops or replaces a subscription: once a channel
    holds a handle, it holds the same handle after any further sequence of
    events, whatever the later [subscribe] calls would return. *)
Theorem X17_handles_are_kept :
  (forall JSON_parse c h evs s,
      SubscribeFacts.persist_handle c (PersistPanel.view s) = Some h ->
      SubscribeFacts.persist_handle c
        (PersistPanel.view (PersistPanel.run JSON_parse evs s)) = Some h) /\
  (forall JSON_parse c h evs s,
      SubscribeFacts.plain_handle c (PlainPanel.view s) = Some h ->
      SubscribeFacts.plain_handle c
        (PlainPanel.view (PlainPanel.run JSON_parse evs s)) = Some h).
Proof.
  split.
  - intros JSON_parse c h evs s. apply HandleFacts.persist_run_holds.
  - intros JSON_parse c h evs s. apply HandleFacts.plain_run_holds.
Qed.

(** X17 at the panel connected with handle 1, then connected again while
    [subscribe] would return handle 2. *)
Lemma X17_handles_are_kept_witness :
  let s := PersistPanel.run Scenario.no_JSON
             [PersistPanel.Connected (SubscribeFacts.always 1)] PersistPanel.boot in
  PersistPanel.receivingSubscription
    (PersistPanel.view
       (PersistPanel.run Scenario.no_JSON
          [PersistPanel.Connected (SubscribeFacts.always 2)] s)) = Some 1.
Proof.
  intros s.
  exact (proj1 X17_handles_are_kept Scenario.no_JSON ConversationEndUserChannel 1
           [PersistPanel.Connected (SubscribeFacts.always 2)] s eq_refl).
Defined.

(** X18: connecting always leaves [loaded] true; when [subscribe] does not
    throw, a connect from a panel without subscriptions subscribes the
    inbound-message channel and then the conversation-ended channel and
    holds both handles, and a second connect makes no [subscribe] call and
    leaves the panel as it is. *)
Theorem X18_connectedCallback :
  (forall sub p, PersistPanel.loaded (fst (PersistPanel.connectedCallback sub p)) = true) /\
  (forall sub h1 h2 p,
      PersistPanel.receivingSubscription p = None ->
      PersistPanel.endedSubscription p = None ->
      sub ConversationEndUserChannel = Normal h1 ->
      sub ConversationEndedChannel = Normal h2 ->
      let r := PersistPanel.connectedCallback sub p in
      snd r = [ConversationEndUserChannel; ConversationEndedChannel] /\
      PersistPanel.receivingSubscription (fst r) = Some h1 /\
      PersistPanel.endedSubscription (fst r) = Some h2 /\
      forall sub', PersistPanel.connectedCallback sub' (fst r) = (fst r, [])).
Proof.
  split.
  - intros sub p. unfold PersistPanel.connectedCallback.
    destruct (PersistPanel.trySubscribe sub p). reflexivity.
  - intros sub h1 h2 p Hr He H1 H2 r. subst r.
    unfold PersistPanel.connectedCallback, PersistPanel.trySubscribe,
      PersistPanel.trySubscribe_try.
    rewrite Hr, H1. simpl. rewrite He, H2. simpl. repeat split.
Qed.

(** X18 at the fresh panel, with handles 1 and 2. *)
Lemma X18_connectedCallback_witness :
  let sub := fun c => match c with
                      | ConversationEndUserChannel => Normal 1
                      | ConversationEndedChannel => Normal 2
                      end in
  snd (PersistPanel.connectedCallback sub PersistPanel.initial)
    = [ConversationEndUserChannel; ConversationEndedChannel].
Proof.
  intros sub.
  exact (proj1 (proj2 X18_connectedCallback sub 1 2 PersistPanel.initial
                  eq_refl eq_refl eq_refl eq_refl)).
Defined.

(** ** Manual calculation and the end of the conversation *)

(** X19: the manual calculation reports "No message text to analyze yet."
    and does nothing else when the buffer is undefined or empty.  With a
    buffer of non-empty trimmed text it is forced: whatever the
    configuration, an idle panel makes exactly one analysis call with the
    buffer; while an analysis is in flight the request is dropped and the
    panel does not change at all. *)
Theorem X19_manual_calculate :
  (forall p,
      present (PersistPanel.messages p) = false ->
      PersistPanel.handleManualCalculate p
        = (PersistPanel.set_error (VStr "No message text to analyze yet.") p, [])) /\
  (forall p t,
      PersistPanel.messages p = Some t -> trim t = t -> t <> "" ->
      PersistPanel.handleManualCalculate p =
        if PersistPanel._analyzing p then (p, [])
        else (PersistHandlers.analysing p,
              [PersistPanel.AwaitAnalysis
                 {| PersistPanel.sessionId := PersistPanel.recordId p;
                    PersistPanel.text := t |} PersistPanel.Detached])) /\
  (forall q,
      present (PlainPanel.messages q) = false ->
      PlainPanel.handleManualCalculate q
        = (PlainPanel.set_error (VStr "No message text to analyze yet.") q, [])) /\
  (forall q t,
      PlainPanel.messages q = Some t -> trim t = t -> t <> "" ->
      PlainPanel.handleManualCalculate q =
        if PlainPanel._analyzing q then (q, [])
        else (PlainHandlers.analysing q, [t])).
Proof.
  split; [|split; [|split]].
  - intros p Hno. unfold PersistPanel.handleManualCalculate. now rewrite Hno.
  - intros p t Hm Htrim Hne. unfold PersistPanel.handleManualCalculate.
    rewrite Hm. simpl present.
    pose proof Hne as Hne'. apply String.eqb_neq in Hne'. rewrite Hne'. simpl negb. cbv iota.
    rewrite (PersistHandlers.runAnalysis_on_buffer
               {| PersistPanel.force := true; PersistPanel.context := "manual";
                  PersistPanel.overrideText := None |} p t eq_refl Hm Htrim Hne).
    simpl. destruct (PersistPanel._analyzing p); reflexivity.
  - intros q Hno. unfold PlainPanel.handleManualCalculate. now rewrite Hno.
  - intros q t Hm Htrim Hne. unfold PlainPanel.handleManualCalculate.
    rewrite Hm. simpl present.
    pose proof Hne as Hne'. apply String.eqb_neq in Hne'. rewrite Hne'. simpl negb. cbv iota.
    rewrite (PlainHandlers.runAnalysis_on_text q t Hm Htrim Hne).
    destruct (PlainPanel._analyzing q); reflexivity.
Qed.

(** X19 at the panel that is analysing "hi": the manual request is
    dropped. *)
Lemma X19_manual_calculate_witness :
  PersistPanel.handleManualCalculate Scenario.persist_busy = (Scenario.persist_busy, []).
Proof.
  assert (Hne : "hi" <> "") by discriminate.
  exact (proj1 (proj2 X19_manual_calculate) Scenario.persist_busy "hi" eq_refl eq_refl Hne).
Defined.

Lemma toLowerCase_empty (e : string) : toLowerCase e = "" -> e = "".
Proof.
  destruct e; [reflexivity | discriminate].
Qed.

(** X20: the conversation-ended path from end to end.  With the toolkit and
    a record id present, [calculateOnSessionEnd] on and no analysis in
    flight, a conversation-ended event followed by a non-empty well-formed
    log and by an analysis response whose emotion is a non-empty string
    makes exactly one [getConversationLog] call and exactly one analysis
    call, whose text is the JSON text of the log entries; afterward nothing
    is pending, the emotion is the response's, lower-cased, the conversation
    is marked ended, [loaded] is true and no second analysis was started.
    This holds whether or not a result was held before. *)
Theorem X20_conversation_ended_end_to_end :
  forall JSON_parse payload log m items fields e p,
    PersistPanel.toolkit p = true ->
    truthy (PersistPanel.recordId p) = true ->
    PersistPanel._analyzing p = false ->
    PersistPanel.calculateOnSessionEnd (PersistPanel.config p) = true ->
    or_else (opt_get log "messages") (VArr []) = VArr (m :: items) ->
    forallb (fun x => negb (nullish x)) (m :: items) = true ->
    lookup "emotion" fields = VStr e -> e <> "" ->
    forall t, JSON_stringify (VArr (map log_entry (m :: items))) = Some t ->
    let s0 := {| PersistPanel.view := p; PersistPanel.pending := [];
                 PersistPanel.issued := []; PersistPanel.subscribed := [] |} in
    let s := PersistPanel.run JSON_parse
               [PersistPanel.ConversationEnded payload;
                PersistPanel.Settles 0 (Fulfilled log);
                PersistPanel.Settles 0 (Fulfilled (VObj fields))] s0 in
    PersistPanel.issued s
      = [PersistPanel.AwaitLog (PersistPanel.recordId p) PersistPanel.FromConversationEnded;
         PersistPanel.AwaitAnalysis
           {| PersistPanel.sessionId := PersistPanel.recordId p; PersistPanel.text := t |}
           (PersistPanel.FromFetch PersistPanel.FromConversationEnded)] /\
    PersistPanel.pending s = [] /\
    PersistPanel.emotion (PersistPanel.view s) = Some (toLowerCase e) /\
    PersistPanel.messages (PersistPanel.view s) = Some t /\
    PersistPanel.conversationEnded (PersistPanel.view s) = true /\
    PersistPanel.loaded (PersistPanel.view s) = true /\
    PersistPanel._analyzing (PersistPanel.view s) = false.
Proof.
  intros JSON_parse payload log m items fields e p Htk Hrid Hidle Hend Hraw Hall Hem He
    t Ht s0 s.
  destruct (TrimFacts.JSON_stringify_trimmed _ _ Ht) as [Htrim Hne].
  subst s s0. unfold PersistPanel.run, fold_left.
  (* the event *)
  assert (H1 : PersistPanel.step JSON_parse (PersistPanel.ConversationEnded payload)
                 {| PersistPanel.view := p; PersistPanel.pending := [];
                    PersistPanel.issued := []; PersistPanel.subscribed := [] |}
               = {| PersistPanel.view := PersistPanel.set_conversationEnded true p;
                    PersistPanel.pending :=
                      [PersistPanel.AwaitLog (PersistPanel.recordId p)
                         PersistPanel.FromConversationEnded];
                    PersistPanel.issued :=
                      [PersistPanel.AwaitLog (PersistPanel.recordId p)
                         PersistPanel.FromConversationEnded];
                    PersistPanel.subscribed := [] |}).
  { unfold PersistPanel.step, PersistPanel.handleConversationEnded,
      PersistPanel.fetchFullConversation. simpl. now rewrite Htk, Hrid. }
  rewrite H1. clear H1.
  (* the log *)
  set (p1 := PersistPanel.set_messages (Some t) (PersistPanel.set_conversationEnded true p)).
  set (req := {| PersistPanel.sessionId := PersistPanel.recordId p; PersistPanel.text := t |}).
  assert (H2 : PersistPanel.fetchFullConversation_resume PersistPanel.FromConversationEnded
                 (Fulfilled log) (PersistPanel.set_conversationEnded true p)
               = (PersistHandlers.analysing p1,
                  [PersistPanel.AwaitAnalysis req
                     (PersistPanel.FromFetch PersistPanel.FromConversationEnded)])).
  { unfold PersistPanel.fetchFullConversation_resume, PersistPanel.fetchFullConversation_body.
    rewrite Hraw.
    change (negb (truthy (own (VArr (m :: items)) "length"))) with false. cbv iota.
    rewrite (messageLog_entries _ Hall), Ht. fold p1.
    rewrite (PersistHandlers.runAnalysis_on_buffer PersistPanel.end_options p1 t
               eq_refl eq_refl Htrim Hne).
    unfold PersistPanel.policy_denies. simpl. now rewrite Hend, Hidle. }
  match goal with |- context [PersistPanel.step JSON_parse
                                (PersistPanel.Settles 0 (Fulfilled log)) ?s1] =>
    assert (H3 : PersistPanel.step JSON_parse (PersistPanel.Settles 0 (Fulfilled log)) s1
                 = {| PersistPanel.view := PersistHandlers.analysing p1;
                      PersistPanel.pending :=
                        [PersistPanel.AwaitAnalysis req
                           (PersistPanel.FromFetch PersistPanel.FromConversationEnded)];
                      PersistPanel.issued :=
                        [PersistPanel.AwaitLog (PersistPanel.recordId p)
                           PersistPanel.FromConversationEnded;
                         PersistPanel.AwaitAnalysis req
                           (PersistPanel.FromFetch PersistPanel.FromConversationEnded)];
                      PersistPanel.subscribed := [] |})
  end.
  { cbn [PersistPanel.step nth_error PersistPanel.pending PersistPanel.view].
    now rewrite H2. }
  rewrite H3. clear H2 H3.
  (* the analysis *)
  assert (Hl : lowered (opt_get (VObj fields) "emotion") = Normal (toLowerCase e)).
  { unfold lowered, or_else, opt_get. simpl. rewrite Hem. simpl.
    apply String.eqb_neq in He. now rewrite He. }
  cbn [PersistPanel.step nth_error PersistPanel.pending PersistPanel.view].
  unfold PersistPanel.analysis_settled, PersistPanel.runAnalysis_resume,
    PersistPanel.runAnalysis_try. rewrite Hl.
  cbn [PersistPanel.after_fetch]. unfold PersistPanel.handleConversationEnded_rest,
    PersistPanel.hasResult. simpl PersistPanel.emotion. simpl present.
  assert (Hlow : String.eqb (toLowerCase e) "" = false).
  { apply String.eqb_neq. intros H. apply He. now apply toLowerCase_empty. }
  rewrite Hlow. simpl. repeat split.
Qed.

(** X20 at the log of two messages and the response 'Positive', on a panel
    for the record "0Mw" with [calculateOnSessionEnd] on. *)
Lemma X20_conversation_ended_witness :
  let p := PersistPanel.set_config
             {| PersistPanel.calculateEveryMessage := false;
                PersistPanel.calculateOnSessionEnd := true;
                PersistPanel.showCalculateButton := false |}
             (PersistPanel.set_toolkit true
                (PersistPanel.set_recordId (VStr "0Mw") PersistPanel.initial)) in
  let s0 := {| PersistPanel.view := p; PersistPanel.pending := [];
               PersistPanel.issued := []; PersistPanel.subscribed := [] |} in
  PersistPanel.emotion
    (PersistPanel.view
       (PersistPanel.run Scenario.no_JSON
          [PersistPanel.ConversationEnded VUndefined;
           PersistPanel.Settles 0 EndedScenario.log;
           PersistPanel.Settles 0 (Fulfilled (VObj [("emotion", VStr "Positive")]))] s0))
    = Some "positive".
Proof.
  intros p s0.
  assert (Hne : "Positive" <> "") by discriminate.
  destruct (X20_conversation_ended_end_to_end Scenario.no_JSON VUndefined
              (VObj [("messages",
                      VArr [VObj [("content", VStr "hello"); ("name", VStr "Ann")];
                            VObj [("content", VStr "bye")]])])
              _ _ [("emotion", VStr "Positive")] "Positive" p
              eq_refl eq_refl eq_refl eq_refl eq_refl eq_refl eq_refl Hne _ eq_refl)
    as (_ & _ & H & _).
  exact H.
Defined.

(** X21: in the persistence-free panel the end of the conversation is
    gated by no policy: the handler marks the conversation ended and, with a
    buffer of non-empty trimmed text, makes one [analyze] call with it
    unless an analysis is in flight; with an undefined or empty buffer it
    makes no call and only sets [loaded]. *)
Theorem X21_plain_conversation_ended :
  (forall payload q t,
      PlainPanel.messages q = Some t -> trim t = t -> t <> "" ->
      PlainPanel.handleConversationEnded payload q =
        let q1 := PlainPanel.set_conversationEnded true q in
        if PlainPanel._analyzing q then (q1, [])
        else (PlainHandlers.analysing q1, [t])) /\
  (forall payload q,
      present (PlainPanel.messages q) = false ->
      PlainPanel.handleConversationEnded payload q
        = (PlainPanel.set_loaded true (PlainPanel.set_conversationEnded true q), [])).
Proof.
  split.
  - intros payload q t Hm Htrim Hne. unfold PlainPanel.handleConversationEnded.
    rewrite (PlainHandlers.runAnalysis_on_text
               (PlainPanel.set_conversationEnded true q) t Hm Htrim Hne).
    simpl. destruct (PlainPanel._analyzing q); reflexivity.
  - intros payload q Hno. unfold PlainPanel.handleConversationEnded, PlainPanel.runAnalysis,
      PlainPanel.resolved_text. simpl PlainPanel.messages. now rewrite Hno.
Qed.

(** X21 at the idle panel that holds "hello". *)
Lemma X21_plain_conversation_ended_witness :
  snd (PlainPanel.handleConversationEnded VUndefined
         (PlainPanel.set_messages (Some "hello") PlainPanel.initial))
    = ["hello"].
Proof.
  assert (Hne : "hello" <> "") by discriminate.
  rewrite (proj1 X21_plain_conversation_ended VUndefined
             (PlainPanel.set_messages (Some "hello") PlainPanel.initial) "hello"
             eq_refl eq_refl Hne).
  reflexivity.
Defined.
